(** * MetaConscious planning subsystem: a shallow embedding of the backend

    The development follows [backend/app]: the calendar arithmetic of
    Python's [datetime] that the planning engine relies on, the plan schema
    of [models/schemas.py], the completion client of
    [services/llm_client.py], the planning engine of
    [services/planning_engine.py] and the nightly job of
    [services/scheduler.py].  Stateful code is written in a state-and-error
    monad over a [World] holding the relational store, the clock, the
    provider and the trace of observable effects.  Texts are ASCII strings;
    Python objects that come from JSON are values of [json]. *)

From Stdlib Require Import ZArith String Ascii List Lia QArith.
From stdpp Require Import base option list strings gmap pretty.

#[local] Set Warnings "-register-all".

Local Open Scope string_scope.
Local Open Scope Z_scope.

(** ** Python's proleptic Gregorian calendar ([datetime.date]) *)

Record pydate := mkdate { year : Z; month : Z; day : Z }.

#[global] Instance pydate_eq_dec : EqDecision pydate.
Proof. solve_decision. Defined.

Definition MINYEAR : Z := 1.
Definition MAXYEAR : Z := 9999.
Definition MAXORDINAL : Z := 3652059.

Definition is_leap (y : Z) : bool :=
  (y mod 4 =? 0) && (negb (y mod 100 =? 0) || (y mod 400 =? 0)).

Definition DAYS_IN_MONTH (m : Z) : Z :=
  match m with
  | 1 => 31 | 2 => 28 | 3 => 31 | 4 => 30 | 5 => 31 | 6 => 30
  | 7 => 31 | 8 => 31 | 9 => 30 | 10 => 31 | 11 => 30 | 12 => 31
  | _ => -1
  end.

Definition DAYS_BEFORE_MONTH (m : Z) : Z :=
  match m with
  | 1 => 0 | 2 => 31 | 3 => 59 | 4 => 90 | 5 => 120 | 6 => 151
  | 7 => 181 | 8 => 212 | 9 => 243 | 10 => 273 | 11 => 304 | 12 => 334
  | _ => -1
  end.

Definition days_before_year (y : Z) : Z :=
  let y1 := y - 1 in y1 * 365 + y1 / 4 - y1 / 100 + y1 / 400.

Definition days_in_month (y m : Z) : Z :=
  if (m =? 2) && is_leap y then 29 else DAYS_IN_MONTH m.

Definition days_before_month (y m : Z) : Z :=
  DAYS_BEFORE_MONTH m + (if (2 <? m) && is_leap y then 1 else 0).

Definition ymd2ord (y m d : Z) : Z :=
  days_before_year y + days_before_month y m + d.

Definition toordinal (d : pydate) : Z := ymd2ord (year d) (month d) (day d).

(** The checks of the [date] constructor. *)
Definition valid_date (d : pydate) : bool :=
  (MINYEAR <=? year d) && (year d <=? MAXYEAR) &&
  (1 <=? month d) && (month d <=? 12) &&
  (1 <=? day d) && (day d <=? days_in_month (year d) (month d)).

Definition DI400Y : Z := 146097.
Definition DI100Y : Z := 36524.
Definition DI4Y : Z := 1461.

(** [_ord2ymd] of the standard library, step by step. *)
Definition ord2ymd (n0 : Z) : pydate :=
  let n := n0 - 1 in
  let n400 := n / DI400Y in
  let n := n mod DI400Y in
  let y := n400 * 400 + 1 in
  let n100 := n / DI100Y in
  let n := n mod DI100Y in
  let n4 := n / DI4Y in
  let n := n mod DI4Y in
  let n1 := n / 365 in
  let n := n mod 365 in
  let y := y + n100 * 100 + n4 * 4 + n1 in
  if (n1 =? 4) || (n100 =? 4) then mkdate (y - 1) 12 31
  else
    let leapyear := (n1 =? 3) && (negb (n4 =? 24) || (n100 =? 3)) in
    let m := Z.shiftr (n + 50) 5 in
    let preceding :=
      DAYS_BEFORE_MONTH m + (if (2 <? m) && leapyear then 1 else 0) in
    if n <? preceding then
      let m' := m - 1 in
      let preceding' :=
        preceding - (DAYS_IN_MONTH m' + (if (m' =? 2) && leapyear then 1 else 0)) in
      mkdate y m' (n - preceding' + 1)
    else mkdate y m (n - preceding + 1).

(** [d.weekday()]: Monday is 0 and Sunday is 6. *)
Definition weekday (d : pydate) : Z := (toordinal d + 6) mod 7.

(** [d + timedelta(days=k)]; [None] stands for Python's [OverflowError]. *)
Definition add_days (d : pydate) (k : Z) : option pydate :=
  let o := toordinal d + k in
  if (0 <? o) && (o <=? MAXORDINAL) then Some (ord2ymd o) else None.

(** ** [datetime.strptime(s, "%Y-%m-%d")] and [strftime("%Y-%m-%d")] *)

Definition is_digit (c : ascii) : bool :=
  let n := N_of_ascii c in (48 <=? n)%N && (n <=? 57)%N.

Definition digit_val (c : ascii) : Z := Z.of_N (N_of_ascii c) - 48.

Definition in_range (lo hi : ascii) (c : ascii) : bool :=
  (N_of_ascii lo <=? N_of_ascii c)%N && (N_of_ascii c <=? N_of_ascii hi)%N.

(** The directive [%Y] is the regular expression [\d\d\d\d]. *)
Definition parse_Y (s : string) : option (Z * string) :=
  match s with
  | String a (String b (String c (String d rest))) =>
      if is_digit a && is_digit b && is_digit c && is_digit d
      then Some (((digit_val a * 10 + digit_val b) * 10 + digit_val c) * 10
                 + digit_val d, rest)
      else None
  | _ => None
  end.

(** The directive [%m] is [1[0-2]|0[1-9]|[1-9]], alternatives tried in order. *)
Definition parse_m (s : string) : option (Z * string) :=
  match s with
  | String a rest =>
      match rest with
      | String b rest' =>
          if Ascii.eqb a "1" && in_range "0" "2" b
          then Some (10 + digit_val b, rest')
          else if Ascii.eqb a "0" && in_range "1" "9" b
          then Some (digit_val b, rest')
          else if in_range "1" "9" a then Some (digit_val a, rest) else None
      | EmptyString =>
          if in_range "1" "9" a then Some (digit_val a, rest) else None
      end
  | EmptyString => None
  end.

(** The directive [%d] is [3[0-1]|[1-2]\d|0[1-9]|[1-9]| [1-9]]. *)
Definition parse_d (s : string) : option (Z * string) :=
  match s with
  | String a rest =>
      match rest with
      | String b rest' =>
          if Ascii.eqb a "3" && in_range "0" "1" b
          then Some (30 + digit_val b, rest')
          else if in_range "1" "2" a && is_digit b
          then Some (digit_val a * 10 + digit_val b, rest')
          else if Ascii.eqb a "0" && in_range "1" "9" b
          then Some (digit_val b, rest')
          else if in_range "1" "9" a then Some (digit_val a, rest)
          else if Ascii.eqb a " " && in_range "1" "9" b
          then Some (digit_val b, rest')
          else None
      | EmptyString =>
          if in_range "1" "9" a then Some (digit_val a, rest) else None
      end
  | EmptyString => None
  end.

Definition expect (c : ascii) (s : string) : option string :=
  match s with
  | String a rest => if Ascii.eqb a c then Some rest else None
  | EmptyString => None
  end.

(** The format is matched from the start of the text, the whole text must be
    consumed ("unconverted data remains" otherwise) and the fields must
    denote a date.  [None] stands for the [ValueError] Python raises. *)
Definition strptime_ymd (s : string) : option pydate :=
  match parse_Y s with
  | Some (y, s1) =>
      match expect "-" s1 with
      | Some s2 =>
          match parse_m s2 with
          | Some (m, s3) =>
              match expect "-" s3 with
              | Some s4 =>
                  match parse_d s4 with
                  | Some (d, EmptyString) =>
                      let r := mkdate y m d in
                      if valid_date r then Some r else None
                  | _ => None
                  end
              | None => None
              end
          | None => None
          end
      | None => None
      end
  | None => None
  end.

(** The strict shape [^\d{4}-\d{2}-\d{2}$]: ten characters, digits around
    two hyphens. *)
Definition strict_ymd_form (s : string) : bool :=
  match s with
  | String y1 (String y2 (String y3 (String y4 (String h1
      (String m1 (String m2 (String h2 (String d1 (String d2 EmptyString))))))))) =>
      is_digit y1 && is_digit y2 && is_digit y3 && is_digit y4 &&
      Ascii.eqb h1 "-" && is_digit m1 && is_digit m2 &&
      Ascii.eqb h2 "-" && is_digit d1 && is_digit d2
  | _ => false
  end.

Definition pad (width : nat) (z : Z) : string :=
  let s := pretty z in
  String.concat "" (repeat "0" (width - String.length s)) ++ s.

Definition strftime_ymd (d : pydate) : string :=
  pad 4 (year d) ++ "-" ++ pad 2 (month d) ++ "-" ++ pad 2 (day d).

(** ** The week bucket: [PlanningEngine.get_week_number] *)

(** [None] stands for the [OverflowError] of the date shift. *)
Definition get_week_number (date : pydate) : option Z :=
  let d := mkdate (year date) (month date) (day date) in
  let day_num := weekday d + 1 in
  let day_num := if day_num =? 7 then 0 else day_num in
  match add_days d (4 - day_num) with
  | None => None
  | Some d =>
      let year_start := mkdate (year d) 1 1 in
      let days_diff := (toordinal d - toordinal year_start) + 1 in
      let week_number := (days_diff + 6) / 7 in
      Some week_number
  end.

(** ** Values produced by [json.loads] *)

(** [JFloat q] is a finite float of exact value [q]; an object is the list of
    its bindings, read by first binding. *)
Inductive json :=
| JNull
| JBool (b : bool)
| JInt (z : Z)
| JFloat (q : Q)
| JStr (s : string)
| JList (items : list json)
| JDict (fields : list (string * json)).

Fixpoint dict_get (d : list (string * json)) (k : string) : option json :=
  match d with
  | [] => None
  | (k', v) :: rest => if String.eqb k' k then Some v else dict_get rest k
  end.

(** ** Exceptions *)

(** A location inside a candidate plan, as pydantic reports it: field names
    and list indices from the root. *)
Inductive seg := Key (name : string) | Idx (i : nat).
Definition loc := list seg.

Inductive Exn :=
| ValueError (msg : string)
    (* raised by strptime *)
| InvalidPlanStructure (errors : list loc)
    (* ValueError("Invalid plan structure: ...") of validate_plan; the text
       lists the failing locations *)
| OverflowError (msg : string)
| TypeError (msg : string)
| ProviderError (msg : string)
    (* whatever acompletion raises; [msg] is its str() *)
| JSONDecodeError (doc : string)
| DatabaseError (msg : string)
| LLMError (message : string) (original_error : option Exn) (retry_count : Z)
| GenerationFailed (max_retries : nat) (last_error : option Exn).
    (* Exception(f"Failed to generate valid plan after {max_retries}
       attempts: {last_error}") *)

(** ** models/schemas.py: the plan schema *)

Module TimeBlock.
Record t := mk {
  start_time : string;
  end_time : string;
  task_id : option string;
  activity : string;
  priority : Z;
  reasoning : string }.
End TimeBlock.

Module GoalProgress.
Record t := mk {
  goal_id : string;
  status : string;
  action_needed : string }.
End GoalProgress.

Module SocialTime.
Record t := mk {
  total_minutes : Z;
  reasoning : string }.
End SocialTime.

Module DailyPlan.
Record t := mk {
  date : string;
  reasoning : string;
  priority_analysis : string;
  time_blocks : list TimeBlock.t;
  social_time_allocation : SocialTime.t;
  goal_progress_assessment : list GoalProgress.t;
  warnings : list string }.
End DailyPlan.

(** The field patterns.  [^\d{2}:\d{2}$] *)
Definition hm_form (s : string) : bool :=
  match s with
  | String h1 (String h2 (String c (String m1 (String m2 EmptyString)))) =>
      is_digit h1 && is_digit h2 && Ascii.eqb c ":" && is_digit m1 && is_digit m2
  | _ => false
  end.

Definition is_hex_or_hyphen (c : ascii) : bool :=
  is_digit c || in_range "a" "f" c || Ascii.eqb c "-".

Fixpoint all_chars (p : ascii -> bool) (s : string) : bool :=
  match s with
  | EmptyString => true
  | String c rest => p c && all_chars p rest
  end.

(** [^[0-9a-f-]{36}$] *)
Definition uuid_form (s : string) : bool :=
  (String.length s =? 36)%nat && all_chars is_hex_or_hyphen s.

Definition no_pattern (s : string) : bool := true.

(** The outcome of validating one value: the value as the model stores it, or
    the locations of all the errors found below the current location. *)
Definition vres (A : Type) : Type := (list loc + A)%type.

Definition fail_here {A} : vres A := inl [ [] ].

Definition under {A} (s : seg) (r : vres A) : vres A :=
  match r with
  | inl es => inl (map (cons s) es)
  | inr a => inr a
  end.

(** Errors of all the fields of a model are collected. *)
Definition ap {A B} (f : vres (A -> B)) (x : vres A) : vres B :=
  match f, x with
  | inr g, inr a => inr (g a)
  | inl e1, inl e2 => inl (e1 ++ e2)%list
  | inl e1, inr _ => inl e1
  | inr _, inl e2 => inl e2
  end.

Notation "f <@> x" := (ap f x) (at level 61, left associativity).

(** [str] fields: a string, then [min_length], then [pattern]. *)
Definition str_field (min_length : nat) (pattern : string -> bool) (j : json)
  : vres string :=
  match j with
  | JStr s =>
      if (min_length <=? String.length s)%nat && pattern s then inr s
      else fail_here
  | _ => fail_here
  end.

Fixpoint digits_value (acc : Z) (s : string) : option Z :=
  match s with
  | EmptyString => Some acc
  | String c rest =>
      if is_digit c then digits_value (acc * 10 + digit_val c) rest else None
  end.

(** A numeric string read as an integer: decimal digits after an optional
    sign. *)
Definition str_as_int (s : string) : option Z :=
  match s with
  | EmptyString => None
  | String c rest =>
      if Ascii.eqb c "-" then
        match rest with
        | EmptyString => None
        | _ => option_map Z.opp (digits_value 0 rest)
        end
      else if Ascii.eqb c "+" then
        match rest with
        | EmptyString => None
        | _ => digits_value 0 rest
        end
      else digits_value 0 s
  end.

(** pydantic validates in lax mode unless told otherwise: an [int] field
    takes an integer, and also a boolean, a float without fractional part and
    a numeric string, which it converts. *)
Definition lax_int (j : json) : option Z :=
  match j with
  | JInt z => Some z
  | JBool b => Some (if b then 1 else 0)
  | JFloat q => let r := Qred q in
                if (Qden r =? 1)%positive then Some (Qnum r) else None
  | JStr s => str_as_int s
  | _ => None
  end.

Definition int_field (ge : Z) (le : option Z) (j : json) : vres Z :=
  match lax_int j with
  | Some z =>
      if (ge <=? z) && match le with Some hi => z <=? hi | None => true end
      then inr z else fail_here
  | None => fail_here
  end.

Definition literal_field (allowed : list string) (j : json) : vres string :=
  match j with
  | JStr s => if existsb (String.eqb s) allowed then inr s else fail_here
  | _ => fail_here
  end.

Definition optional_field {A} (v : json -> vres A) (j : json) : vres (option A) :=
  match j with
  | JNull => inr None
  | _ => match v j with inr a => inr (Some a) | inl es => inl es end
  end.

Fixpoint list_items {A} (v : json -> vres A) (i : nat) (l : list json)
  : vres (list A) :=
  match l with
  | [] => inr []
  | x :: rest => inr cons <@> under (Idx i) (v x) <@> list_items v (S i) rest
  end.

Definition list_field {A} (v : json -> vres A) (j : json) : vres (list A) :=
  match j with
  | JList l => list_items v 0 l
  | _ => fail_here
  end.

Definition model_field {A} (v : list (string * json) -> vres A) (j : json) : vres A :=
  match j with
  | JDict d => v d
  | _ => fail_here
  end.

(** A field declared with [Field(...)]: required. *)
Definition required {A} (d : list (string * json)) (name : string)
  (v : json -> vres A) : vres A :=
  match dict_get d name with
  | Some j => under (Key name) (v j)
  | None => inl [ [Key name] ]
  end.

(** A field declared with a default value. *)
Definition defaulted {A} (d : list (string * json)) (name : string)
  (default : A) (v : json -> vres A) : vres A :=
  match dict_get d name with
  | Some j => under (Key name) (v j)
  | None => inr default
  end.

Definition TimeBlock_validate (d : list (string * json)) : vres TimeBlock.t :=
  inr TimeBlock.mk
    <@> required d "start_time" (str_field 0 hm_form)
    <@> required d "end_time" (str_field 0 hm_form)
    <@> defaulted d "task_id" None (optional_field (str_field 0 uuid_form))
    <@> required d "activity" (str_field 1 no_pattern)
    <@> required d "priority" (int_field 1 (Some 5))
    <@> required d "reasoning" (str_field 1 no_pattern).

Definition status_values : list string := ["on_track"; "at_risk"; "blocked"].

Definition GoalProgress_validate (d : list (string * json)) : vres GoalProgress.t :=
  inr GoalProgress.mk
    <@> required d "goal_id" (str_field 0 uuid_form)
    <@> required d "status" (literal_field status_values)
    <@> required d "action_needed" (str_field 0 no_pattern).

Definition SocialTime_validate (d : list (string * json)) : vres SocialTime.t :=
  inr SocialTime.mk
    <@> required d "total_minutes" (int_field 0 None)
    <@> required d "reasoning" (str_field 1 no_pattern).

Definition DailyPlan_validate (d : list (string * json)) : vres DailyPlan.t :=
  inr DailyPlan.mk
    <@> required d "date" (str_field 0 strict_ymd_form)
    <@> required d "reasoning" (str_field 10 no_pattern)
    <@> required d "priority_analysis" (str_field 10 no_pattern)
    <@> required d "time_blocks" (list_field (model_field TimeBlock_validate))
    <@> required d "social_time_allocation" (model_field SocialTime_validate)
    <@> required d "goal_progress_assessment"
          (list_field (model_field GoalProgress_validate))
    <@> required d "warnings" (list_field (str_field 0 no_pattern)).

(** [validate_plan]: the [DailyPlan] model built from the unpacked
    [plan_data], any exception re-raised as a [ValueError].  Unpacking something that is no mapping is a [TypeError],
    which names no field. *)
Definition validate_plan (plan_data : json) : Exn + DailyPlan.t :=
  match plan_data with
  | JDict d =>
      match DailyPlan_validate d with
      | inr plan => inr plan
      | inl errors => inl (InvalidPlanStructure errors)
      end
  | _ => inl (InvalidPlanStructure [])
  end.

(** ** Strings as the client reads them *)

Definition lower_char (c : ascii) : ascii :=
  if in_range "A" "Z" c then ascii_of_N (N_of_ascii c + 32) else c.

(** [s.lower()] *)
Fixpoint lower (s : string) : string :=
  match s with
  | EmptyString => EmptyString
  | String c rest => String (lower_char c) (lower rest)
  end.

(** [sub in s] *)
Fixpoint contains (sub s : string) : bool :=
  String.prefix sub s ||
  match s with
  | EmptyString => false
  | String _ rest => contains sub rest
  end.

(** [str(error)] *)
Definition str_of_exn (e : Exn) : string :=
  match e with
  | ValueError msg => msg
  | InvalidPlanStructure _ => "Invalid plan structure"
  | OverflowError msg => msg
  | TypeError msg => msg
  | ProviderError msg => msg
  | JSONDecodeError _ => "Expecting value"
  | DatabaseError msg => msg
  | LLMError message _ _ => message
  | GenerationFailed _ _ => "Failed to generate valid plan"
  end.

(** Truth value of a Python object. *)
Definition truthy (v : json) : bool :=
  match v with
  | JNull => false
  | JBool b => b
  | JInt z => negb (z =? 0)
  | JFloat q => negb (Qnum q =? 0)
  | JStr s => negb (String.eqb s "")
  | JList l => match l with [] => false | _ => true end
  | JDict d => match d with [] => false | _ => true end
  end.

(** ** The world the backend runs in *)

Record datetime := mkdatetime { dt_date : pydate; dt_seconds : Z }.

Definition datetime_key (t : datetime) : Z :=
  toordinal (dt_date t) * 86400 + dt_seconds t.

Module UserRow.
Record t := mk { id : string; username : string }.
End UserRow.

Module EventRow.
Record t := mk {
  id : string;
  user_id : string;
  title : string;
  start_time : datetime;
  end_time : datetime;
  event_type : string;
  is_blocking : bool }.
End EventRow.

Module PlanRow.
Record t := mk {
  user_id : string;
  plan_date : pydate;
  plan_json : DailyPlan.t;
  reasoning : string;
  is_override : bool;
  modified_at : pydate }.
End PlanRow.

Module OverrideRow.
Record t := mk {
  user_id : string;
  plan_id : string;
  override_type : string;
  override_reason : string;
  week_number : Z }.
End OverrideRow.

(** The relational store.  The tables the planning subsystem writes or
    filters are kept row by row; the goal, task, relationship and
    performance queries are read-only and appear as the rows they return
    for a user, already serialised. *)
Record Store := mkStore {
  users : list UserRow.t;
  calendar_events : list EventRow.t;
  daily_plans : list PlanRow.t;
  override_log : list OverrideRow.t;
  goals_rows : string -> list json;
  tasks_rows : string -> list json;
  relationships_rows : string -> list json;
  performance_rows : string -> list json }.

Inductive Sql :=
| SelectUser
| SelectActiveGoals (user_id : string)
| SelectPendingTasks (user_id : string)
| SelectCalendarEvents (user_id : string)
| SelectRelationships (user_id : string)
| SelectRecentPerformance (user_id : string)
| UpsertDailyPlan (user_id : string) (plan_date : pydate)
    (plan_json : DailyPlan.t) (reasoning : string)
| CountOverrides (user_id : string) (week_number : Z)
| InsertOverride (user_id plan_id override_type reason : string)
    (week_number : Z).

Definition is_write (q : Sql) : bool :=
  match q with
  | UpsertDailyPlan _ _ _ _ | InsertOverride _ _ _ _ _ => true
  | _ => false
  end.

(** What one call of the provider does: it answers with a message content
    (which may be missing) or raises. *)
Inductive Outcome :=
| Content (content : option string)
| Raises (msg : string).

Inductive LogRecord :=
| LLM_call_attempt (attempt max_retries : nat) (model : string)
| LLM_call_successful (response_length : nat)
| LLM_error_on_attempt (attempt max_retries : nat) (error : string)
| Invalid_JSON_returned (response : string)
| Plan_generation_attempt_failed (attempt : nat) (error : Exn)
| Running_nightly_planning (at_time : pydate)
| No_user_found
| Plan_generated_successfully (target_date : string)
| Nightly_planning_failed (error : Exn).

Inductive Effect :=
| EQuery (sql : Sql)
| ECompletion (params : gmap string json)
| ESleep (seconds : Z)
| ELog (record : LogRecord).

(** [db_fails n] tells whether the store is unreachable at the [n]-th
    statement, [provider n] what the [n]-th completion call does.  [environ]
    is MAX_WEEKLY_OVERRIDES read as an integer, when the variable is set. *)
Record World := mkWorld {
  store : Store;
  now : pydate;
  environ : option Z;
  db_fails : nat -> bool;
  provider : nat -> Outcome;
  queries : nat;
  calls : nat;
  trace : list Effect }.

Definition set_store (s : Store) (w : World) : World :=
  mkWorld s (now w) (environ w) (db_fails w) (provider w) (queries w)
    (calls w) (trace w).

Definition record_effect (e : Effect) (w : World) : World :=
  mkWorld (store w) (now w) (environ w) (db_fails w) (provider w)
    (match e with EQuery _ => S (queries w) | _ => queries w end)
    (match e with ECompletion _ => S (calls w) | _ => calls w end)
    (trace w ++ [e])%list.

(** ** A state-and-exception monad *)

Definition M (A : Type) : Type := World -> (Exn + A) * World.

Definition ret {A} (a : A) : M A := fun w => (inr a, w).

Definition raise {A} (e : Exn) : M A := fun w => (inl e, w).

Definition bind {A B} (m : M A) (k : A -> M B) : M B :=
  fun w =>
    match m w with
    | (inr a, w') => k a w'
    | (inl e, w') => (inl e, w')
    end.

(** [try: m except Exception as error: h error] *)
Definition try_except {A} (m : M A) (h : Exn -> M A) : M A :=
  fun w =>
    match m w with
    | (inl e, w') => h e w'
    | (inr a, w') => (inr a, w')
    end.

Notation "x <- m ;; k" := (bind m (fun x => k))
  (at level 100, m at next level, right associativity).
Notation "m ;;; k" := (bind m (fun _ => k))
  (at level 100, right associativity).

Definition lift {A} (r : Exn + A) : M A := fun w => (r, w).

Definition logger (r : LogRecord) : M unit :=
  fun w => (inr tt, record_effect (ELog r) w).

Definition sleep (seconds : Z) : M unit :=
  fun w => (inr tt, record_effect (ESleep seconds) w).

Definition datetime_now : M pydate := fun w => (inr (now w), w).

(** [core.database.query]: the statement reaches the store unless the store
    is unreachable, in which case a [DatabaseError] is raised. *)
Definition query {A} (sql : Sql) (run : Store -> A * Store) : M A :=
  fun w =>
    let w1 := record_effect (EQuery sql) w in
    if db_fails w (queries w)
    then (inl (DatabaseError "Database query error"), w1)
    else let '(a, s') := run (store w) in (inr a, set_store s' w1).

(** [litellm.acompletion] *)
Definition acompletion (params : gmap string json) : M (option string) :=
  fun w =>
    let w1 := record_effect (ECompletion params) w in
    match provider w (calls w) with
    | Content c => (inr c, w1)
    | Raises msg => (inl (ProviderError msg), w1)
    end.

(** ** core/config.py and the client and engine objects *)

Record Settings := mkSettings {
  llm_provider : string;
  llm_api_key : option string;
  llm_model : string;
  llm_base_url : string }.

Module LLMClient.
Record t := mk {
  provider : string;
  api_key : string;
  base_model : string;
  base_url : string;
  max_retries : nat;
  retry_delay : Z;
  model : string }.
End LLMClient.

Module PlanningEngine.
Record t := mk {
  llm_client : LLMClient.t;
  max_retries : nat }.
End PlanningEngine.

Module PlanningScheduler.
Record t := mk {
  scheduler_started : bool;
  planning_engine : PlanningEngine.t }.
End PlanningScheduler.

(** The planning context, a dictionary with these six keys. *)
Module Context.
Record t := mk {
  date : string;
  goals : list json;
  tasks : list json;
  calendarEvents : list EventRow.t;
  relationships : list json;
  recentPerformance : json }.
End Context.

Module OverrideStatus.
Record t := mk {
  count : Z;
  remaining : Z;
  limit : Z;
  canOverride : bool }.
End OverrideStatus.

(** [LLMClient.__init__] *)
Definition LLMClient_init (settings : Settings) : Exn + LLMClient.t :=
  match llm_api_key settings with
  | None => inl (LLMError "LLM_API_KEY not configured" None 0)
  | Some key =>
      if String.eqb key "" then inl (LLMError "LLM_API_KEY not configured" None 0)
      else
        let base_model := llm_model settings in
        inr (LLMClient.mk (llm_provider settings) key base_model
               (llm_base_url settings) 3 1
               (if contains "/" base_model then base_model
                else llm_provider settings ++ "/" ++ base_model))
  end.

(** [PlanningEngine.__init__] *)
Definition PlanningEngine_init (settings : Settings) : Exn + PlanningEngine.t :=
  match LLMClient_init settings with
  | inl e => inl e
  | inr client => inr (PlanningEngine.mk client 3)
  end.

(** The retryable vocabulary of [complete]. *)
Definition retryable_codes : list string :=
  ["rate limit"; "timeout"; "connection"; "network"; "temporary";
   "service unavailable"; "429"; "502"; "503"; "504"].

Definition retryable (error : Exn) : bool :=
  let error_str := lower (str_of_exn error) in
  existsb (fun code => contains code error_str) retryable_codes.

Definition failed_after (max_retries : nat) : string :=
  "LLM API call failed after " ++ pretty max_retries ++ " attempts".

(** The request [complete] assembles from its options. *)
Definition completion_params (self : LLMClient.t)
  (system_prompt user_prompt : string) (options : gmap string json)
  : gmap string json :=
  let messages :=
    JList [JDict [("role", JStr "system"); ("content", JStr system_prompt)];
           JDict [("role", JStr "user"); ("content", JStr user_prompt)]] in
  let params : gmap string json :=
    <["model" := JStr (LLMClient.model self)]>
    (<["messages" := messages]>
    (<["api_key" := JStr (LLMClient.api_key self)]>
    (<["temperature" := default (JFloat (7 # 10)) (options !! "temperature")]>
    (<["max_tokens" := default (JInt 2000) (options !! "maxTokens")]> ∅)))) in
  if truthy (default JNull (options !! "jsonMode"))
  then <["response_format" := JDict [("type", JStr "json_object")]]> params
  else params.

(** The retry loop of [complete]: [remaining] iterations of
    [for attempt in range(self.max_retries)] are left, [attempt] is the
    loop variable. *)
Fixpoint complete_attempts (self : LLMClient.t) (params : gmap string json)
  (remaining attempt : nat) (last_error : option Exn) : M string :=
  match remaining with
  | O => raise (LLMError (failed_after (LLMClient.max_retries self)) last_error 0)
  | S remaining' =>
      try_except
        (logger (LLM_call_attempt (attempt + 1) (LLMClient.max_retries self)
                   (LLMClient.model self)) ;;;
         response <- acompletion params ;;
         match response with
         | None => raise (TypeError "object of type 'NoneType' has no len()")
         | Some content =>
             logger (LLM_call_successful (String.length content)) ;;;
             ret content
         end)
        (fun error =>
           logger (LLM_error_on_attempt (attempt + 1)
                     (LLMClient.max_retries self) (str_of_exn error)) ;;;
           if negb (retryable error)
              || (Z.of_nat attempt =? Z.of_nat (LLMClient.max_retries self) - 1)
           then raise (LLMError (failed_after (LLMClient.max_retries self))
                         (Some error) 0)
           else
             let delay := LLMClient.retry_delay self * 2 ^ Z.of_nat attempt in
             sleep delay ;;;
             complete_attempts self params remaining' (S attempt) (Some error))
  end.

(** [LLMClient.complete] *)
Definition complete (self : LLMClient.t) (system_prompt user_prompt : string)
  (options : option (gmap string json)) : M string :=
  let options := default ∅ options in
  let params := completion_params self system_prompt user_prompt options in
  complete_attempts self params (LLMClient.max_retries self) 0 None.

(** The sleeps a run adds to the trace, in order. *)
Definition sleeps (t : list Effect) : list Z :=
  omap (fun e => match e with ESleep s => Some s | _ => None end) t.

Definition completions (t : list Effect) : list (gmap string json) :=
  omap (fun e => match e with ECompletion p => Some p | _ => None end) t.

Definition statements (t : list Effect) : list Sql :=
  omap (fun e => match e with EQuery q => Some q | _ => None end) t.

Definition log_records (t : list Effect) : list LogRecord :=
  omap (fun e => match e with ELog r => Some r | _ => None end) t.

(** ** The statements of the planning engine on the store *)

Definition with_daily_plans (rows : list PlanRow.t) (s : Store) : Store :=
  mkStore (users s) (calendar_events s) rows (override_log s) (goals_rows s)
    (tasks_rows s) (relationships_rows s) (performance_rows s).

Definition with_override_log (rows : list OverrideRow.t) (s : Store) : Store :=
  mkStore (users s) (calendar_events s) (daily_plans s) rows (goals_rows s)
    (tasks_rows s) (relationships_rows s) (performance_rows s).

Fixpoint insert_by_start_time (e : EventRow.t) (l : list EventRow.t)
  : list EventRow.t :=
  match l with
  | [] => [e]
  | x :: rest =>
      if datetime_key (EventRow.start_time e) <? datetime_key (EventRow.start_time x)
      then e :: x :: rest
      else x :: insert_by_start_time e rest
  end.

(** [ORDER BY start_time ASC] *)
Definition order_by_start_time (l : list EventRow.t) : list EventRow.t :=
  foldr insert_by_start_time [] l.

(** [SELECT ... FROM calendar_events WHERE user_id = $1 ORDER BY start_time ASC] *)
Definition select_calendar_events (user_id : string) (s : Store)
  : list EventRow.t :=
  order_by_start_time
    (filter (fun e => EventRow.user_id e = user_id) (calendar_events s)).

Definition plan_key_is (user_id : string) (plan_date : pydate) (r : PlanRow.t)
  : bool :=
  bool_decide (PlanRow.user_id r = user_id ∧ PlanRow.plan_date r = plan_date).

(** [INSERT ... VALUES ($1, $2, $3, $4, false) ON CONFLICT (user_id,
    plan_date) DO UPDATE SET plan_json, reasoning, modified_at]: the row in
    conflict is rewritten in place, and a row is added when there is none. *)
Fixpoint upsert_daily_plan (user_id : string) (plan_date : pydate)
  (plan_json : DailyPlan.t) (reasoning : string) (current_timestamp : pydate)
  (rows : list PlanRow.t) : PlanRow.t * list PlanRow.t :=
  match rows with
  | [] =>
      let r := PlanRow.mk user_id plan_date plan_json reasoning false
                 current_timestamp in
      (r, [r])
  | r :: rest =>
      if plan_key_is user_id plan_date r then
        let r' := PlanRow.mk (PlanRow.user_id r) (PlanRow.plan_date r) plan_json
                    reasoning (PlanRow.is_override r) current_timestamp in
        (r', r' :: rest)
      else
        let '(out, rest') :=
          upsert_daily_plan user_id plan_date plan_json reasoning
            current_timestamp rest in
        (out, r :: rest')
  end.

(** [SELECT COUNT( * ) FROM override_log WHERE user_id = $1 AND week_number = $2] *)
Definition count_overrides (user_id : string) (week_number : Z)
  (rows : list OverrideRow.t) : Z :=
  Z.of_nat (length (filter (fun r =>
    OverrideRow.user_id r = user_id ∧ OverrideRow.week_number r = week_number) rows)).

(** The rows of a plan key, and the keys of a table. *)
Definition rows_of_key (user_id : string) (plan_date : pydate)
  (rows : list PlanRow.t) : list PlanRow.t :=
  filter (fun r => PlanRow.user_id r = user_id ∧ PlanRow.plan_date r = plan_date) rows.

Definition plan_keys (rows : list PlanRow.t) : list (string * pydate) :=
  map (fun r => (PlanRow.user_id r, PlanRow.plan_date r)) rows.

(** The unique constraint [daily_plans_user_date_unique]. *)
Definition unique_plan_keys (rows : list PlanRow.t) : Prop :=
  NoDup (plan_keys rows).

Definition strptime (s : string) : M pydate :=
  match strptime_ymd s with
  | Some d => ret d
  | None => raise (ValueError "time data does not match format '%Y-%m-%d'")
  end.

Definition plus_days (d : pydate) (k : Z) : M pydate :=
  match add_days d k with
  | Some d' => ret d'
  | None => raise (OverflowError "date value out of range")
  end.

Section Backend.

(** [json.loads], [None] for a [JSONDecodeError]; and the two prompt texts of
    the client, which no property below depends on. *)
Variable json_loads : string -> option json.
Variable get_planning_system_prompt : string.
Variable build_planning_prompt : Context.t -> string.

(** [LLMClient.generate_plan] *)
Definition generate_plan (self : LLMClient.t) (context : Context.t)
  (options : option (gmap string json)) : M json :=
  let options := default ∅ options in
  let system_prompt := get_planning_system_prompt in
  let user_prompt := build_planning_prompt context in
  let options := <["jsonMode" := JBool true]> options in
  try_except
    (response <- complete self system_prompt user_prompt (Some options) ;;
     match json_loads response with
     | Some value => ret value
     | None => raise (JSONDecodeError response)
     end)
    (fun error =>
       match error with
       | JSONDecodeError response =>
           logger (Invalid_JSON_returned response) ;;;
           raise (LLMError "LLM returned invalid JSON" (Some error) 0)
       | _ => raise (LLMError "Plan generation failed" (Some error) 0)
       end).

(** [PlanningEngine.gather_planning_context] *)
Definition gather_planning_context (self : PlanningEngine.t)
  (user_id target_date : string) : M Context.t :=
  target_dt <- strptime target_date ;;
  tomorrow <- plus_days target_dt 1 ;;
  let tomorrow_str := strftime_ymd tomorrow in
  goals_result <-
    query (SelectActiveGoals user_id) (fun s => (goals_rows s user_id, s)) ;;
  tasks_result <-
    query (SelectPendingTasks user_id) (fun s => (tasks_rows s user_id, s)) ;;
  events_result <-
    query (SelectCalendarEvents user_id)
      (fun s => (select_calendar_events user_id s, s)) ;;
  relationships_result <-
    query (SelectRelationships user_id)
      (fun s => (relationships_rows s user_id, s)) ;;
  performance_result <-
    query (SelectRecentPerformance user_id)
      (fun s => (performance_rows s user_id, s)) ;;
  ret (Context.mk target_date goals_result tasks_result events_result
         relationships_result
         (match performance_result with r :: _ => r | [] => JDict [] end)).

(** [PlanningEngine.save_plan] *)
Definition save_plan (self : PlanningEngine.t) (user_id plan_date : string)
  (plan : DailyPlan.t) : M (option PlanRow.t) :=
  plan_date_obj <- strptime plan_date ;;
  current_timestamp <- datetime_now ;;
  result <-
    query (UpsertDailyPlan user_id plan_date_obj plan (DailyPlan.reasoning plan))
      (fun s =>
         let '(row, rows) :=
           upsert_daily_plan user_id plan_date_obj plan
             (DailyPlan.reasoning plan) current_timestamp (daily_plans s) in
         ([row], with_daily_plans rows s)) ;;
  ret (match result with r :: _ => Some r | [] => None end).

(** The loop [for attempt in range(self.max_retries)] of
    [generate_daily_plan]; it yields [plan] and [last_error]. *)
Fixpoint generation_attempts (self : PlanningEngine.t) (context : Context.t)
  (remaining attempt : nat) (last_error : option Exn)
  : M (option DailyPlan.t * option Exn) :=
  match remaining with
  | O => ret (None, last_error)
  | S remaining' =>
      outcome <-
        try_except
          (raw_plan <- generate_plan (PlanningEngine.llm_client self) context None ;;
           plan <- lift (validate_plan raw_plan) ;;
           ret (inr plan))
          (fun error =>
             logger (Plan_generation_attempt_failed (attempt + 1) error) ;;;
             ret (inl error)) ;;
      match outcome with
      | inr plan => ret (Some plan, last_error)
      | inl error =>
          generation_attempts self context remaining' (S attempt) (Some error)
      end
  end.

(** [PlanningEngine.generate_daily_plan] *)
Definition generate_daily_plan (self : PlanningEngine.t)
  (user_id target_date : string) : M DailyPlan.t :=
  target_date_obj <- strptime target_date ;;
  context <- gather_planning_context self user_id target_date ;;
  r <- generation_attempts self context (PlanningEngine.max_retries self) 0 None ;;
  match r with
  | (None, last_error) =>
      raise (GenerationFailed (PlanningEngine.max_retries self) last_error)
  | (Some plan, _) =>
      save_plan self user_id target_date plan ;;;
      ret plan
  end.

(** [get_week_number] inside the monad: the date shift may overflow. *)
Definition week_number_of (d : pydate) : M Z :=
  match get_week_number d with
  | Some n => ret n
  | None => raise (OverflowError "date value out of range")
  end.

(** [PlanningEngine.check_weekly_overrides] *)
Definition check_weekly_overrides (self : PlanningEngine.t) (user_id : string)
  : M OverrideStatus.t :=
  now <- datetime_now ;;
  week_number <- week_number_of now ;;
  result <-
    query (CountOverrides user_id week_number)
      (fun s => ([count_overrides user_id week_number (override_log s)], s)) ;;
  let count := match result with c :: _ => c | [] => 0 end in
  max_overrides <- (fun w => (inr (default 5 (environ w)), w)) ;;
  ret (OverrideStatus.mk count (Z.max 0 (max_overrides - count)) max_overrides
         (count <? max_overrides)).

(** [PlanningEngine.log_override] *)
Definition log_override (self : PlanningEngine.t)
  (user_id plan_id override_type reason : string) : M unit :=
  now <- datetime_now ;;
  week_number <- week_number_of now ;;
  query (InsertOverride user_id plan_id override_type reason week_number)
    (fun s =>
       (tt, with_override_log
              (override_log s ++
               [OverrideRow.mk user_id plan_id override_type reason week_number])%list
              s)).

(** [core.database.get_user] *)
Definition get_user : M (option UserRow.t) :=
  query SelectUser
    (fun s => (match users s with u :: _ => Some u | [] => None end, s)).

(** [PlanningScheduler._nightly_planning_job] *)
Definition nightly_planning_job (self : PlanningScheduler.t) : M unit :=
  at_time <- datetime_now ;;
  logger (Running_nightly_planning at_time) ;;;
  try_except
    (user <- get_user ;;
     match user with
     | None => logger No_user_found ;;; ret tt
     | Some user =>
         today <- datetime_now ;;
         tomorrow <- plus_days today 1 ;;
         let target_date := strftime_ymd tomorrow in
         plan <- generate_daily_plan (PlanningScheduler.planning_engine self)
                   (UserRow.id user) target_date ;;
         logger (Plan_generated_successfully target_date)
     end)
    (fun error => logger (Nightly_planning_failed error)).

End Backend.

(** ** Reference definitions, in the words of the specification *)

(** Two dates lie in the same ISO week when their weeks start on the same
    Monday. *)
Definition monday_of (d : pydate) : Z := toordinal d - weekday d.

Definition same_iso_week (a b : pydate) : Prop := monday_of a = monday_of b.

Definition following_iso_week (a b : pydate) : Prop :=
  monday_of b = monday_of a + 7.

(** The ISO week number: the date is advanced to the Thursday of its
    Monday-to-Sunday week, and the number is
    ceil((days since that year's Jan 1 + 1) / 7). *)
Definition iso_week_number (d : pydate) : option Z :=
  match add_days d (3 - weekday d) with
  | Some thursday =>
      let days_since := toordinal thursday - toordinal (mkdate (year thursday) 1 1) in
      Some ((days_since + 1 + 6) / 7)
  | None => None
  end.

(** The retryable vocabulary as the specification words it. *)
Definition specified_vocabulary : list string :=
  ["rate limit"; "timeout"; "connection"; "network"; "temporarily unavailable";
   "429"; "502"; "503"; "504"].

Definition matches_specified_vocabulary (error_text : string) : bool :=
  existsb (fun code => contains code (lower error_text)) specified_vocabulary.

(** What an attempt of [complete] ends in, read off the provider's answer. *)
Definition failure_of (o : Outcome) : option Exn :=
  match o with
  | Raises msg => Some (ProviderError msg)
  | Content None => Some (TypeError "object of type 'NoneType' has no len()")
  | Content (Some _) => None
  end.

Definition content_of (o : Outcome) : option string :=
  match o with
  | Content (Some c) => Some c
  | _ => None
  end.

(** The schema on a validated plan. *)
Definition TimeBlock_ok (b : TimeBlock.t) : bool :=
  hm_form (TimeBlock.start_time b) && hm_form (TimeBlock.end_time b) &&
  match TimeBlock.task_id b with None => true | Some s => uuid_form s end &&
  (1 <=? String.length (TimeBlock.activity b))%nat &&
  (1 <=? TimeBlock.priority b) && (TimeBlock.priority b <=? 5) &&
  (1 <=? String.length (TimeBlock.reasoning b))%nat.

Definition GoalProgress_ok (g : GoalProgress.t) : bool :=
  uuid_form (GoalProgress.goal_id g) &&
  existsb (String.eqb (GoalProgress.status g)) status_values.

Definition SocialTime_ok (s : SocialTime.t) : bool :=
  (0 <=? SocialTime.total_minutes s) &&
  (1 <=? String.length (SocialTime.reasoning s))%nat.

Definition DailyPlan_ok (p : DailyPlan.t) : bool :=
  strict_ymd_form (DailyPlan.date p) &&
  (10 <=? String.length (DailyPlan.reasoning p))%nat &&
  (10 <=? String.length (DailyPlan.priority_analysis p))%nat &&
  forallb TimeBlock_ok (DailyPlan.time_blocks p) &&
  SocialTime_ok (DailyPlan.social_time_allocation p) &&
  forallb GoalProgress_ok (DailyPlan.goal_progress_assessment p).


Section Contract.

Variable read_int : json -> option Z.










End Contract.

(** The seven fields of the contract. *)
Definition plan_fields : list string :=
  ["date"; "reasoning"; "priority_analysis"; "time_blocks";
   "social_time_allocation"; "goal_progress_assessment"; "warnings"].


(** ** Concrete worlds, used to exercise the statements below *)

Definition sample_block (start_time end_time : string) (priority : json) : json :=
  JDict [("start_time", JStr start_time); ("end_time", JStr end_time);
         ("task_id", JNull); ("activity", JStr "Write the report");
         ("priority", priority); ("reasoning", JStr "Peak focus hours")].

Definition sample_plan_with (blocks : list json) (total_minutes : json) : json :=
  JDict [("date", JStr "2025-03-10");
         ("reasoning", JStr "Deep work first, meetings later.");
         ("priority_analysis", JStr "The report outranks the inbox.");
         ("time_blocks", JList blocks);
         ("social_time_allocation",
          JDict [("total_minutes", total_minutes); ("reasoning", JStr "Dinner")]);
         ("goal_progress_assessment",
          JList [JDict [("goal_id", JStr "123e4567-e89b-12d3-a456-426614174000");
                        ("status", JStr "on_track");
                        ("action_needed", JStr "")]]);
         ("warnings", JList [])].

Definition sample_plan : json :=
  sample_plan_with [sample_block "09:00" "10:30" (JInt 4)] (JInt 60).

Definition sample_json_loads (s : string) : option json :=
  if String.eqb s "PLAN" then Some sample_plan
  else if String.eqb s "PLAN2"
  then Some (sample_plan_with [sample_block "13:00" "14:00" (JInt 2)] (JInt 30))
  else None.

Definition sample_prompt (c : Context.t) : string := Context.date c.

Definition sample_settings : Settings :=
  mkSettings "groq" (Some "secret") "llama-3.3-70b-versatile"
    "https://api.groq.com/openai/v1".

Definition sample_client : LLMClient.t :=
  LLMClient.mk "groq" "secret" "llama-3.3-70b-versatile"
    "https://api.groq.com/openai/v1" 3 1 "groq/llama-3.3-70b-versatile".

Definition sample_engine : PlanningEngine.t := PlanningEngine.mk sample_client 3.

Definition sample_event (id : string) (d : pydate) : EventRow.t :=
  EventRow.mk id "u1" "Review" (mkdatetime d 32400) (mkdatetime d 36000)
    "internal" true.

Definition sample_store : Store :=
  mkStore [UserRow.mk "u1" "alice"]
    [sample_event "e1" (mkdate 2025 3 11); sample_event "e2" (mkdate 2025 4 1)]
    [] []
    (fun _ => []) (fun _ => []) (fun _ => []) (fun _ => []).

Definition sample_world (provider : nat -> Outcome) : World :=
  mkWorld sample_store (mkdate 2025 3 9) None (fun _ => false) provider 0 0 [].

Definition answers (l : list Outcome) (n : nat) : Outcome :=
  nth n l (Raises "connection reset").

(** ** Runs and their effects *)

(** [extends w w' t]: [w'] is [w] after the effects [t], the clock, the
    configuration and the two oracles untouched. *)
Definition extends (w w' : World) (t : list Effect) : Prop :=
  trace w' = (trace w ++ t)%list ∧
  now w' = now w ∧ environ w' = environ w ∧
  db_fails w' = db_fails w ∧ provider w' = provider w ∧
  queries w' = (queries w + length (statements t))%nat ∧
  calls w' = (calls w + length (completions t))%nat.

(** The calls and the sleeps of a run in the order they happen: [None] is a
    completion call, [Some s] a sleep of [s] seconds. *)
Definition timeline (t : list Effect) : list (option Z) :=
  omap (fun e =>
          match e with
          | ECompletion _ => Some None
          | ESleep s => Some (Some s)
          | _ => None
          end) t.

(** [k] calls separated by the backoff sleeps, starting at loop index
    [attempt]. *)
Fixpoint backoff_timeline (delay : Z) (attempt k : nat) : list (option Z) :=
  match k with
  | O => []
  | S O => [None]
  | S k' =>
      None :: Some (delay * 2 ^ Z.of_nat attempt)
           :: backoff_timeline delay (S attempt) k'
  end.

(** The attempts of [generate_daily_plan] that the engine logged as failed. *)
Definition failed_attempts (t : list Effect) : list nat :=
  omap (fun e =>
          match e with
          | ELog (Plan_generation_attempt_failed attempt _) => Some attempt
          | _ => None
          end) t.

(** The effects of a run that leaves the store alone. *)
Definition no_store_access (w w' : World) (t : list Effect) : Prop :=
  extends w w' t ∧ store w' = store w ∧ statements t = [].


(** The statements of a run that write to the store. *)
Definition writes (t : list Effect) : list Sql :=
  filter (fun q => is_write q = true) (statements t).

(** An effect that writes nothing to the store; a quiet one is moreover no
    record of a failed generation attempt. *)
Definition calm_effect (e : Effect) : Prop :=
  match e with
  | EQuery q => is_write q = false
  | _ => True
  end.

Definition quiet_effect (e : Effect) : Prop :=
  match e with
  | EQuery q => is_write q = false
  | ELog (Plan_generation_attempt_failed _ _) => False
  | _ => True
  end.

(** A computation that never changes the store and has quiet effects only,
    whatever its outcome. *)
Definition read_only {A} (m : M A) : Prop :=
  ∀ w, ∃ t, extends w (snd (m w)) t ∧ store (snd (m w)) = store w ∧
            Forall quiet_effect t.






Abbreviation sample_generate target_date w :=
  (generate_daily_plan sample_json_loads "system" sample_prompt sample_engine
     "u1" target_date w).

(** Two runs for the same date, one after the other. *)
Abbreviation sample_first_run :=
  (sample_generate "2025-03-10"
     (sample_world (answers [Content (Some "PLAN"); Content (Some "PLAN2")]))).

Abbreviation sample_second_run :=
  (sample_generate "2025-03-10" (snd sample_first_run)).

Abbreviation sample_complete l :=
  (complete sample_client "system" "user" None (sample_world (answers l))).

Definition sample_scheduler : PlanningScheduler.t :=
  PlanningScheduler.mk true sample_engine.

Definition empty_store : Store :=
  mkStore [] [] [] [] (fun _ => []) (fun _ => []) (fun _ => []) (fun _ => []).

Definition empty_world : World :=
  mkWorld empty_store (mkdate 2025 3 9) None (fun _ => false)
    (answers []) 0 0 [].


(** ** services/planning_engine.py: [plan.dict()] and [serialize_for_json] *)

(** [plan.dict()]: the validated model as a dictionary again, which
    [generate_daily_plan] stores and returns. *)
Definition TimeBlock_dict (b : TimeBlock.t) : json :=
  JDict [("start_time", JStr (TimeBlock.start_time b));
         ("end_time", JStr (TimeBlock.end_time b));
         ("task_id", match TimeBlock.task_id b with
                     | Some s => JStr s
                     | None => JNull
                     end);
         ("activity", JStr (TimeBlock.activity b));
         ("priority", JInt (TimeBlock.priority b));
         ("reasoning", JStr (TimeBlock.reasoning b))].

Definition SocialTime_dict (s : SocialTime.t) : json :=
  JDict [("total_minutes", JInt (SocialTime.total_minutes s));
         ("reasoning", JStr (SocialTime.reasoning s))].

Definition GoalProgress_dict (g : GoalProgress.t) : json :=
  JDict [("goal_id", JStr (GoalProgress.goal_id g));
         ("status", JStr (GoalProgress.status g));
         ("action_needed", JStr (GoalProgress.action_needed g))].

Definition DailyPlan_dict (p : DailyPlan.t) : json :=
  JDict [("date", JStr (DailyPlan.date p));
         ("reasoning", JStr (DailyPlan.reasoning p));
         ("priority_analysis", JStr (DailyPlan.priority_analysis p));
         ("time_blocks", JList (map TimeBlock_dict (DailyPlan.time_blocks p)));
         ("social_time_allocation",
          SocialTime_dict (DailyPlan.social_time_allocation p));
         ("goal_progress_assessment",
          JList (map GoalProgress_dict (DailyPlan.goal_progress_assessment p)));
         ("warnings", JList (map JStr (DailyPlan.warnings p)))].

(** Objects as the store driver returns them: besides the JSON kinds, a UUID
    (given by its [str()]), a date or datetime (given by its [isoformat()])
    and any other object, which [serialize_for_json] hands back as it is. *)
Inductive pyobj :=
| PNone
| PBool (b : bool)
| PInt (z : Z)
| PFloat (q : Q)
| PStr (s : string)
| PUUID (text : string)
| PTemporal (isoformat : string)
| POther (repr : string)
| PList (items : list pyobj)
| PDict (fields : list (string * pyobj)).

(** [serialize_for_json] *)
Fixpoint serialize_for_json (obj : pyobj) : pyobj :=
  match obj with
  | PUUID text => PStr text
  | PList items => PList (map serialize_for_json items)
  | PDict fields =>
      PDict (map (fun kv => (fst kv, serialize_for_json (snd kv))) fields)
  | PTemporal isoformat => PStr isoformat
  | _ => obj
  end.

(** No UUID and no date is left, at any depth of lists and dictionaries. *)
Fixpoint json_ready (obj : pyobj) : Prop :=
  match obj with
  | PUUID _ | PTemporal _ => False
  | PList items => foldr (fun o P => json_ready o ∧ P) True items
  | PDict fields => foldr (fun kv P => json_ready (snd kv) ∧ P) True fields
  | _ => True
  end.

(** The shape of an object: lists with their lengths, dictionaries with
    their keys in order. *)
Inductive shape :=
| Leaf
| ListOf (items : list shape)
| DictOf (fields : list (string * shape)).

Fixpoint shape_of (obj : pyobj) : shape :=
  match obj with
  | PList items => ListOf (map shape_of items)
  | PDict fields => DictOf (map (fun kv => (fst kv, shape_of (snd kv))) fields)
  | _ => Leaf
  end.

(** ** api/routes/plans.py: the override endpoints *)

(** The handlers are given the user that their dependency
    [get_current_user] resolved. *)

(** The two endings of [override_plan] when the engine raises nothing: the
    [OverrideLimitError] of the routes, raised with the limit in its message
    and the status as its details, or the response with the updated
    status. *)
Inductive OverrideOutcome :=
| WeeklyLimitReached (limit : Z) (status : OverrideStatus.t)
| OverrideLogged (updated_overrides : OverrideStatus.t).

(** [get_overrides]: GET /overrides *)
Definition get_overrides (settings : Settings) (user : UserRow.t)
  : M OverrideStatus.t :=
  planner <- lift (PlanningEngine_init settings) ;;
  override_status <- check_weekly_overrides planner (UserRow.id user) ;;
  ret override_status.

(** [override_plan]: PUT /override-plan/{plan_id}.  Of the request body the
    endpoint reads the keys [override_type] and [reason], texts that default
    to [manual] and to the empty text. *)
Definition override_plan (settings : Settings) (plan_id : string)
  (request_data : gmap string string) (user : UserRow.t) : M OverrideOutcome :=
  planner <- lift (PlanningEngine_init settings) ;;
  override_check <- check_weekly_overrides planner (UserRow.id user) ;;
  if negb (OverrideStatus.canOverride override_check)
  then ret (WeeklyLimitReached (OverrideStatus.limit override_check) override_check)
  else
    let override_type := default "manual" (request_data !! "override_type") in
    let reason := default "" (request_data !! "reason") in
    log_override planner (UserRow.id user) plan_id override_type reason ;;;
    updated_overrides <- check_weekly_overrides planner (UserRow.id user) ;;
    ret (OverrideLogged updated_overrides).


(** ** The calendar and the date texts, piece by piece *)

(** The month and the day of [_ord2ymd], from the year, the days [n] before
    the date within the year and the leap flag. *)
Definition month_and_day (y n : Z) (leapyear : bool) : pydate :=
  let m := Z.shiftr (n + 50) 5 in
  let preceding :=
    DAYS_BEFORE_MONTH m + (if (2 <? m) && leapyear then 1 else 0) in
  if n <? preceding then
    let m' := m - 1 in
    let preceding' :=
      preceding - (DAYS_IN_MONTH m' + (if (m' =? 2) && leapyear then 1 else 0)) in
    mkdate y m' (n - preceding' + 1)
  else mkdate y m (n - preceding + 1).

(** The check of one day of the year against the month tables. *)
Definition month_and_day_ok (leapyear : bool) (n : Z) : bool :=
  let d := month_and_day 0 n leapyear in
  (1 <=? month d) && (month d <=? 12) && (1 <=? day d) &&
  (day d <=? DAYS_IN_MONTH (month d)
             + (if (month d =? 2) && leapyear then 1 else 0)) &&
  (DAYS_BEFORE_MONTH (month d)
   + (if (2 <? month d) && leapyear then 1 else 0) + day d =? n + 1).

(** The check that a month or a day is written with two digits. *)
Definition two_digits_ok (v : Z) : bool :=
  match pad 2 v with
  | String a (String b EmptyString) => is_digit a && is_digit b
  | _ => false
  end.

(** ** Further predicates on runs *)

(** A read statement sent to the store. *)
Definition read_statement (e : Effect) : Prop :=
  ∃ q, e = EQuery q ∧ is_write q = false.

(** A computation that sends [n] read statements one after the other and
    stops at the first one that finds the store unreachable. *)
Definition reads (n : nat) {A} (m : M A) : Prop :=
  ∀ w, ∃ t,
    extends w (snd (m w)) t ∧ store (snd (m w)) = store w ∧
    Forall read_statement t ∧
    match fst (m w) with
    | inr _ =>
        length t = n ∧ ∀ i, (i < n)%nat → db_fails w (queries w + i)%nat = false
    | inl e =>
        e = DatabaseError "Database query error" ∧
        ∃ k, length t = S k ∧ (k < n)%nat ∧
             db_fails w (queries w + k)%nat = true ∧
             ∀ i, (i < k)%nat → db_fails w (queries w + i)%nat = false
    end.

(** A completion request that asks for a JSON object. *)
Definition json_mode (p : gmap string json) : Prop :=
  p !! "response_format" = Some (JDict [("type", JStr "json_object")]).

(** What an attempt of [generate_daily_plan] can fail with: an [LLMError] of
    the client around its cause, or the error of [validate_plan]. *)
Definition generation_error (e : Exn) : Prop :=
  (∃ message cause, e = LLMError message (Some cause) 0) ∨
  (∃ errors, e = InvalidPlanStructure errors).

(** An error at location [l] is among those a validation reports. *)
Definition reports {A} (l : loc) (r : vres A) : Prop :=
  ∃ errors, r = inl errors ∧ l ∈ errors.

(** * Properties *)

(** ** Effects of a run *)

Lemma extends_refl w : extends w w [].
Proof.
  unfold extends; cbn. rewrite app_nil_r, !Nat.add_0_r. done.
Qed.

Lemma extends_record e w : extends w (record_effect e w) [e].
Proof.
  unfold extends; destruct e; cbn; repeat split; lia.
Qed.

Lemma statements_app t1 t2 :
  statements (t1 ++ t2) = (statements t1 ++ statements t2)%list.
Proof. apply omap_app. Qed.

Lemma completions_app t1 t2 :
  completions (t1 ++ t2) = (completions t1 ++ completions t2)%list.
Proof. apply omap_app. Qed.

Lemma sleeps_app t1 t2 : sleeps (t1 ++ t2) = (sleeps t1 ++ sleeps t2)%list.
Proof. apply omap_app. Qed.

Lemma log_records_app t1 t2 :
  log_records (t1 ++ t2) = (log_records t1 ++ log_records t2)%list.
Proof. apply omap_app. Qed.

Lemma extends_trans w1 w2 w3 t1 t2 :
  extends w1 w2 t1 → extends w2 w3 t2 → extends w1 w3 (t1 ++ t2).
Proof.
  unfold extends. intros (Ht1 & -> & -> & -> & -> & Hq1 & Hc1)
    (Ht2 & -> & -> & -> & -> & Hq2 & Hc2).
  rewrite Ht2, Ht1, Hq2, Hq1, Hc2, Hc1, statements_app, completions_app,
    !length_app, <- app_assoc.
  repeat split; lia.
Qed.

Lemma extends_set_store s w w' t :
  extends w w' t → extends w (set_store s w') t.
Proof. unfold extends; cbn. tauto. Qed.

(** ** The week bucket *)

Lemma get_week_number_before_sunday d :
  weekday d ≠ 6 → get_week_number d = iso_week_number d.
Proof.
  intros Hd. unfold get_week_number, iso_week_number.
  destruct d as [y m dd]; cbn [year month day].
  destruct (Z.eqb_spec (weekday (mkdate y m dd) + 1) 7) as [E|E]; [lia|].
  replace (4 - (weekday (mkdate y m dd) + 1)) with (3 - weekday (mkdate y m dd)) by lia.
  destruct (add_days _ _); done.
Qed.

(** On a Sunday the code moves forward to the Thursday of the week after. *)
Lemma get_week_number_on_sunday d :
  weekday d = 6 →
  get_week_number d =
  match add_days d 4 with
  | Some thursday =>
      Some ((toordinal thursday - toordinal (mkdate (year thursday) 1 1) + 1 + 6) / 7)
  | None => None
  end.
Proof.
  intros Hd. unfold get_week_number.
  destruct d as [y m dd]; cbn [year month day].
  rewrite Hd. cbn. done.
Qed.

(** C6 (the code at its failing input).  Monday 2024-01-15 and Sunday
    2024-01-21 lie in the same ISO week, week 3, and Monday 2024-01-22 opens
    the following one; [get_week_number] answers 3 for the first Monday but 4
    for the Sunday, the bucket of the following week. *)
Theorem get_week_number_sunday_in_next_bucket :
  same_iso_week (mkdate 2024 1 15) (mkdate 2024 1 21) ∧
  following_iso_week (mkdate 2024 1 21) (mkdate 2024 1 22) ∧
  iso_week_number (mkdate 2024 1 15) = Some 3 ∧
  iso_week_number (mkdate 2024 1 21) = Some 3 ∧
  iso_week_number (mkdate 2024 1 22) = Some 4 ∧
  get_week_number (mkdate 2024 1 15) = Some 3 ∧
  get_week_number (mkdate 2024 1 21) = Some 4 ∧
  get_week_number (mkdate 2024 1 22) = Some 4.
Proof. vm_compute. repeat split. Qed.

(** ** The completion client *)

Arguments retryable : simpl never.
Arguments failed_after : simpl never.

Lemma seq_shift_map {A} (f : nat → A) n :
  map f (seq 1 n) = map (fun i => f (S i)) (seq 0 n).
Proof. rewrite <- seq_shift, map_map. done. Qed.

Lemma timeline_app t1 t2 :
  timeline (t1 ++ t2) = (timeline t1 ++ timeline t2)%list.
Proof. apply omap_app. Qed.

Lemma extends_record_after e w w' t :
  extends w w' t → extends w (record_effect e w') (t ++ [e]).
Proof. intros H. eapply extends_trans; [exact H | apply extends_record]. Qed.

Ltac extends_chain :=
  unfold extends; cbn; rewrite <- ?app_assoc; cbn; repeat split; lia.

Lemma store_record_effect e w : store (record_effect e w) = store w.
Proof. done. Qed.

(** One turn of the loop when the provider answers with a content. *)
Lemma complete_attempts_answer self params r attempt last_error w c :
  provider w (calls w) = Content (Some c) →
  complete_attempts self params (S r) attempt last_error w =
  (inr c,
   record_effect (ELog (LLM_call_successful (String.length c)))
     (record_effect (ECompletion params)
        (record_effect
           (ELog (LLM_call_attempt (attempt + 1) (LLMClient.max_retries self)
                    (LLMClient.model self))) w))).
Proof.
  intros Hp. cbn [complete_attempts].
  unfold try_except, bind, logger, acompletion, raise, ret.
  cbn [calls record_effect provider]. rewrite Hp. done.
Qed.

(** One turn of the loop when the call fails. *)
Lemma complete_attempts_failure self params r attempt last_error w e :
  failure_of (provider w (calls w)) = Some e →
  complete_attempts self params (S r) attempt last_error w =
  let w' :=
    record_effect
      (ELog (LLM_error_on_attempt (attempt + 1) (LLMClient.max_retries self)
               (str_of_exn e)))
      (record_effect (ECompletion params)
         (record_effect
            (ELog (LLM_call_attempt (attempt + 1) (LLMClient.max_retries self)
                     (LLMClient.model self))) w)) in
  if negb (retryable e)
     || (Z.of_nat attempt =? Z.of_nat (LLMClient.max_retries self) - 1)
  then (inl (LLMError (failed_after (LLMClient.max_retries self)) (Some e) 0), w')
  else complete_attempts self params r (S attempt) (Some e)
         (record_effect
            (ESleep (LLMClient.retry_delay self * 2 ^ Z.of_nat attempt)) w').
Proof.
  intros Hp. cbn [complete_attempts].
  unfold try_except, bind, logger, acompletion, raise, ret, sleep.
  cbn [calls record_effect provider].
  destruct (provider w (calls w)) as [[c|]|msg]; cbn in Hp; simplify_eq;
    cbn zeta; destruct (negb _ || _); done.
Qed.

Lemma complete_attempts_run self params :
  ∀ remaining attempt last_error w,
    (attempt + remaining = LLMClient.max_retries self)%nat →
    (0 < remaining)%nat →
    ∃ k t,
      extends w (snd (complete_attempts self params remaining attempt last_error w)) t ∧
      store (snd (complete_attempts self params remaining attempt last_error w)) = store w ∧
      (1 <= k <= remaining)%nat ∧
      completions t = repeat params k ∧
      statements t = [] ∧
      timeline t = backoff_timeline (LLMClient.retry_delay self) attempt k ∧
      sleeps t =
        map (fun i => LLMClient.retry_delay self * 2 ^ Z.of_nat (attempt + i))
          (seq 0 (k - 1)) ∧
      (∀ i, (i < k - 1)%nat →
            ∃ e, failure_of (provider w (calls w + i)%nat) = Some e ∧
                 retryable e = true) ∧
      match failure_of (provider w (calls w + (k - 1))%nat) with
      | None =>
          ∃ c, content_of (provider w (calls w + (k - 1))%nat) = Some c ∧
               fst (complete_attempts self params remaining attempt last_error w) = inr c
      | Some e =>
          fst (complete_attempts self params remaining attempt last_error w) =
            inl (LLMError (failed_after (LLMClient.max_retries self)) (Some e) 0) ∧
          (retryable e = false ∨ k = remaining)
      end.
Proof.
  induction remaining as [|r IH]; intros attempt last_error w Hinv Hpos; [lia|].
  destruct (failure_of (provider w (calls w))) as [e|] eqn:Hf.
  - rewrite (complete_attempts_failure _ _ _ _ _ _ _ Hf). cbn zeta.
    destruct (negb (retryable e) || _) eqn:Hstop.
    + (* the loop is left *)
      exists 1%nat,
        [ELog (LLM_call_attempt (attempt + 1) (LLMClient.max_retries self)
                 (LLMClient.model self));
         ECompletion params;
         ELog (LLM_error_on_attempt (attempt + 1) (LLMClient.max_retries self)
                 (str_of_exn e))].
      cbn [fst snd]. rewrite !store_record_effect.
      split; [extends_chain|].
      cbn. rewrite Nat.add_0_r, Hf.
      repeat split; try lia; try done.
      apply orb_true_iff in Hstop as [Hs|Hs].
      * left. by destruct (retryable e).
      * right. apply Z.eqb_eq in Hs. lia.
    + (* backoff, then the next turn *)
      apply orb_false_iff in Hstop as [Hre Hlast].
      apply negb_false_iff in Hre. apply Z.eqb_neq in Hlast.
      match goal with
      | |- context [complete_attempts _ _ r (S attempt) (Some e) ?x] =>
          remember x as w' eqn:Hw'
      end.
      assert (Hcalls : calls w' = S (calls w)) by (subst w'; done).
      assert (Hprov : provider w' = provider w) by (subst w'; done).
      assert (Hstore : store w' = store w) by (subst w'; done).
      assert (Hext0 : extends w w'
                [ELog (LLM_call_attempt (attempt + 1) (LLMClient.max_retries self)
                         (LLMClient.model self));
                 ECompletion params;
                 ELog (LLM_error_on_attempt (attempt + 1)
                         (LLMClient.max_retries self) (str_of_exn e));
                 ESleep (LLMClient.retry_delay self * 2 ^ Z.of_nat attempt)]).
      { subst w'. extends_chain. }
      clear Hw'.
      destruct (IH (S attempt) (Some e) w') as
        (k & t & Hext & Hst & Hk & Hc & Hs & Htl & Hsl & Hall & Hres); [lia|lia|].
      rewrite Hprov, Hcalls in Hall, Hres.
      eexists (S k), _.
      split; [eapply extends_trans; [exact Hext0|exact Hext]|].
      split; [rewrite Hst; done|].
      split; [lia|].
      split; [rewrite completions_app, Hc; done|].
      split; [rewrite statements_app, Hs; done|].
      split.
      { rewrite timeline_app, Htl. destruct k as [|k]; [lia|]. done. }
      split.
      { rewrite sleeps_app, Hsl. cbn.
        replace (k - 0)%nat with (S (k - 1)) by lia.
        cbn [seq map]. rewrite Nat.add_0_r. f_equal.
        rewrite seq_shift_map. apply map_ext. intros i.
        do 3 f_equal. lia. }
      split.
      { intros [|i] Hi.
        - rewrite Nat.add_0_r. eauto.
        - destruct (Hall i) as (e' & He' & Hr'); [lia|].
          exists e'. split; [|done]. rewrite <- He'. do 2 f_equal. lia. }
      replace (calls w + (S k - 1))%nat with (S (calls w) + (k - 1))%nat by lia.
      destruct (failure_of (provider w (S (calls w) + (k - 1))%nat)).
      * destruct Hres as [-> Hor]. split; [done|]. destruct Hor; [by left|right; lia].
      * done.
  - (* the call answers *)
    destruct (provider w (calls w)) as [[c|]|msg] eqn:Hp; try done.
    rewrite (complete_attempts_answer _ _ _ _ _ _ _ Hp).
    exists 1%nat,
      [ELog (LLM_call_attempt (attempt + 1) (LLMClient.max_retries self)
               (LLMClient.model self));
       ECompletion params; ELog (LLM_call_successful (String.length c))].
    cbn [fst snd]. rewrite !store_record_effect.
    split; [extends_chain|].
    cbn. rewrite Nat.add_0_r, Hp. cbn.
    repeat split; try lia; try done.
    eexists; done.
Qed.

Lemma LLMClient_init_fields settings self :
  LLMClient_init settings = inr self →
  LLMClient.max_retries self = 3%nat ∧ LLMClient.retry_delay self = 1.
Proof.
  unfold LLMClient_init. intros H.
  destruct (llm_api_key settings) as [key|]; [|done].
  destruct (String.eqb key ""); [done|].
  by simplify_eq.
Qed.

(** C5 (amended).  A client built by [LLMClient.__init__] makes [k] calls,
    between one and three.  Every call but the last failed with an error
    whose lower-cased text contains one of the codes of [retryable_codes]
    ("rate limit", "timeout", "connection", "network", "temporary", "service
    unavailable", "429", "502", "503", "504"), and was followed by a sleep
    of [2^(n-1)] seconds after call [n]: one second, then two; there is no
    sleep elsewhere.  A last call that answers gives the result; a last
    call that fails is either not retryable or the third one, and the run
    raises one [LLMError] whose text names the three attempts and whose
    original error is that last failure. *)
Theorem complete_retry_policy settings self system_prompt user_prompt options w :
  LLMClient_init settings = inr self →
  ∃ k t,
    extends w (snd (complete self system_prompt user_prompt options w)) t ∧
    (1 <= k <= 3)%nat ∧
    timeline t = backoff_timeline 1 0 k ∧
    sleeps t = map (fun i => 2 ^ Z.of_nat i) (seq 0 (k - 1)) ∧
    (∀ i, (i < k - 1)%nat →
          ∃ e, failure_of (provider w (calls w + i)%nat) = Some e ∧
               retryable e = true) ∧
    match failure_of (provider w (calls w + (k - 1))%nat) with
    | None =>
        ∃ c, content_of (provider w (calls w + (k - 1))%nat) = Some c ∧
             fst (complete self system_prompt user_prompt options w) = inr c
    | Some e =>
        fst (complete self system_prompt user_prompt options w) =
          inl (LLMError "LLM API call failed after 3 attempts" (Some e) 0) ∧
        (retryable e = false ∨ k = 3%nat)
    end.
Proof.
  intros Hinit. apply LLMClient_init_fields in Hinit as [Hmax Hdelay].
  unfold complete.
  destruct (complete_attempts_run self
              (completion_params self system_prompt user_prompt (default ∅ options))
              (LLMClient.max_retries self) 0 None w)
    as (k & t & Hext & _ & Hk & _ & _ & Htl & Hsl & Hall & Hres); [lia|lia|].
  rewrite Hmax, Hdelay in *.
  exists k, t.
  split; [done|]. split; [lia|]. split; [done|].
  split; [rewrite Hsl; apply map_ext; intros i; cbn; lia|].
  split; [done|].
  destruct (failure_of (provider w (calls w + (k - 1))%nat)); [|done].
  destruct Hres as [-> Hor]. split; [done|]. destruct Hor; [by left|right; lia].
Qed.

(** C8.  The request of every call of [complete] carries the temperature
    and the token limit of the options (keys [temperature] and [maxTokens]),
    0.7 and 2000 when they are absent, and asks for a JSON object exactly
    when the option [jsonMode] is true; at least one call is made. *)
Theorem complete_request_options settings self system_prompt user_prompt options w :
  LLMClient_init settings = inr self →
  ∃ k t request,
    extends w (snd (complete self system_prompt user_prompt options w)) t ∧
    (1 <= k)%nat ∧
    completions t = repeat request k ∧
    request !! "temperature" =
      Some (default (JFloat (7 # 10)) (default ∅ options !! "temperature")) ∧
    request !! "max_tokens" =
      Some (default (JInt 2000) (default ∅ options !! "maxTokens")) ∧
    request !! "response_format" =
      (if truthy (default JNull (default ∅ options !! "jsonMode"))
       then Some (JDict [("type", JStr "json_object")]) else None).
Proof.
  intros Hinit. apply LLMClient_init_fields in Hinit as [Hmax Hdelay].
  unfold complete.
  destruct (complete_attempts_run self
              (completion_params self system_prompt user_prompt (default ∅ options))
              (LLMClient.max_retries self) 0 None w)
    as (k & t & Hext & _ & Hk & Hc & _); [lia|lia|].
  exists k, t, (completion_params self system_prompt user_prompt (default ∅ options)).
  split; [done|]. split; [lia|]. split; [done|].
  unfold completion_params.
  destruct (truthy (default JNull (default ∅ options !! "jsonMode")));
    repeat split;
    repeat first [ rewrite lookup_insert_eq | rewrite lookup_insert_ne by done
                 | rewrite lookup_empty ]; done.
Qed.

(** ** Statements on the store *)

Lemma query_reaches_store {A} sql (run : Store → A * Store) w :
  db_fails w (queries w) = false →
  query sql run w =
  (inr (fst (run (store w))),
   set_store (snd (run (store w))) (record_effect (EQuery sql) w)).
Proof. unfold query. intros ->. by destruct (run (store w)). Qed.

Lemma query_store_down {A} sql (run : Store → A * Store) w :
  db_fails w (queries w) = true →
  query sql run w =
  (inl (DatabaseError "Database query error"), record_effect (EQuery sql) w).
Proof. unfold query. by intros ->. Qed.

(** ** The weekly override policy *)



(** ** The upsert of [save_plan] *)

Lemma plan_key_is_true user_id plan_date r :
  plan_key_is user_id plan_date r = true ↔
  PlanRow.user_id r = user_id ∧ PlanRow.plan_date r = plan_date.
Proof. unfold plan_key_is. apply bool_decide_eq_true. Qed.

Lemma upsert_daily_plan_row u d p reasoning ts rows :
  PlanRow.user_id (fst (upsert_daily_plan u d p reasoning ts rows)) = u ∧
  PlanRow.plan_date (fst (upsert_daily_plan u d p reasoning ts rows)) = d ∧
  PlanRow.plan_json (fst (upsert_daily_plan u d p reasoning ts rows)) = p ∧
  PlanRow.reasoning (fst (upsert_daily_plan u d p reasoning ts rows)) = reasoning ∧
  fst (upsert_daily_plan u d p reasoning ts rows)
    ∈ snd (upsert_daily_plan u d p reasoning ts rows).
Proof.
  induction rows as [|r rows IH]; cbn.
  - repeat split. apply list_elem_of_here.
  - destruct (plan_key_is u d r) eqn:Hk.
    + apply plan_key_is_true in Hk as [Hu Hd]. cbn.
      repeat split; try done. apply list_elem_of_here.
    + destruct (upsert_daily_plan u d p reasoning ts rows) as [out rows'].
      cbn in *. destruct IH as (? & ? & ? & ? & ?).
      repeat split; try done. by apply list_elem_of_further.
Qed.

(** The keys of the table after an upsert: unchanged when the key was
    there, one more at the end otherwise. *)
Lemma upsert_daily_plan_keys u d p reasoning ts rows :
  plan_keys (snd (upsert_daily_plan u d p reasoning ts rows)) =
  if decide ((u, d) ∈ plan_keys rows) then plan_keys rows
  else (plan_keys rows ++ [(u, d)])%list.
Proof.
  induction rows as [|r rows IH]; cbn.
  - rewrite decide_False; [done|]. apply not_elem_of_nil.
  - destruct (plan_key_is u d r) eqn:Hk.
    + apply plan_key_is_true in Hk as [Hu Hd]. cbn.
      rewrite decide_True; [done|]. rewrite Hu, Hd. apply list_elem_of_here.
    + destruct (upsert_daily_plan u d p reasoning ts rows) as [out rows'].
      cbn in *. rewrite IH.
      assert (Hne : (PlanRow.user_id r, PlanRow.plan_date r) ≠ (u, d)).
      { intros [= Hu Hd]. assert (plan_key_is u d r = true)
          by (by apply plan_key_is_true). congruence. }
      destruct (decide ((u, d) ∈ plan_keys rows)) as [Hin|Hin].
      * rewrite decide_True; [done|]. by apply list_elem_of_further.
      * rewrite decide_False; [done|].
        intros Hin'. apply elem_of_cons in Hin' as [?|?]; [congruence|done].
Qed.

Lemma upsert_daily_plan_unique u d p reasoning ts rows :
  unique_plan_keys rows →
  unique_plan_keys (snd (upsert_daily_plan u d p reasoning ts rows)).
Proof.
  unfold unique_plan_keys. intros Hnd. rewrite upsert_daily_plan_keys.
  destruct (decide ((u, d) ∈ plan_keys rows)) as [Hin|Hin]; [done|].
  apply NoDup_app. split; [done|]. split.
  - intros k Hk Hk'. apply list_elem_of_singleton in Hk'. by subst.
  - apply NoDup_singleton.
Qed.

Lemma upsert_daily_plan_length u d p reasoning ts rows :
  length (snd (upsert_daily_plan u d p reasoning ts rows)) =
  if decide ((u, d) ∈ plan_keys rows) then length rows else S (length rows).
Proof.
  rewrite <- (length_map (λ r, (PlanRow.user_id r, PlanRow.plan_date r))
               (snd (upsert_daily_plan u d p reasoning ts rows))).
  fold (plan_keys (snd (upsert_daily_plan u d p reasoning ts rows))).
  rewrite upsert_daily_plan_keys.
  destruct (decide _); unfold plan_keys.
  - by rewrite length_map.
  - rewrite length_app, length_map. cbn. lia.
Qed.

(** A fresh row is no override. *)
Lemma upsert_daily_plan_fresh u d p reasoning ts rows :
  (u, d) ∉ plan_keys rows →
  PlanRow.is_override (fst (upsert_daily_plan u d p reasoning ts rows)) = false.
Proof.
  induction rows as [|r rows IH]; cbn; [done|].
  intros Hnin. apply not_elem_of_cons in Hnin as [Hne Hnin].
  destruct (plan_key_is u d r) eqn:Hk.
  - apply plan_key_is_true in Hk as [Hu Hd]. congruence.
  - specialize (IH Hnin).
    by destruct (upsert_daily_plan u d p reasoning ts rows).
Qed.

Lemma rows_of_key_absent u d rows :
  (u, d) ∉ plan_keys rows → rows_of_key u d rows = [].
Proof.
  unfold rows_of_key. induction rows as [|x rows IH]; [done|].
  intros Hnin. cbn in Hnin. apply not_elem_of_cons in Hnin as [Hne Hnin].
  rewrite filter_cons, decide_False; [by apply IH|].
  intros [Hu Hd]. congruence.
Qed.

(** Under the unique constraint a key selects the one row that carries it. *)
Lemma rows_of_key_unique u d r rows :
  unique_plan_keys rows → r ∈ rows →
  PlanRow.user_id r = u → PlanRow.plan_date r = d →
  rows_of_key u d rows = [r].
Proof.
  unfold unique_plan_keys.
  induction rows as [|x rows IH]; intros Hnd Hin Hu Hd.
  - by apply elem_of_nil in Hin.
  - cbn in Hnd. apply NoDup_cons in Hnd as [Hx Hnd].
    unfold rows_of_key. rewrite filter_cons.
    apply elem_of_cons in Hin as [<-|Hin].
    + rewrite decide_True by done. f_equal.
      apply rows_of_key_absent. by rewrite <- Hu, <- Hd.
    + rewrite decide_False.
      * by apply IH.
      * intros [Hu' Hd']. apply Hx. rewrite Hu', Hd', <- Hu, <- Hd.
        unfold plan_keys.
        by apply (list_elem_of_fmap_2
                    (λ r, (PlanRow.user_id r, PlanRow.plan_date r))).
Qed.

(** [save_plan] on a date that parses, with the store reachable. *)
Lemma save_plan_upserts self u s d plan w :
  strptime_ymd s = Some d →
  db_fails w (queries w) = false →
  ∃ row,
    save_plan self u s plan w =
    (inr (Some row),
     set_store
       (with_daily_plans
          (snd (upsert_daily_plan u d plan (DailyPlan.reasoning plan) (now w)
                  (daily_plans (store w))))
          (store w))
       (record_effect
          (EQuery (UpsertDailyPlan u d plan (DailyPlan.reasoning plan))) w)).
Proof.
  intros Hd Hdb. unfold save_plan, bind, strptime, datetime_now, ret.
  rewrite Hd. cbn beta iota.
  rewrite (query_reaches_store _ _ _ Hdb).
  destruct (upsert_daily_plan u d plan (DailyPlan.reasoning plan) (now w)
              (daily_plans (store w))) as [row rows]. cbn. eauto.
Qed.

(** After [save_plan] the key has exactly one row, with the payload and the
    reasoning just written, and the table still obeys the constraint. *)
Lemma save_plan_one_row self u s d plan w :
  strptime_ymd s = Some d →
  db_fails w (queries w) = false →
  unique_plan_keys (daily_plans (store w)) →
  ∃ row,
    rows_of_key u d (daily_plans (store (snd (save_plan self u s plan w)))) = [row] ∧
    PlanRow.plan_json row = plan ∧
    PlanRow.reasoning row = DailyPlan.reasoning plan ∧
    unique_plan_keys (daily_plans (store (snd (save_plan self u s plan w)))).
Proof.
  intros Hd Hdb Huniq.
  destruct (save_plan_upserts self u s d plan w Hd Hdb) as [row ->].
  cbn [snd store set_store daily_plans with_daily_plans].
  pose proof (upsert_daily_plan_row u d plan (DailyPlan.reasoning plan) (now w)
                (daily_plans (store w))) as (Hu & Hdt & Hp & Hr & Hin).
  pose proof (upsert_daily_plan_unique u d plan (DailyPlan.reasoning plan) (now w)
                _ Huniq) as Huniq'.
  eexists. split; [by apply rows_of_key_unique|]. done.
Qed.

(** ** Computations that leave the store alone *)

Lemma quiet_is_calm e : quiet_effect e → calm_effect e.
Proof. by destruct e as [| | |[]]. Qed.


Lemma quiet_failed_attempts t : Forall quiet_effect t → failed_attempts t = [].
Proof.
  unfold failed_attempts. induction 1 as [|e t He _ IH]; [done|].
  by destruct e as [| | |[]]; cbn in *.
Qed.

Lemma failed_attempts_app t1 t2 :
  failed_attempts (t1 ++ t2) = (failed_attempts t1 ++ failed_attempts t2)%list.
Proof. apply omap_app. Qed.

Lemma read_only_ret {A} (a : A) : read_only (ret a).
Proof. intros w. exists []. split; [apply extends_refl|]. by split. Qed.

Lemma read_only_raise {A} e : read_only (@raise A e).
Proof. intros w. exists []. split; [apply extends_refl|]. by split. Qed.

Lemma read_only_lift {A} (r : Exn + A) : read_only (lift r).
Proof. intros w. exists []. split; [apply extends_refl|]. by split. Qed.

Lemma read_only_bind {A B} (m : M A) (k : A → M B) :
  read_only m → (∀ a, read_only (k a)) → read_only (bind m k).
Proof.
  intros Hm Hk w. destruct (Hm w) as (t1 & He1 & Hs1 & Hq1). unfold bind.
  destruct (m w) as [[e|a] w1]; cbn [fst snd] in *.
  - by exists t1.
  - destruct (Hk a w1) as (t2 & He2 & Hs2 & Hq2).
    exists (t1 ++ t2)%list. split; [by eapply extends_trans|].
    split; [congruence|]. by apply Forall_app.
Qed.

Lemma read_only_try_except {A} (m : M A) (h : Exn → M A) :
  read_only m → (∀ e, read_only (h e)) → read_only (try_except m h).
Proof.
  intros Hm Hh w. destruct (Hm w) as (t1 & He1 & Hs1 & Hq1). unfold try_except.
  destruct (m w) as [[e|a] w1]; cbn [fst snd] in *.
  - destruct (Hh e w1) as (t2 & He2 & Hs2 & Hq2).
    exists (t1 ++ t2)%list. split; [by eapply extends_trans|].
    split; [congruence|]. by apply Forall_app.
  - by exists t1.
Qed.

Lemma read_only_effect e :
  quiet_effect e → read_only (fun w => (inr tt, record_effect e w)).
Proof.
  intros He w. exists [e]. split; [apply extends_record|].
  split; [done|]. by apply Forall_singleton.
Qed.

Lemma read_only_logger r :
  quiet_effect (ELog r) → read_only (logger r).
Proof. apply read_only_effect. Qed.

Lemma read_only_sleep s : read_only (sleep s).
Proof. by apply read_only_effect. Qed.

Lemma read_only_acompletion params : read_only (acompletion params).
Proof.
  intros w. exists [ECompletion params]. unfold acompletion.
  destruct (provider w (calls w)); cbn [fst snd];
    (split; [apply extends_record|]); split; try done;
    by apply Forall_singleton.
Qed.

Lemma read_only_query {A} sql (run : Store → A * Store) :
  is_write sql = false → (∀ s, snd (run s) = s) → read_only (query sql run).
Proof.
  intros Hsql Hrun w. exists [EQuery sql]. unfold query.
  destruct (db_fails w (queries w)); cbn [fst snd].
  - split; [apply extends_record|]. split; [done|]. by apply Forall_singleton.
  - specialize (Hrun (store w)). destruct (run (store w)) as [a s'].
    cbn in Hrun. subst s'. cbn [fst snd].
    split; [apply extends_set_store, extends_record|].
    split; [done|]. by apply Forall_singleton.
Qed.

Lemma read_only_datetime_now : read_only datetime_now.
Proof. intros w. exists []. split; [apply extends_refl|]. by split. Qed.

Lemma read_only_strptime s : read_only (strptime s).
Proof.
  unfold strptime. destruct (strptime_ymd s);
    [apply read_only_ret | apply read_only_raise].
Qed.

Lemma read_only_plus_days d k : read_only (plus_days d k).
Proof.
  unfold plus_days. destruct (add_days d k);
    [apply read_only_ret | apply read_only_raise].
Qed.

Ltac read_only_step :=
  first
    [ apply read_only_bind; [|intros ?]
    | apply read_only_try_except; [|intros ?]
    | apply read_only_ret
    | apply read_only_raise
    | apply read_only_lift
    | apply read_only_logger; exact I
    | apply read_only_sleep
    | apply read_only_acompletion
    | apply read_only_datetime_now
    | apply read_only_strptime
    | apply read_only_plus_days
    | apply read_only_query; [reflexivity | intros ?; reflexivity] ].

Lemma read_only_complete_attempts self params :
  ∀ remaining attempt last_error,
    read_only (complete_attempts self params remaining attempt last_error).
Proof.
  induction remaining as [|r IH]; intros attempt last_error; cbn [complete_attempts].
  - apply read_only_raise.
  - repeat read_only_step.
    + destruct a0; repeat read_only_step.
    + destruct (negb _ || _); repeat read_only_step. apply IH.
Qed.

Lemma read_only_complete self system_prompt user_prompt options :
  read_only (complete self system_prompt user_prompt options).
Proof. apply read_only_complete_attempts. Qed.

Lemma read_only_gather_planning_context self user_id target_date :
  read_only (gather_planning_context self user_id target_date).
Proof. unfold gather_planning_context. repeat read_only_step. Qed.

Lemma read_only_get_user : read_only get_user.
Proof. unfold get_user. repeat read_only_step. Qed.

(** ** The plan schema *)

Lemma ap_inr {A B} (f : vres (A → B)) (x : vres A) b :
  f <@> x = inr b → ∃ g a, f = inr g ∧ x = inr a ∧ b = g a.
Proof. destruct f, x; cbn; intros; simplify_eq; eauto. Qed.



Lemma under_inr {A} s (r : vres A) a : under s r = inr a ↔ r = inr a.
Proof. destruct r; cbn; split; congruence. Qed.

Lemma required_inr {A} d name (v : json → vres A) a :
  required d name v = inr a ↔ ∃ j, dict_get d name = Some j ∧ v j = inr a.
Proof.
  unfold required. destruct (dict_get d name) as [j|].
  - rewrite under_inr. split; [eauto|]. by intros (? & [= <-] & ?).
  - split; [done|]. by intros (? & ? & ?).
Qed.


Lemma defaulted_inr {A} d name (default : A) (v : json → vres A) a :
  defaulted d name default v = inr a ↔
  (dict_get d name = None ∧ a = default) ∨
  ∃ j, dict_get d name = Some j ∧ v j = inr a.
Proof.
  unfold defaulted. destruct (dict_get d name) as [j|].
  - rewrite under_inr. split; [eauto|].
    intros [[? _]|(? & [= <-] & ?)]; done.
  - split; [intros [= <-]; by left|].
    intros [[_ ->]|(? & ? & ?)]; done.
Qed.

Lemma str_field_inr min_length pattern j s :
  str_field min_length pattern j = inr s ↔
  j = JStr s ∧ (min_length <= String.length s)%nat ∧ pattern s = true.
Proof.
  unfold str_field. destruct j; try (split; [done|by intros [? _]]).
  destruct (Nat.leb_spec min_length (String.length s0)) as [Hl|Hl];
    destruct (pattern s0) eqn:Hp; cbn; split;
    try (intros [= <-]; done); try done;
    intros ([= <-] & ? & ?); try done; try lia; congruence.
Qed.

Lemma int_field_inr ge le j z :
  int_field ge le j = inr z ↔
  lax_int j = Some z ∧ ge <= z ∧ match le with Some hi => z <= hi | None => True end.
Proof.
  unfold int_field. destruct (lax_int j) as [z'|]; [|split; [done|by intros [? _]]].
  destruct (Z.leb_spec ge z') as [Hg|Hg]; cbn.
  - destruct le as [hi|].
    + destruct (Z.leb_spec z' hi); split;
        try (intros [= <-]; done); try done;
        intros ([= <-] & ? & ?); try done; lia.
    + split; [intros [= <-]; done|]. by intros ([= <-] & ? & ?).
  - split; [done|]. intros ([= <-] & ? & ?). lia.
Qed.

Lemma existsb_eqb_elem_of s l : existsb (String.eqb s) l = true ↔ s ∈ l.
Proof.
  rewrite existsb_exists. split.
  - intros (x & Hin & Heq%String.eqb_eq). subst. by apply list_elem_of_In.
  - intros Hin. exists s. split; [by apply list_elem_of_In|apply String.eqb_refl].
Qed.

Lemma literal_field_inr allowed j s :
  literal_field allowed j = inr s ↔ j = JStr s ∧ s ∈ allowed.
Proof.
  unfold literal_field. destruct j; try (split; [done|by intros [? _]]).
  destruct (existsb (String.eqb s0) allowed) eqn:He.
  - apply existsb_eqb_elem_of in He. split; [intros [= <-]; done|].
    by intros [[= <-] _].
  - split; [done|]. intros [[= <-] Hin]. apply existsb_eqb_elem_of in Hin.
    congruence.
Qed.

Lemma optional_field_inr {A} (v : json → vres A) j o :
  optional_field v j = inr o ↔
  (j = JNull ∧ o = None) ∨ (j ≠ JNull ∧ ∃ a, v j = inr a ∧ o = Some a).
Proof.
  unfold optional_field. destruct j.
  1: { split; [intros [= <-]; by left|]. intros [[_ ->]|[? _]]; done. }
  all: destruct (v _) as [es|a] eqn:Hv; split;
    [ intros H; first [discriminate H | injection H as <-; right; split; [done|eauto]]
    | intros [[? _]|(_ & a' & ? & ->)]; [done|congruence]
    | intros H; first [discriminate H | injection H as <-; right; split; [done|eauto]]
    | intros [[? _]|(_ & a' & ? & ->)]; [done|congruence] ].
Qed.

Lemma list_items_inr {A} (v : json → vres A) l :
  ∀ i xs, list_items v i l = inr xs ↔ Forall2 (fun j x => v j = inr x) l xs.
Proof.
  induction l as [|j l IH]; intros i xs; cbn [list_items].
  - split; [intros [= <-]; constructor|]. by inversion 1.
  - split.
    + intros (g & a & (g' & x & [= <-] & Hx%under_inr & ->)%ap_inr & Hl & ->)%ap_inr.
      constructor; [done|]. by apply (IH (S i)).
    + inversion 1 as [|? x ? xs' Hx Hxs]; subst.
      apply (IH (S i)) in Hxs. rewrite Hxs, Hx. done.
Qed.

Lemma list_field_inr {A} (v : json → vres A) j xs :
  list_field v j = inr xs ↔
  ∃ l, j = JList l ∧ Forall2 (fun j x => v j = inr x) l xs.
Proof.
  unfold list_field. destruct j; try (split; [done|by intros (? & ? & _)]).
  rewrite list_items_inr. split; [eauto|]. by intros (? & [= <-] & ?).
Qed.

Lemma model_field_inr {A} (v : list (string * json) → vres A) j a :
  model_field v j = inr a ↔ ∃ d, j = JDict d ∧ v d = inr a.
Proof.
  unfold model_field. destruct j; try (split; [done|by intros (? & ? & _)]).
  split; [eauto|]. by intros (? & [= <-] & ?).
Qed.




















(** *** What the validator returns obeys the schema *)

Lemma TimeBlock_validate_ok d b :
  TimeBlock_validate d = inr b → TimeBlock_ok b = true.
Proof.
  unfold TimeBlock_validate. intros H.
  apply ap_inr in H as (g6 & a6 & H & H6 & ->).
  apply ap_inr in H as (g5 & a5 & H & H5 & ->).
  apply ap_inr in H as (g4 & a4 & H & H4 & ->).
  apply ap_inr in H as (g3 & a3 & H & H3 & ->).
  apply ap_inr in H as (g2 & a2 & H & H2 & ->).
  apply ap_inr in H as (g1 & a1 & H & H1 & ->).
  injection H as <-.
  apply required_inr in H1 as (? & _ & (_ & _ & H1)%str_field_inr).
  apply required_inr in H2 as (? & _ & (_ & _ & H2)%str_field_inr).
  apply required_inr in H4 as (? & _ & (_ & H4 & _)%str_field_inr).
  apply required_inr in H5 as (? & _ & (_ & H5 & H5')%int_field_inr).
  apply required_inr in H6 as (? & _ & (_ & H6 & _)%str_field_inr).
  assert (match a3 with Some s => uuid_form s | None => true end = true) as H3'.
  { apply defaulted_inr in H3 as [[_ ->]|(? & _ & H3)]; [done|].
    apply optional_field_inr in H3 as [[_ ->]|(_ & s & (_ & _ & ?)%str_field_inr & ->)];
      done. }
  apply Nat.leb_le in H4, H6. apply Z.leb_le in H5, H5'.
  unfold TimeBlock_ok.
  cbn [TimeBlock.start_time TimeBlock.end_time TimeBlock.task_id
       TimeBlock.activity TimeBlock.priority TimeBlock.reasoning].
  by rewrite H1, H2, H3', H4, H5, H5', H6.
Qed.

Lemma GoalProgress_validate_ok d g :
  GoalProgress_validate d = inr g → GoalProgress_ok g = true.
Proof.
  unfold GoalProgress_validate. intros H.
  apply ap_inr in H as (g3 & a3 & H & H3 & ->).
  apply ap_inr in H as (g2 & a2 & H & H2 & ->).
  apply ap_inr in H as (g1 & a1 & H & H1 & ->).
  injection H as <-.
  apply required_inr in H1 as (? & _ & (_ & _ & H1)%str_field_inr).
  apply required_inr in H2 as (? & _ & (_ & H2)%literal_field_inr).
  apply existsb_eqb_elem_of in H2.
  unfold GoalProgress_ok. cbn [GoalProgress.goal_id GoalProgress.status].
  by rewrite H1, H2.
Qed.

Lemma SocialTime_validate_ok d s :
  SocialTime_validate d = inr s → SocialTime_ok s = true.
Proof.
  unfold SocialTime_validate. intros H.
  apply ap_inr in H as (g2 & a2 & H & H2 & ->).
  apply ap_inr in H as (g1 & a1 & H & H1 & ->).
  injection H as <-.
  apply required_inr in H1 as (? & _ & (_ & H1 & _)%int_field_inr).
  apply required_inr in H2 as (? & _ & (_ & H2 & _)%str_field_inr).
  apply Z.leb_le in H1. apply Nat.leb_le in H2.
  unfold SocialTime_ok. cbn [SocialTime.total_minutes SocialTime.reasoning].
  by rewrite H1, H2.
Qed.

Lemma Forall2_forallb {A} (v : list (string * json) → vres A) (ok : A → bool) l xs :
  (∀ d a, v d = inr a → ok a = true) →
  Forall2 (fun j x => model_field v j = inr x) l xs → forallb ok xs = true.
Proof.
  intros Hv. induction 1 as [|j x l xs (d & _ & Hx)%model_field_inr _ IH]; [done|].
  cbn. rewrite IH, (Hv _ _ Hx). done.
Qed.

Lemma validate_plan_schema plan_data plan :
  validate_plan plan_data = inr plan → DailyPlan_ok plan = true.
Proof.
  unfold validate_plan. destruct plan_data as [| | | | | |d]; try done.
  destruct (DailyPlan_validate d) as [?|p] eqn:H; [done|]. intros [= ->].
  unfold DailyPlan_validate in H.
  apply ap_inr in H as (g7 & a7 & H & H7 & ->).
  apply ap_inr in H as (g6 & a6 & H & H6 & ->).
  apply ap_inr in H as (g5 & a5 & H & H5 & ->).
  apply ap_inr in H as (g4 & a4 & H & H4 & ->).
  apply ap_inr in H as (g3 & a3 & H & H3 & ->).
  apply ap_inr in H as (g2 & a2 & H & H2 & ->).
  apply ap_inr in H as (g1 & a1 & H & H1 & ->).
  injection H as <-.
  apply required_inr in H1 as (? & _ & (_ & _ & H1)%str_field_inr).
  apply required_inr in H2 as (? & _ & (_ & H2 & _)%str_field_inr).
  apply required_inr in H3 as (? & _ & (_ & H3 & _)%str_field_inr).
  apply required_inr in H4 as (? & _ & (? & _ & H4)%list_field_inr).
  apply required_inr in H5 as (? & _ & (? & _ & H5)%model_field_inr).
  apply required_inr in H6 as (? & _ & (? & _ & H6)%list_field_inr).
  apply Nat.leb_le in H2, H3.
  unfold DailyPlan_ok.
  cbn [DailyPlan.date DailyPlan.reasoning DailyPlan.priority_analysis
       DailyPlan.time_blocks DailyPlan.social_time_allocation
       DailyPlan.goal_progress_assessment].
  by rewrite H1, H2, H3, (Forall2_forallb _ _ _ _ TimeBlock_validate_ok H4),
    (Forall2_forallb _ _ _ _ GoalProgress_validate_ok H6),
    (SocialTime_validate_ok _ _ H5).
Qed.

(** *** A rejection names the failing fields *)























(** ** The orchestrator *)

Section Orchestration.

Variable json_loads : string -> option json.
Variable system_prompt : string.
Variable build_prompt : Context.t -> string.

Local Abbreviation generate_plan' := (generate_plan json_loads system_prompt build_prompt).
Local Abbreviation generation_attempts' :=
  (generation_attempts json_loads system_prompt build_prompt).
Local Abbreviation generate_daily_plan' :=
  (generate_daily_plan json_loads system_prompt build_prompt).
Local Abbreviation nightly_planning_job' :=
  (nightly_planning_job json_loads system_prompt build_prompt).

Lemma read_only_generate_plan self context options :
  read_only (generate_plan' self context options).
Proof.
  unfold generate_plan. repeat read_only_step.
  - apply read_only_complete.
  - destruct (json_loads a); repeat read_only_step.
  - destruct e; repeat read_only_step.
Qed.

(** One turn of the generation loop. *)
Lemma generation_attempts_turn self context r attempt last_error w :
  generation_attempts' self context (S r) attempt last_error w =
  match generate_plan' (PlanningEngine.llm_client self) context None w with
  | (inl e, w1) =>
      generation_attempts' self context r (S attempt) (Some e)
        (record_effect (ELog (Plan_generation_attempt_failed (attempt + 1) e)) w1)
  | (inr raw_plan, w1) =>
      match validate_plan raw_plan with
      | inl e =>
          generation_attempts' self context r (S attempt) (Some e)
            (record_effect (ELog (Plan_generation_attempt_failed (attempt + 1) e)) w1)
      | inr plan => (inr (Some plan, last_error), w1)
      end
  end.
Proof.
  cbn [generation_attempts]. unfold bind, try_except, lift, logger, ret.
  destruct (generate_plan' (PlanningEngine.llm_client self) context None w)
    as [[e|raw_plan] w1]; [done|].
  by destruct (validate_plan raw_plan).
Qed.

(** The generation loop touches no table.  When it yields a plan, the plan
    came out of [validate_plan] and fewer than [remaining] attempts were
    logged as failed; when it yields none, every one of the [remaining]
    attempts was made and logged as failed, in order, and the last error is
    kept. *)
Lemma generation_attempts_run self context :
  ∀ remaining attempt last_error w,
    ∃ t,
      extends w (snd (generation_attempts' self context remaining attempt last_error w)) t ∧
      store (snd (generation_attempts' self context remaining attempt last_error w)) = store w ∧
      Forall calm_effect t ∧
      match fst (generation_attempts' self context remaining attempt last_error w) with
      | inr (Some plan, _) =>
          (∃ raw_plan, validate_plan raw_plan = inr plan) ∧
          (∃ n, (n < remaining)%nat ∧ failed_attempts t = seq (attempt + 1) n)
      | inr (None, last_error') =>
          failed_attempts t = seq (attempt + 1) remaining ∧
          match remaining with
          | O => last_error' = last_error
          | S _ => ∃ e, last_error' = Some e
          end
      | inl _ => False
      end.
Proof.
  induction remaining as [|r IH]; intros attempt last_error w.
  - exists []. cbn. split; [apply extends_refl|]. done.
  - rewrite generation_attempts_turn.
    destruct (read_only_generate_plan (PlanningEngine.llm_client self) context None w)
      as (t1 & He1 & Hs1 & Hq1).
    destruct (generate_plan' (PlanningEngine.llm_client self) context None w)
      as [[e|raw_plan] w1]; cbn [fst snd] in *.
    + (* the completion failed *)
      destruct (IH (S attempt) (Some e)
                  (record_effect (ELog (Plan_generation_attempt_failed (attempt + 1) e)) w1))
        as (t2 & He2 & Hs2 & Hq2 & Hres).
      exists (t1 ++ [ELog (Plan_generation_attempt_failed (attempt + 1) e)] ++ t2)%list.
      split.
      { eapply extends_trans; [exact He1|].
        eapply extends_trans; [apply extends_record|exact He2]. }
      split; [rewrite Hs2; exact Hs1|].
      split.
      { apply Forall_app. split; [by eapply Forall_impl, quiet_is_calm|].
        apply Forall_cons. by split. }
      rewrite !failed_attempts_app, (quiet_failed_attempts _ Hq1). cbn [app].
      change (failed_attempts [ELog (Plan_generation_attempt_failed (attempt + 1) e)])
        with [(attempt + 1)%nat]. cbn [app].
      replace (S attempt + 1)%nat with (S (attempt + 1)) in Hres by lia.
      destruct (fst (generation_attempts' self context r (S attempt) (Some e) _))
        as [?|[[plan|] last']]; [done| |].
      * destruct Hres as [Hv (n & Hn & Hfa)]. split; [done|].
        exists (S n). split; [lia|]. rewrite Hfa. done.
      * destruct Hres as [Hfa Hlast]. split; [by rewrite Hfa|].
        destruct r; [subst; eauto|done].
    + destruct (validate_plan raw_plan) as [e|plan] eqn:Hv; cbn [fst snd].
      * (* the answer is no valid plan *)
        destruct (IH (S attempt) (Some e)
                    (record_effect (ELog (Plan_generation_attempt_failed (attempt + 1) e)) w1))
          as (t2 & He2 & Hs2 & Hq2 & Hres).
        exists (t1 ++ [ELog (Plan_generation_attempt_failed (attempt + 1) e)] ++ t2)%list.
        split.
        { eapply extends_trans; [exact He1|].
          eapply extends_trans; [apply extends_record|exact He2]. }
        split; [rewrite Hs2; exact Hs1|].
        split.
        { apply Forall_app. split; [by eapply Forall_impl, quiet_is_calm|].
          apply Forall_cons. by split. }
        rewrite !failed_attempts_app, (quiet_failed_attempts _ Hq1). cbn [app].
        change (failed_attempts [ELog (Plan_generation_attempt_failed (attempt + 1) e)])
          with [(attempt + 1)%nat]. cbn [app].
        replace (S attempt + 1)%nat with (S (attempt + 1)) in Hres by lia.
        destruct (fst (generation_attempts' self context r (S attempt) (Some e) _))
          as [?|[[plan|] last']]; [done| |].
        -- destruct Hres as [Hv' (n & Hn & Hfa)]. split; [done|].
           exists (S n). split; [lia|]. rewrite Hfa. done.
        -- destruct Hres as [Hfa Hlast]. split; [by rewrite Hfa|].
           destruct r; [subst; eauto|done].
      * (* a valid plan: the loop is left *)
        exists t1. split; [done|]. split; [done|].
        split; [by eapply Forall_impl, quiet_is_calm|].
        split; [eauto|]. exists 0%nat. split; [lia|].
        by rewrite (quiet_failed_attempts _ Hq1).
Qed.

Lemma writes_app t1 t2 : writes (t1 ++ t2) = (writes t1 ++ writes t2)%list.
Proof. unfold writes. by rewrite statements_app, filter_app. Qed.

Lemma PlanningEngine_init_fields settings self :
  PlanningEngine_init settings = inr self →
  PlanningEngine.max_retries self = 3%nat.
Proof.
  unfold PlanningEngine_init. destruct (LLMClient_init settings); [done|].
  by intros [= <-].
Qed.

(** With a date that parses, a day after it and the store reachable, the
    context is gathered, with the date as given and the events the
    calendar query returns. *)
Lemma gather_planning_context_succeeds self user_id target_date d tomorrow w :
  strptime_ymd target_date = Some d →
  add_days d 1 = Some tomorrow →
  (∀ n, db_fails w n = false) →
  ∃ context,
    fst (gather_planning_context self user_id target_date w) = inr context ∧
    Context.date context = target_date ∧
    Context.calendarEvents context = select_calendar_events user_id (store w).
Proof.
  intros Hd Ht Hdb.
  unfold gather_planning_context, bind, strptime, plus_days, ret.
  rewrite Hd. cbn beta iota. rewrite Ht. cbn beta iota zeta.
  repeat (rewrite query_reaches_store by (cbn; apply Hdb); cbn beta iota zeta;
          cbn [fst snd]).
  eexists. split; [reflexivity|]. done.
Qed.

(** [generate_daily_plan], step by step. *)
Lemma generate_daily_plan_steps self user_id target_date w :
  generate_daily_plan' self user_id target_date w =
  match strptime_ymd target_date with
  | None => (inl (ValueError "time data does not match format '%Y-%m-%d'"), w)
  | Some _ =>
      match gather_planning_context self user_id target_date w with
      | (inl e, w1) => (inl e, w1)
      | (inr context, w1) =>
          match generation_attempts' self context
                  (PlanningEngine.max_retries self) 0 None w1 with
          | (inl e, w2) => (inl e, w2)
          | (inr (None, last_error), w2) =>
              (inl (GenerationFailed (PlanningEngine.max_retries self) last_error), w2)
          | (inr (Some plan, _), w2) =>
              match save_plan self user_id target_date plan w2 with
              | (inl e, w3) => (inl e, w3)
              | (inr _, w3) => (inr plan, w3)
              end
          end
      end
  end.
Proof.
  unfold generate_daily_plan, bind at 1, strptime at 1.
  destruct (strptime_ymd target_date); [|done]. unfold ret at 1.
  unfold bind at 1.
  destruct (gather_planning_context self user_id target_date w) as [[e|context] w1];
    [done|].
  unfold bind at 1.
  destruct (generation_attempts' self context (PlanningEngine.max_retries self) 0 None w1)
    as [[e|[[plan|] last_error]] w2]; [done| |done].
  unfold bind, ret.
  by destruct (save_plan self user_id target_date plan w2) as [[e|row] w3].
Qed.

(** C10 (amended).  A target date that [strptime] rejects makes
    [generate_daily_plan] raise the [ValueError] at once: the world is left
    as it was, so no context was gathered, no statement reached the store,
    no completion was requested and no row was written. *)
Theorem generate_daily_plan_rejects_unparsed_date self user_id target_date w :
  strptime_ymd target_date = None →
  generate_daily_plan' self user_id target_date w =
  (inl (ValueError "time data does not match format '%Y-%m-%d'"), w).
Proof. intros H. by rewrite generate_daily_plan_steps, H. Qed.


(** A [save_plan] that returns has written its upsert. *)
Lemma save_plan_returns self user_id plan_date plan w r w' :
  save_plan self user_id plan_date plan w = (inr r, w') →
  ∃ d, strptime_ymd plan_date = Some d ∧
       now w' = now w ∧
       daily_plans (store w') =
         snd (upsert_daily_plan user_id d plan (DailyPlan.reasoning plan) (now w)
                (daily_plans (store w))).
Proof.
  unfold save_plan, bind, strptime, datetime_now, ret.
  destruct (strptime_ymd plan_date) as [d|]; [|done].
  unfold query. destruct (db_fails w (queries w)); [done|].
  destruct (upsert_daily_plan user_id d plan (DailyPlan.reasoning plan) (now w)
              (daily_plans (store w))) as [row rows] eqn:Hup.
  intros [= <- <-]. exists d. cbn. by rewrite Hup.
Qed.

(** A [generate_daily_plan] that returns a plan has validated it and has
    changed the store by the upsert of that plan alone. *)
Lemma generate_daily_plan_returns self user_id target_date w plan w' :
  generate_daily_plan' self user_id target_date w = (inr plan, w') →
  ∃ d, strptime_ymd target_date = Some d ∧
       now w' = now w ∧
       DailyPlan_ok plan = true ∧
       daily_plans (store w') =
         snd (upsert_daily_plan user_id d plan (DailyPlan.reasoning plan) (now w)
                (daily_plans (store w))).
Proof.
  rewrite generate_daily_plan_steps.
  destruct (strptime_ymd target_date) as [d|] eqn:Hd; [|done].
  destruct (read_only_gather_planning_context self user_id target_date w)
    as (t1 & He1 & Hs1 & _).
  destruct (gather_planning_context self user_id target_date w) as [[e|context] w1];
    cbn [fst snd] in *; [done|].
  destruct (generation_attempts_run self context (PlanningEngine.max_retries self)
              0 None w1) as (t2 & He2 & Hs2 & _ & Hres).
  destruct (generation_attempts' self context (PlanningEngine.max_retries self) 0 None w1)
    as [[e|[[plan'|] last_error]] w2]; cbn [fst snd] in *; [done| |done].
  destruct Hres as [[raw_plan Hraw] _].
  destruct (save_plan self user_id target_date plan' w2) as [[e|r] w3] eqn:Hsave;
    [done|].
  intros [= -> ->].
  apply save_plan_returns in Hsave as (d' & Hd' & Hnow & Hrows).
  assert (d' = d) as -> by congruence.
  assert (Hnow2 : now w2 = now w).
  { destruct He2 as (_ & -> & _). by destruct He1 as (_ & -> & _). }
  exists d. split; [done|]. split; [congruence|].
  split; [by eapply validate_plan_schema|].
  by rewrite Hrows, Hnow2, Hs2, Hs1.
Qed.

(** C3.  Under the unique constraint of [daily_plans], two runs of
    [generate_daily_plan] for the same user and date that both return leave
    exactly one row for that key, carrying the plan and the reasoning of
    the second run; the second run adds no row and the constraint still
    holds. *)
Theorem generate_daily_plan_twice_one_row self user_id target_date w plan1 w1 plan2 w2 :
  unique_plan_keys (daily_plans (store w)) →
  generate_daily_plan' self user_id target_date w = (inr plan1, w1) →
  generate_daily_plan' self user_id target_date w1 = (inr plan2, w2) →
  ∃ d row,
    strptime_ymd target_date = Some d ∧
    rows_of_key user_id d (daily_plans (store w2)) = [row] ∧
    PlanRow.plan_json row = plan2 ∧
    PlanRow.reasoning row = DailyPlan.reasoning plan2 ∧
    unique_plan_keys (daily_plans (store w2)) ∧
    length (daily_plans (store w2)) = length (daily_plans (store w1)).
Proof.
  intros Huniq
    (d & Hd & _ & _ & Hrows1)%generate_daily_plan_returns
    (d' & Hd' & _ & _ & Hrows2)%generate_daily_plan_returns.
  assert (d' = d) as -> by congruence.
  pose proof (upsert_daily_plan_unique user_id d plan1 (DailyPlan.reasoning plan1)
                (now w) _ Huniq) as Huniq1.
  rewrite <- Hrows1 in Huniq1.
  pose proof (upsert_daily_plan_unique user_id d plan2 (DailyPlan.reasoning plan2)
                (now w1) _ Huniq1) as Huniq2.
  pose proof (upsert_daily_plan_row user_id d plan2 (DailyPlan.reasoning plan2)
                (now w1) (daily_plans (store w1))) as (Hu & Hdt & Hp & Hr & Hin).
  pose proof (upsert_daily_plan_row user_id d plan1 (DailyPlan.reasoning plan1)
                (now w) (daily_plans (store w))) as (Hu1 & Hdt1 & _ & _ & Hin1).
  rewrite <- Hrows1 in Hin1.
  exists d. eexists. split; [done|].
  rewrite Hrows2.
  split; [by apply rows_of_key_unique|].
  split; [done|]. split; [done|]. split; [done|].
  rewrite upsert_daily_plan_length, decide_True; [done|].
  unfold plan_keys. apply list_elem_of_fmap.
  eexists. split; [|exact Hin1]. by rewrite Hu1, Hdt1.
Qed.

(** The nightly job, step by step. *)
Lemma nightly_planning_job_steps self w :
  nightly_planning_job' self w =
  match get_user (record_effect (ELog (Running_nightly_planning (now w))) w) with
  | (inl e, w1) => (inr tt, record_effect (ELog (Nightly_planning_failed e)) w1)
  | (inr None, w1) => (inr tt, record_effect (ELog No_user_found) w1)
  | (inr (Some user), w1) =>
      match add_days (now w1) 1 with
      | None =>
          (inr tt,
           record_effect
             (ELog (Nightly_planning_failed (OverflowError "date value out of range")))
             w1)
      | Some tomorrow =>
          match generate_daily_plan' (PlanningScheduler.planning_engine self)
                  (UserRow.id user) (strftime_ymd tomorrow) w1 with
          | (inl e, w2) =>
              (inr tt, record_effect (ELog (Nightly_planning_failed e)) w2)
          | (inr _, w2) =>
              (inr tt,
               record_effect
                 (ELog (Plan_generated_successfully (strftime_ymd tomorrow))) w2)
          end
      end
  end.
Proof.
  unfold nightly_planning_job, bind, try_except, datetime_now, logger, plus_days,
    raise, ret.
  destruct (get_user _) as [[e|[user|]] w1]; try done.
  destruct (add_days (now w1) 1) as [tomorrow|]; [|done].
  by destruct (generate_daily_plan' _ _ _ w1) as [[e|plan] w2].
Qed.

(** C9.  The nightly job returns normally in every world.  With no user in
    a reachable store it only logs that it skips; and when the generation
    for tomorrow fails, the job ends by logging that failure. *)
Theorem nightly_planning_job_never_raises self w :
  fst (nightly_planning_job' self w) = inr tt ∧
  (users (store w) = [] → db_fails w (queries w) = false →
   trace (snd (nightly_planning_job' self w)) =
     (trace w ++ [ELog (Running_nightly_planning (now w)); EQuery SelectUser;
                  ELog No_user_found])%list) ∧
  (∀ user rest tomorrow e w1,
     users (store w) = user :: rest → db_fails w (queries w) = false →
     add_days (now w) 1 = Some tomorrow →
     generate_daily_plan' (PlanningScheduler.planning_engine self)
       (UserRow.id user) (strftime_ymd tomorrow)
       (set_store (store w)
          (record_effect (EQuery SelectUser)
             (record_effect (ELog (Running_nightly_planning (now w))) w))) =
       (inl e, w1) →
     nightly_planning_job' self w =
       (inr tt, record_effect (ELog (Nightly_planning_failed e)) w1)).
Proof.
  rewrite nightly_planning_job_steps.
  split; [|split].
  - destruct (get_user _) as [[e|[user|]] w1]; try done.
    destruct (add_days (now w1) 1) as [tomorrow|]; [|done].
    by destruct (generate_daily_plan' _ _ _ w1) as [[e|plan] w2].
  - intros Hu Hdb. unfold get_user.
    rewrite query_reaches_store by (cbn; exact Hdb). cbn [fst snd store record_effect].
    rewrite Hu. cbn. by rewrite <- !app_assoc.
  - intros user rest tomorrow e w1 Hu Hdb Ht Hgen. unfold get_user.
    rewrite query_reaches_store by (cbn; exact Hdb). cbn [fst snd store record_effect].
    rewrite Hu. cbn [now set_store record_effect]. rewrite Ht.
    cbn [store set_store record_effect] in *. by rewrite Hgen.
Qed.

End Orchestration.

(** ** The calendar events of the planning context *)

Lemma elem_of_insert_by_start_time x e l :
  x ∈ insert_by_start_time e l ↔ x = e ∨ x ∈ l.
Proof.
  induction l as [|y l IH]; cbn.
  - rewrite list_elem_of_singleton, elem_of_nil. tauto.
  - destruct (_ <? _); rewrite !elem_of_cons; [tauto|]. rewrite IH. tauto.
Qed.

Lemma elem_of_order_by_start_time x l : x ∈ order_by_start_time l ↔ x ∈ l.
Proof.
  unfold order_by_start_time. induction l as [|y l IH]; cbn; [done|].
  rewrite elem_of_insert_by_start_time, IH, elem_of_cons. tauto.
Qed.

(** The calendar query returns the events of the user, of every day. *)
Lemma select_calendar_events_all user_id s e :
  e ∈ select_calendar_events user_id s ↔
  e ∈ calendar_events s ∧ EventRow.user_id e = user_id.
Proof.
  unfold select_calendar_events.
  rewrite elem_of_order_by_start_time, list_elem_of_filter. tauto.
Qed.

(** Whenever the context is gathered, its calendar events are all the events
    of the user: the day of an event plays no part. *)
Lemma gather_planning_context_events self user_id target_date d tomorrow w :
  strptime_ymd target_date = Some d →
  add_days d 1 = Some tomorrow →
  (∀ n, db_fails w n = false) →
  ∃ context,
    fst (gather_planning_context self user_id target_date w) = inr context ∧
    ∀ e, e ∈ Context.calendarEvents context ↔
         e ∈ calendar_events (store w) ∧ EventRow.user_id e = user_id.
Proof.
  intros Hd Ht Hdb.
  destruct (gather_planning_context_succeeds self user_id target_date d tomorrow w
              Hd Ht Hdb) as (context & Hc & _ & Hev).
  exists context. split; [done|]. intros e. rewrite Hev.
  apply select_calendar_events_all.
Qed.

(** C2 (the code at its failing input).  For the target date 2025-03-10
    tomorrow is 2025-03-11, and the user has one event on that day and one on
    2025-04-01; both are placed in the context. *)
Theorem gather_planning_context_takes_other_days :
  add_days (mkdate 2025 3 10) 1 = Some (mkdate 2025 3 11) ∧
  dt_date (EventRow.start_time (sample_event "e2" (mkdate 2025 4 1))) =
    mkdate 2025 4 1 ∧
  ∃ context,
    fst (gather_planning_context sample_engine "u1" "2025-03-10"
           (sample_world (answers []))) = inr context ∧
    Context.calendarEvents context =
      [sample_event "e1" (mkdate 2025 3 11); sample_event "e2" (mkdate 2025 4 1)].
Proof. vm_compute. split; [done|]. split; [done|]. eauto. Qed.

(** ** The statements at concrete worlds *)

(** The scenario of a transient failure: two rate-limit errors, then an
    answer; the answer is returned after sleeps of 1 and 2 seconds, each
    between two calls. *)
Example complete_recovers_from_rate_limit :
  fst (sample_complete [Raises "Rate limit exceeded"; Raises "Rate limit exceeded";
                        Content (Some "done")]) = inr "done" ∧
  timeline (trace (snd (sample_complete
                          [Raises "Rate limit exceeded"; Raises "Rate limit exceeded";
                           Content (Some "done")]))) =
    [None; Some 1; None; Some 2; None].
Proof. vm_compute. done. Qed.

(** An error outside the vocabulary ends the run after one call, with no
    sleep. *)
Example complete_aborts_on_malformed_request :
  fst (sample_complete [Raises "Malformed request"; Content (Some "done")]) =
    inl (LLMError "LLM API call failed after 3 attempts"
           (Some (ProviderError "Malformed request")) 0) ∧
  timeline (trace (snd (sample_complete
                          [Raises "Malformed request"; Content (Some "done")]))) =
    [None].
Proof. vm_compute. done. Qed.

(** C5 (counterexample).  "Temporary glitch" matches nothing in
    the vocabulary of the specification, yet the call is retried after a
    sleep of one second; "Service temporarily unavailable" contains the
    phrase the specification lists, yet the run stops after that call. *)
Lemma complete_vocabulary_differs :
  (matches_specified_vocabulary "Temporary glitch" = false ∧
   fst (sample_complete [Raises "Temporary glitch"; Content (Some "done")]) =
     inr "done" ∧
   timeline (trace (snd (sample_complete
                           [Raises "Temporary glitch"; Content (Some "done")]))) =
     [None; Some 1; None]) ∧
  (matches_specified_vocabulary "Service temporarily unavailable" = true ∧
   fst (sample_complete [Raises "Service temporarily unavailable";
                         Content (Some "done")]) =
     inl (LLMError "LLM API call failed after 3 attempts"
            (Some (ProviderError "Service temporarily unavailable")) 0) ∧
   timeline (trace (snd (sample_complete
                           [Raises "Service temporarily unavailable";
                            Content (Some "done")]))) =
     [None]).
Proof. vm_compute. done. Qed.

Lemma complete_retry_policy_witness :
  LLMClient_init sample_settings = inr sample_client ∧
  ∃ k t,
    extends (sample_world (answers [Raises "timeout"; Content (Some "done")]))
      (snd (sample_complete [Raises "timeout"; Content (Some "done")])) t ∧
    (1 <= k <= 3)%nat ∧
    timeline t = backoff_timeline 1 0 k.
Proof.
  split; [reflexivity|].
  destruct (complete_retry_policy sample_settings sample_client "system" "user" None
              (sample_world (answers [Raises "timeout"; Content (Some "done")]))
              eq_refl) as (k & t & He & Hk & Ht & _).
  exists k, t. split; [exact He|]. split; [exact Hk|exact Ht].
Defined.

Lemma complete_request_options_witness :
  LLMClient_init sample_settings = inr sample_client ∧
  ∃ k t request,
    extends (sample_world (answers [Content (Some "done")]))
      (snd (complete sample_client "system" "user"
              (Some (<["jsonMode" := JBool true]> (<["maxTokens" := JInt 10]> ∅)))
              (sample_world (answers [Content (Some "done")])))) t ∧
    (1 <= k)%nat ∧
    completions t = repeat request k ∧
    request !! "temperature" = Some (JFloat (7 # 10)) ∧
    request !! "max_tokens" = Some (JInt 10) ∧
    request !! "response_format" = Some (JDict [("type", JStr "json_object")]).
Proof.
  split; [reflexivity|].
  destruct (complete_request_options sample_settings sample_client "system" "user"
              (Some (<["jsonMode" := JBool true]> (<["maxTokens" := JInt 10]> ∅)))
              (sample_world (answers [Content (Some "done")]))
              eq_refl) as (k & t & request & He & Hk & Hc & H1 & H2 & H3).
  exists k, t, request.
  split; [exact He|]. split; [exact Hk|]. split; [exact Hc|].
  split; [rewrite H1; vm_compute; reflexivity|].
  split; [rewrite H2; vm_compute; reflexivity|].
  rewrite H3; vm_compute; reflexivity.
Defined.


(** Five overrides logged in the current week use the quota up, and a sixth
    is still logged when asked. *)
Example five_overrides_reach_the_limit :
  let log w := snd (log_override sample_engine "u1" "p1" "manual" "" w) in
  fst (check_weekly_overrides sample_engine "u1"
         (log (log (log (log (log empty_world)))))) =
    inr (OverrideStatus.mk 5 0 5 false) ∧
  length (override_log (store (log (log (log (log (log (log empty_world)))))))) = 6%nat.
Proof. vm_compute. done. Qed.

(** C10 (counterexample).  "2025-3-10" is not of the strict form,
    yet [strptime] reads it as 2025-03-10: the run gathers the context, asks
    for a completion and writes the plan. *)
Lemma generate_daily_plan_accepts_unpadded_date :
  strict_ymd_form "2025-3-10" = false ∧
  strptime_ymd "2025-3-10" = Some (mkdate 2025 3 10) ∧
  (∃ plan,
     fst (sample_generate "2025-3-10" (sample_world (answers [Content (Some "PLAN")]))) =
     inr plan) ∧
  length (statements (trace (snd (sample_generate "2025-3-10"
            (sample_world (answers [Content (Some "PLAN")])))))) = 6%nat ∧
  length (completions (trace (snd (sample_generate "2025-3-10"
            (sample_world (answers [Content (Some "PLAN")])))))) = 1%nat ∧
  plan_keys (daily_plans (store (snd (sample_generate "2025-3-10"
            (sample_world (answers [Content (Some "PLAN")])))))) =
    [("u1", mkdate 2025 3 10)].
Proof. vm_compute. repeat split; eauto. Qed.

Lemma generate_daily_plan_rejects_unparsed_date_witness :
  strptime_ymd "10/03/2025" = None ∧
  sample_generate "10/03/2025" (sample_world (answers [Content (Some "PLAN")])) =
  (inl (ValueError "time data does not match format '%Y-%m-%d'"),
   sample_world (answers [Content (Some "PLAN")])).
Proof.
  split; [reflexivity|].
  exact (generate_daily_plan_rejects_unparsed_date sample_json_loads "system"
           sample_prompt sample_engine "u1" "10/03/2025"
           (sample_world (answers [Content (Some "PLAN")])) eq_refl).
Defined.


Lemma generate_daily_plan_twice_one_row_witness :
  ∃ plan2 d row,
    fst sample_second_run = inr plan2 ∧
    strptime_ymd "2025-03-10" = Some d ∧
    rows_of_key "u1" d (daily_plans (store (snd sample_second_run))) = [row] ∧
    PlanRow.plan_json row = plan2 ∧
    length (daily_plans (store (snd sample_second_run))) =
      length (daily_plans (store (snd sample_first_run))).
Proof.
  assert (H1 : ∃ plan1, fst sample_first_run = inr plan1)
    by (vm_compute; eexists; reflexivity).
  assert (H2 : ∃ plan2, fst sample_second_run = inr plan2)
    by (vm_compute; eexists; reflexivity).
  destruct H1 as [plan1 H1], H2 as [plan2 H2].
  pose proof (surjective_pairing sample_first_run) as E1.
  pose proof (surjective_pairing sample_second_run) as E2.
  rewrite H1 in E1. rewrite H2 in E2.
  assert (U : unique_plan_keys (daily_plans (store
             (sample_world (answers [Content (Some "PLAN"); Content (Some "PLAN2")])))))
    by apply NoDup_nil_2.
  destruct (generate_daily_plan_twice_one_row sample_json_loads "system" sample_prompt
              sample_engine "u1" "2025-03-10"
              (sample_world (answers [Content (Some "PLAN"); Content (Some "PLAN2")]))
              plan1 (snd sample_first_run) plan2 (snd sample_second_run) U E1 E2)
    as (d & row & Hd & Hrows & Hp & _ & _ & Hlen).
  exists plan2, d, row.
  split; [exact H2|]. split; [exact Hd|]. split; [exact Hrows|].
  split; [exact Hp|exact Hlen].
Defined.

Lemma nightly_planning_job_never_raises_witness :
  trace (snd (nightly_planning_job sample_json_loads "system" sample_prompt
                sample_scheduler empty_world)) =
  [ELog (Running_nightly_planning (mkdate 2025 3 9)); EQuery SelectUser;
   ELog No_user_found].
Proof.
  exact (proj1 (proj2 (nightly_planning_job_never_raises sample_json_loads "system"
                         sample_prompt sample_scheduler empty_world))
           eq_refl eq_refl).
Defined.


(** * Further properties of the code *)

(** ** The calendar *)

Lemma is_leap_cases y :
  (is_leap y = true ∧ y mod 4 = 0 ∧ (y mod 100 ≠ 0 ∨ y mod 400 = 0)) ∨
  (is_leap y = false ∧ (y mod 4 ≠ 0 ∨ (y mod 100 = 0 ∧ y mod 400 ≠ 0))).
Proof.
  unfold is_leap.
  destruct (Z.eqb_spec (y mod 4) 0), (Z.eqb_spec (y mod 100) 0),
    (Z.eqb_spec (y mod 400) 0); cbn; tauto.
Qed.

Lemma days_before_year_succ y :
  days_before_year (y + 1) =
  days_before_year y + 365 + (if is_leap y then 1 else 0).
Proof.
  unfold days_before_year. cbv zeta.
  replace (y + 1 - 1) with y by lia.
  destruct (is_leap_cases y) as [(-> & H4 & H100)|(-> & H)];
    revert H4 H100 || revert H;
    Z.div_mod_to_equations; lia.
Qed.

Lemma days_before_year_step y :
  days_before_year y + 365 <= days_before_year (y + 1) <= days_before_year y + 366.
Proof. rewrite days_before_year_succ. destruct (is_leap y); lia. Qed.

Lemma days_before_year_add y k :
  0 <= k → days_before_year y + 365 * k <= days_before_year (y + k).
Proof.
  revert k. apply natlike_ind.
  - replace (y + 0) with y by lia. lia.
  - intros k Hk IH. replace (y + Z.succ k) with ((y + k) + 1) by lia.
    pose proof (days_before_year_step (y + k)). lia.
Qed.

Lemma days_before_year_mono y y' :
  y <= y' → days_before_year y + 365 * (y' - y) <= days_before_year y'.
Proof.
  intros Hle. pose proof (days_before_year_add y (y' - y)) as H.
  replace (y + (y' - y)) with y' in H by lia. lia.
Qed.

(** The year of a day number is determined by the days before the years. *)
Lemma year_unique y y' n :
  days_before_year y < n <= days_before_year (y + 1) →
  days_before_year y' < n <= days_before_year (y' + 1) →
  y = y'.
Proof.
  intros H H'.
  destruct (Z.lt_trichotomy y y') as [Hlt|[->|Hlt]]; [|done|].
  - pose proof (days_before_year_mono (y + 1) y'). lia.
  - pose proof (days_before_year_mono (y' + 1) y). lia.
Qed.

Lemma month_and_day_year y n leapyear : year (month_and_day y n leapyear) = y.
Proof. unfold month_and_day. cbv zeta. destruct (_ <? _); done. Qed.

Lemma month_and_day_any_year y n leapyear :
  month (month_and_day y n leapyear) = month (month_and_day 0 n leapyear) ∧
  day (month_and_day y n leapyear) = day (month_and_day 0 n leapyear).
Proof. unfold month_and_day. cbv zeta. destruct (_ <? _); done. Qed.

Lemma month_and_day_table leapyear :
  forallb (month_and_day_ok leapyear) (map Z.of_nat (seq 0 365)) = true.
Proof. destruct leapyear; vm_compute; reflexivity. Qed.

Lemma month_and_day_spec y n leapyear :
  0 <= n <= 364 →
  let d := month_and_day y n leapyear in
  year d = y ∧ 1 <= month d <= 12 ∧
  1 <= day d <= DAYS_IN_MONTH (month d)
                + (if (month d =? 2) && leapyear then 1 else 0) ∧
  DAYS_BEFORE_MONTH (month d)
  + (if (2 <? month d) && leapyear then 1 else 0) + day d = n + 1.
Proof.
  intros Hn d. subst d. split; [apply month_and_day_year|].
  destruct (month_and_day_any_year y n leapyear) as [-> ->].
  pose proof (month_and_day_table leapyear) as H.
  rewrite forallb_forall in H.
  specialize (H n). 
  assert (Hin : In n (map Z.of_nat (seq 0 365))).
  { apply in_map_iff. exists (Z.to_nat n). split; [lia|]. apply in_seq. lia. }
  apply H in Hin. unfold month_and_day_ok in Hin. cbv zeta in Hin.
  rewrite !andb_true_iff in Hin.
  destruct Hin as [[[[H1 H2] H3] H4] H5].
  apply Z.leb_le in H1, H2, H3, H4. apply Z.eqb_eq in H5. lia.
Qed.

Lemma ord2ymd_eq n0 :
  ord2ymd n0 =
  let n := n0 - 1 in
  let n400 := n / DI400Y in
  let n := n mod DI400Y in
  let y := n400 * 400 + 1 in
  let n100 := n / DI100Y in
  let n := n mod DI100Y in
  let n4 := n / DI4Y in
  let n := n mod DI4Y in
  let n1 := n / 365 in
  let n := n mod 365 in
  let y := y + n100 * 100 + n4 * 4 + n1 in
  if (n1 =? 4) || (n100 =? 4) then mkdate (y - 1) 12 31
  else month_and_day y n ((n1 =? 3) && (negb (n4 =? 24) || (n100 =? 3))).
Proof. reflexivity. Qed.

(** [_ord2ymd] inverts [_ymd2ord]: the date of a day number is a date of the
    calendar, and its day number is the one given. *)
Lemma ord2ymd_spec n :
  1 <= n →
  let d := ord2ymd n in
  toordinal d = n ∧
  1 <= year d ∧ 1 <= month d <= 12 ∧
  1 <= day d <= days_in_month (year d) (month d) ∧
  days_before_year (year d) < n <= days_before_year (year d + 1).
Proof.
  intros Hn d. subst d. rewrite ord2ymd_eq. cbv zeta.
  unfold DI400Y, DI100Y, DI4Y.
  set (n' := n - 1).
  set (n400 := n' / 146097). set (r400 := n' mod 146097).
  set (n100 := r400 / 36524). set (r100 := r400 mod 36524).
  set (n4 := r100 / 1461). set (r4 := r100 mod 1461).
  set (n1 := r4 / 365). set (r1 := r4 mod 365).
  assert (E400 : n' = 146097 * n400 + r400 ∧ 0 <= r400 < 146097).
  { subst n400 r400. pose proof (Z.div_mod n' 146097).
    pose proof (Z.mod_pos_bound n' 146097). lia. }
  assert (E100 : r400 = 36524 * n100 + r100 ∧ 0 <= r100 < 36524).
  { subst n100 r100. pose proof (Z.div_mod r400 36524).
    pose proof (Z.mod_pos_bound r400 36524). lia. }
  assert (E4 : r100 = 1461 * n4 + r4 ∧ 0 <= r4 < 1461).
  { subst n4 r4. pose proof (Z.div_mod r100 1461).
    pose proof (Z.mod_pos_bound r100 1461). lia. }
  assert (E1 : r4 = 365 * n1 + r1 ∧ 0 <= r1 < 365).
  { subst n1 r1. pose proof (Z.div_mod r4 365).
    pose proof (Z.mod_pos_bound r4 365). lia. }
  assert (Hn' : 0 <= n') by (subst n'; lia).
  clearbody n400 r400 n100 r100 n4 r4 n1 r1.
  assert (B400 : 0 <= n400) by lia.
  assert (B100 : 0 <= n100 <= 4) by lia.
  assert (B4 : 0 <= n4 <= 24) by lia.
  assert (B1 : 0 <= n1 <= 4) by lia.
  set (Y := n400 * 400 + 1 + n100 * 100 + n4 * 4 + n1).
  assert (Hdby : ∀ a b c e, 0 <= a → 0 <= b <= 3 → 0 <= c <= 24 → 0 <= e <= 3 →
            days_before_year (a * 400 + 1 + b * 100 + c * 4 + e) =
            146097 * a + 36524 * b + 1461 * c + 365 * e).
  { intros a b c e Ha Hb Hc He. unfold days_before_year. cbv zeta.
    Z.div_mod_to_equations. lia. }
  assert (Hleap : ∀ a b c e, 0 <= a → 0 <= b <= 3 → 0 <= c <= 24 → 0 <= e <= 3 →
            is_leap (a * 400 + 1 + b * 100 + c * 4 + e) =
            (e =? 3) && (negb (c =? 24) || (b =? 3))).
  { intros a b c e Ha Hb Hc He.
    destruct (is_leap_cases (a * 400 + 1 + b * 100 + c * 4 + e))
      as [(-> & H4 & H100)|(-> & H)];
      destruct (Z.eqb_spec e 3), (Z.eqb_spec c 24), (Z.eqb_spec b 3); cbn;
      try reflexivity; exfalso;
      revert H4 H100 || revert H; Z.div_mod_to_equations; lia. }
  destruct (Z.eqb_spec n1 4) as [Hn1|Hn1]; cbn [orb].
  { (* the last day of a leap year that closes a four-year cycle *)
    assert (n4 <= 23) by lia. assert (n100 <= 3) by lia. assert (r1 = 0) by lia.
    unfold toordinal, ymd2ord, days_before_month, days_in_month. cbn [year month day].
    replace (Y - 1) with (n400 * 400 + 1 + n100 * 100 + (n4 + 1) * 4 + 0 - 1 + 0)
      by (subst Y; lia).
    set (Y3 := n400 * 400 + 1 + n100 * 100 + n4 * 4 + 3).
    replace (n400 * 400 + 1 + n100 * 100 + (n4 + 1) * 4 + 0 - 1 + 0) with Y3
      by (subst Y3; lia).
    assert (HY3 : days_before_year Y3 = 146097 * n400 + 36524 * n100 + 1461 * n4 + 365 * 3)
      by (apply Hdby; lia).
    assert (HL3 : is_leap Y3 = true).
    { subst Y3. rewrite Hleap by lia. cbn.
      destruct (Z.eqb_spec n4 24); [lia|done]. }
    pose proof (days_before_year_succ Y3) as Hs. rewrite HL3 in Hs.
    rewrite HL3. cbn. lia. }
  destruct (Z.eqb_spec n100 4) as [Hn100|Hn100].
  { (* the last day of a year that closes a 400-year cycle *)
    assert (r100 = 0 ∧ n4 = 0 ∧ n1 = 0 ∧ r1 = 0) as (? & ? & ? & ?) by lia.
    unfold toordinal, ymd2ord, days_before_month, days_in_month. cbn [year month day].
    set (Y3 := n400 * 400 + 1 + 3 * 100 + 24 * 4 + 3).
    replace (Y - 1) with Y3 by (subst Y Y3; lia).
    assert (HY3 : days_before_year Y3 = 146097 * n400 + 36524 * 3 + 1461 * 24 + 365 * 3)
      by (apply Hdby; lia).
    assert (HL3 : is_leap Y3 = true) by (subst Y3; rewrite Hleap by lia; done).
    pose proof (days_before_year_succ Y3) as Hs. rewrite HL3 in Hs.
    rewrite HL3. cbn. lia. }
  assert (B100' : n100 <= 3) by lia. assert (B1' : n1 <= 3) by lia.
  rewrite <- (Hleap n400 n100 n4 n1) by lia. fold Y.
  assert (HY : days_before_year Y = 146097 * n400 + 36524 * n100 + 1461 * n4 + 365 * n1)
    by (apply Hdby; lia).
  destruct (month_and_day_spec Y r1 (is_leap Y)) as (Hy & Hm & Hd & Hsum); [lia|].
  unfold toordinal, ymd2ord, days_before_month, days_in_month.
  rewrite Hy.
  pose proof (days_before_year_succ Y) as Hs.
  assert (Hdim : DAYS_IN_MONTH (month (month_and_day Y r1 (is_leap Y)))
                 + (if (month (month_and_day Y r1 (is_leap Y)) =? 2) && is_leap Y
                    then 1 else 0)
                 = if (month (month_and_day Y r1 (is_leap Y)) =? 2) && is_leap Y
                   then 29 else DAYS_IN_MONTH (month (month_and_day Y r1 (is_leap Y)))).
  { destruct (Z.eqb_spec (month (month_and_day Y r1 (is_leap Y))) 2) as [->|];
      destruct (is_leap Y); cbn; lia. }
  rewrite <- Hdim.
  destruct (is_leap Y); lia.
Qed.

Lemma days_before_year_first : days_before_year 1 = 0.
Proof. reflexivity. Qed.

Lemma days_before_year_last : days_before_year 10000 = MAXORDINAL.
Proof. reflexivity. Qed.

Lemma valid_date_cases d :
  valid_date d = true ↔
  1 <= year d <= 9999 ∧ 1 <= month d <= 12 ∧
  1 <= day d <= days_in_month (year d) (month d).
Proof.
  unfold valid_date, MINYEAR, MAXYEAR. rewrite !andb_true_iff, !Z.leb_le. lia.
Qed.

(** The day number of a date of the calendar lies in its year. *)
Lemma toordinal_in_year d :
  valid_date d = true →
  days_before_year (year d) < toordinal d <= days_before_year (year d + 1) ∧
  1 <= toordinal d <= MAXORDINAL.
Proof.
  intros Hv. apply valid_date_cases in Hv as (Hy & Hm & Hd).
  assert (H : days_before_year (year d) < toordinal d
              <= days_before_year (year d + 1)).
  { rewrite days_before_year_succ.
    unfold toordinal, ymd2ord, days_before_month. unfold days_in_month in Hd.
    assert (Hmonth : month d = 1 ∨ month d = 2 ∨ month d = 3 ∨ month d = 4 ∨
                     month d = 5 ∨ month d = 6 ∨ month d = 7 ∨ month d = 8 ∨
                     month d = 9 ∨ month d = 10 ∨ month d = 11 ∨ month d = 12) by lia.
    destruct (is_leap (year d));
      repeat (destruct Hmonth as [Hmonth|Hmonth];
              [rewrite Hmonth in *; cbn in *; lia|]);
      rewrite Hmonth in *; cbn in *; lia. }
  split; [done|].
  pose proof (days_before_year_mono 1 (year d)).
  pose proof (days_before_year_mono (year d + 1) 10000).
  rewrite days_before_year_first in *. rewrite days_before_year_last in *.
  lia.
Qed.

(** [d + timedelta(days=k)], when it does not overflow, is the date of the
    calendar [k] days from [d]. *)
Lemma add_days_spec d k d' :
  add_days d k = Some d' →
  toordinal d' = toordinal d + k ∧ valid_date d' = true.
Proof.
  unfold add_days. cbv zeta.
  destruct (_ && _) eqn:Hrange; [|done]. intros [= <-].
  apply andb_true_iff in Hrange as [Hlo Hhi].
  apply Z.ltb_lt in Hlo. apply Z.leb_le in Hhi.
  destruct (ord2ymd_spec (toordinal d + k)) as (Hord & Hy & Hm & Hd & Hin); [lia|].
  split; [done|]. apply valid_date_cases. split_and!; try lia.
  destruct (Z.le_gt_cases (year (ord2ymd (toordinal d + k))) 9999) as [|Hgt]; [done|].
  pose proof (days_before_year_mono 10000 (year (ord2ymd (toordinal d + k)))).
  rewrite days_before_year_last in *. lia.
Qed.

Lemma add_days_defined d k :
  1 <= toordinal d + k <= MAXORDINAL → ∃ d', add_days d k = Some d'.
Proof.
  intros H. unfold add_days. cbv zeta.
  destruct (Z.ltb_spec 0 (toordinal d + k)); [|lia].
  destruct (Z.leb_spec (toordinal d + k) MAXORDINAL); [|lia].
  eauto.
Qed.

(** The Thursday [get_week_number] moves to: day 4 of the block of seven day
    numbers that holds the date, a block that opens on a Sunday. *)
Lemma get_week_number_spec d :
  valid_date d = true →
  ∃ Y,
    days_before_year Y < 7 * (toordinal d / 7) + 4 <= days_before_year (Y + 1) ∧
    get_week_number d =
      Some ((7 * (toordinal d / 7) + 4 - days_before_year Y + 6) / 7).
Proof.
  intros Hv. destruct (toordinal_in_year d Hv) as [_ Hord].
  unfold MAXORDINAL in Hord.
  unfold get_week_number. cbv zeta.
  replace (mkdate (year d) (month d) (day d)) with d by (destruct d; done).
  set (day_num := if weekday d + 1 =? 7 then 0 else weekday d + 1).
  assert (Hday : toordinal d + (4 - day_num) = 7 * (toordinal d / 7) + 4).
  { subst day_num. unfold weekday.
    destruct (Z.eqb_spec ((toordinal d + 6) mod 7 + 1) 7) as [E|E];
      revert E; Z.div_mod_to_equations; lia. }
  destruct (add_days_defined d (4 - day_num)) as [thursday Ht].
  { rewrite Hday. unfold MAXORDINAL. Z.div_mod_to_equations. lia. }
  rewrite Ht. apply add_days_spec in Ht as [Hord' Hv'].
  rewrite Hday in Hord'.
  destruct (toordinal_in_year thursday Hv') as [Hin _].
  assert (Hfirst : toordinal (mkdate (year thursday) 1 1)
                   = days_before_year (year thursday) + 1).
  { unfold toordinal, ymd2ord, days_before_month. cbn. lia. }
  exists (year thursday). rewrite Hfirst, Hord' in *. split; [done|].
  do 2 f_equal. lia.
Qed.

(** ** The week bucket on every date *)

Lemma get_week_number_in_range_aux d :
  valid_date d = true →
  ∃ n, get_week_number d = Some n ∧ 1 <= n <= 53.
Proof.
  intros Hv. destruct (get_week_number_spec d Hv) as (Y & Hin & ->).
  eexists. split; [done|].
  pose proof (days_before_year_step Y).
  Z.div_mod_to_equations. lia.
Qed.

(** X1 (get_week_number): the bucket is defined on the whole calendar.  For
    every date from 0001-01-01 to 9999-12-31 the shift to Thursday stays
    inside the calendar, so no [OverflowError] is raised, and the number lies
    between 1 and 53. *)
Theorem get_week_number_in_range d :
  valid_date d = true →
  ∃ n, get_week_number d = Some n ∧ 1 <= n <= 53.
Proof. apply get_week_number_in_range_aux. Qed.

(** X2 (get_week_number): a bucket runs from Sunday through Saturday.  The
    seven dates from any Sunday to the Saturday after it get the number of
    that Sunday. *)
Theorem get_week_number_sunday_to_saturday sunday k d :
  valid_date sunday = true →
  weekday sunday = 6 →
  0 <= k <= 6 →
  add_days sunday k = Some d →
  get_week_number d = get_week_number sunday.
Proof.
  intros Hv Hsun Hk Hadd.
  apply add_days_spec in Hadd as [Hord Hv'].
  destruct (get_week_number_spec sunday Hv) as (Y & Hin & ->).
  destruct (get_week_number_spec d Hv') as (Y' & Hin' & ->).
  assert (Hblock : toordinal d / 7 = toordinal sunday / 7).
  { rewrite Hord. unfold weekday in Hsun. revert Hsun.
    Z.div_mod_to_equations. lia. }
  rewrite Hblock in *.
  rewrite (year_unique Y' Y _ Hin' Hin). done.
Qed.

(** X3 (get_week_number): the bucket changes every week.  A date of the
    calendar and the date seven days later never get the same number. *)
Theorem get_week_number_changes_weekly d d' :
  valid_date d = true →
  add_days d 7 = Some d' →
  get_week_number d ≠ get_week_number d'.
Proof.
  intros Hv Hadd.
  apply add_days_spec in Hadd as [Hord Hv'].
  destruct (get_week_number_spec d Hv) as (Y & Hin & ->).
  destruct (get_week_number_spec d' Hv') as (Y' & Hin' & ->).
  assert (Hblock : toordinal d' / 7 = toordinal d / 7 + 1).
  { rewrite Hord. Z.div_mod_to_equations. lia. }
  rewrite Hblock in *. clear Hblock Hord.
  set (t := 7 * (toordinal d / 7) + 4) in *.
  replace (7 * (toordinal d / 7 + 1) + 4) with (t + 7) in * by (subst t; lia).
  clearbody t.
  pose proof (days_before_year_step Y) as HY.
  destruct (Z.lt_trichotomy Y Y') as [Hlt|[<-|Hlt]].
  - assert (Y' = Y + 1) as ->.
    { pose proof (days_before_year_mono (Y + 2) Y').
      pose proof (days_before_year_step (Y + 1)).
      replace (Y + 1 + 1) with (Y + 2) in * by lia. lia. }
    intros [= E]. revert E. Z.div_mod_to_equations. lia.
  - intros [= E]. revert E. Z.div_mod_to_equations. lia.
  - pose proof (days_before_year_mono (Y' + 1) Y). lia.
Qed.

(** X4 (get_week_number): the bucket does not tell years apart.  When a
    date has a number up to 52, the date 52 weeks later or the date 53 weeks
    later has that number again. *)
Theorem get_week_number_recurs d n d52 d53 :
  valid_date d = true →
  get_week_number d = Some n →
  n <= 52 →
  add_days d 364 = Some d52 →
  add_days d 371 = Some d53 →
  get_week_number d52 = Some n ∨ get_week_number d53 = Some n.
Proof.
  intros Hv Hn Hle H52 H53.
  apply add_days_spec in H52 as [Hord52 Hv52].
  apply add_days_spec in H53 as [Hord53 Hv53].
  destruct (get_week_number_spec d Hv) as (Y & Hin & E). rewrite E in Hn.
  injection Hn as Hn.
  destruct (get_week_number_spec d52 Hv52) as (Y52 & Hin52 & ->).
  destruct (get_week_number_spec d53 Hv53) as (Y53 & Hin53 & ->).
  assert (Hb52 : toordinal d52 / 7 = toordinal d / 7 + 52).
  { rewrite Hord52. Z.div_mod_to_equations. lia. }
  assert (Hb53 : toordinal d53 / 7 = toordinal d / 7 + 53).
  { rewrite Hord53. Z.div_mod_to_equations. lia. }
  rewrite Hb52, Hb53 in *. clear Hb52 Hb53 Hord52 Hord53 E.
  set (t := 7 * (toordinal d / 7) + 4) in *.
  replace (7 * (toordinal d / 7 + 52) + 4) with (t + 364) in * by (subst t; lia).
  replace (7 * (toordinal d / 7 + 53) + 4) with (t + 371) in * by (subst t; lia).
  clearbody t.
  pose proof (days_before_year_step Y) as HY.
  pose proof (days_before_year_step (Y + 1)) as HY1.
  replace (Y + 1 + 1) with (Y + 2) in * by lia.
  destruct (Z.le_gt_cases (t + 364) (days_before_year (Y + 1))) as [Hsame|Hnext].
  - assert (Y53 = Y + 1) as ->.
    { apply (year_unique _ _ (t + 371)); [done|].
      replace (Y + 1 + 1) with (Y + 2) by lia. lia. }
    right. f_equal. revert Hn. Z.div_mod_to_equations. lia.
  - assert (Y52 = Y + 1) as ->.
    { apply (year_unique _ _ (t + 364)); [done|].
      replace (Y + 1 + 1) with (Y + 2) by lia. lia. }
    destruct (Z.eq_dec ((t + 364 - days_before_year (Y + 1) + 6) / 7) n) as [E|E].
    + left. f_equal. done.
    + assert (Y53 = Y + 1) as ->.
      { apply (year_unique _ _ (t + 371)); [done|].
        replace (Y + 1 + 1) with (Y + 2) by lia.
        revert Hn E. Z.div_mod_to_equations. lia. }
      right. f_equal. revert Hn E. Z.div_mod_to_equations. lia.
Qed.

(** The last day of the calendar is the one date without a following day. *)
Lemma add_days_one d :
  valid_date d = true →
  if decide (d = mkdate 9999 12 31) then add_days d 1 = None
  else ∃ tomorrow, add_days d 1 = Some tomorrow ∧
                   toordinal tomorrow = toordinal d + 1 ∧
                   valid_date tomorrow = true.
Proof.
  intros Hv. destruct (decide _) as [->|Hne]; [done|].
  destruct (toordinal_in_year d Hv) as [Hin Hord].
  assert (Hlt : toordinal d < MAXORDINAL).
  { destruct (Z.eq_dec (toordinal d) MAXORDINAL) as [E|E]; [|lia].
    exfalso. apply Hne.
    assert (Hy : year d = 9999).
    { apply (year_unique _ _ (toordinal d)); [done|]. rewrite E. done. }
    apply valid_date_cases in Hv as (_ & Hm & Hd).
    destruct d as [y m dd]. cbn [year month day] in *. subst y.
    unfold toordinal, ymd2ord, days_before_month, days_in_month in *.
    cbn [year month day] in *.
    change (is_leap 9999) with false in *. change (days_before_year 9999) with 3651694 in *.
    unfold MAXORDINAL in E.
    assert (Hmonth : m = 1 ∨ m = 2 ∨ m = 3 ∨ m = 4 ∨ m = 5 ∨ m = 6 ∨ m = 7 ∨ m = 8 ∨
                     m = 9 ∨ m = 10 ∨ m = 11 ∨ m = 12) by lia.
    repeat (destruct Hmonth as [Hmonth|Hmonth];
            [subst m; cbn in *; lia|]).
    subst m. cbn in *. f_equal. lia. }
  destruct (add_days_defined d 1) as [tomorrow Ht]; [lia|].
  exists tomorrow. split; [done|]. apply add_days_spec. done.
Qed.

Lemma strptime_ymd_valid s d : strptime_ymd s = Some d → valid_date d = true.
Proof.
  unfold strptime_ymd.
  destruct (parse_Y s) as [[y s1]|]; [|done].
  destruct (expect "-" s1) as [s2|]; [|done].
  destruct (parse_m s2) as [[m s3]|]; [|done].
  destruct (expect "-" s3) as [s4|]; [|done].
  destruct (parse_d s4) as [[dd [|]]|]; try done.
  destruct (valid_date (mkdate y m dd)) eqn:Hv; [|done].
  intros [= <-]. done.
Qed.

(** ** [strftime] and [strptime] *)

Lemma is_digit_pretty_N_char k : is_digit (pretty_N_char k) = true.
Proof. unfold pretty_N_char. repeat case_match; reflexivity. Qed.

Lemma digit_val_pretty_N_char k :
  (k < 10)%N → digit_val (pretty_N_char k) = Z.of_N k.
Proof.
  intros Hk.
  assert (H : (k = 0 ∨ k = 1 ∨ k = 2 ∨ k = 3 ∨ k = 4 ∨ k = 5 ∨ k = 6 ∨ k = 7 ∨
               k = 8 ∨ k = 9)%N) by lia.
  repeat (destruct H as [->|H]; [reflexivity|]). subst k. reflexivity.
Qed.

Lemma pretty_four_digits x :
  (1000 <= x <= 9999)%N →
  pretty x =
  String (pretty_N_char ((x / 10 / 10 / 10) mod 10)%N)
    (String (pretty_N_char ((x / 10 / 10) mod 10)%N)
       (String (pretty_N_char ((x / 10) mod 10)%N)
          (String (pretty_N_char (x mod 10)%N) ""))).
Proof.
  intros Hx. unfold pretty, pretty_N.
  destruct (decide (x = 0)%N) as [|_]; [lia|].
  assert (H1 : (0 < x / 10)%N) by (zify; Z.div_mod_to_equations; lia).
  assert (H2 : (0 < x / 10 / 10)%N) by (zify; Z.div_mod_to_equations; lia).
  assert (H3 : (0 < x / 10 / 10 / 10)%N)
    by (zify; Z.div_mod_to_equations; lia).
  assert (H4 : (x / 10 / 10 / 10 / 10 = 0)%N)
    by (zify; Z.div_mod_to_equations; lia).
  rewrite (pretty_N_go_step x) by lia.
  rewrite (pretty_N_go_step (x / 10)%N) by done.
  rewrite (pretty_N_go_step (x / 10 / 10)%N) by done.
  rewrite (pretty_N_go_step (x / 10 / 10 / 10)%N) by done.
  rewrite H4, pretty_N_go_0. done.
Qed.

Lemma pad_year y :
  1000 <= y <= 9999 →
  ∃ a b c e,
    pad 4 y = String a (String b (String c (String e EmptyString))) ∧
    is_digit a && is_digit b && is_digit c && is_digit e = true ∧
    ((digit_val a * 10 + digit_val b) * 10 + digit_val c) * 10 + digit_val e = y.
Proof.
  intros Hy. destruct y as [|p|p]; try lia.
  assert (Hpretty : pretty (Zpos p) = pretty (Npos p)) by reflexivity.
  rewrite (pretty_four_digits (Npos p)) in Hpretty by lia.
  eexists _, _, _, _. split.
  { unfold pad. cbv zeta. rewrite Hpretty. reflexivity. }
  rewrite !is_digit_pretty_N_char. split; [done|].
  rewrite !digit_val_pretty_N_char by (apply N.mod_lt; done).
  rewrite !N2Z.inj_mod, !N2Z.inj_div.
  change (Z.of_N (N.pos p)) with (Z.pos p). change (Z.of_N 10) with 10.
  Z.div_mod_to_equations. lia.
Qed.

Lemma two_digits_table :
  forallb two_digits_ok (map Z.of_nat (seq 1 31)) = true.
Proof. vm_compute. reflexivity. Qed.

Lemma pad_two v :
  1 <= v <= 31 →
  ∃ a b, pad 2 v = String a (String b EmptyString) ∧
         is_digit a = true ∧ is_digit b = true.
Proof.
  intros Hv. pose proof two_digits_table as H. rewrite forallb_forall in H.
  assert (Hin : In v (map Z.of_nat (seq 1 31))).
  { apply in_map_iff. exists (Z.to_nat v). split; [lia|]. apply in_seq. lia. }
  apply H in Hin. unfold two_digits_ok in Hin.
  destruct (pad 2 v) as [|a [|b [|]]]; try done.
  apply andb_true_iff in Hin as [Ha Hb]. eauto.
Qed.

Lemma parse_Y_pad y rest :
  1000 <= y <= 9999 → parse_Y (pad 4 y ++ rest) = Some (y, rest).
Proof.
  intros Hy. destruct (pad_year y Hy) as (a & b & c & e & -> & Hdigits & Hval).
  change (parse_Y (String a (String b (String c (String e rest)))) = Some (y, rest)).
  cbn [parse_Y]. rewrite Hdigits, Hval. done.
Qed.

Lemma parse_m_pad m rest :
  1 <= m <= 12 → parse_m (pad 2 m ++ rest) = Some (m, rest).
Proof.
  intros Hm.
  assert (Hmonth : m = 1 ∨ m = 2 ∨ m = 3 ∨ m = 4 ∨ m = 5 ∨ m = 6 ∨ m = 7 ∨ m = 8 ∨
                   m = 9 ∨ m = 10 ∨ m = 11 ∨ m = 12) by lia.
  repeat (destruct Hmonth as [->|Hmonth]; [vm_compute; reflexivity|]).
  subst m. vm_compute. reflexivity.
Qed.

Lemma parse_d_pad d :
  1 <= d <= 31 → parse_d (pad 2 d) = Some (d, EmptyString).
Proof.
  intros Hd.
  assert (H : In d (map Z.of_nat (seq 1 31))).
  { apply in_map_iff. exists (Z.to_nat d). split; [lia|]. apply in_seq. lia. }
  cbn in H.
  repeat (destruct H as [<-|H]; [vm_compute; reflexivity|]). done.
Qed.

Lemma days_in_month_le y m : days_in_month y m <= 31.
Proof.
  unfold days_in_month. destruct (_ && _); [lia|].
  unfold DAYS_IN_MONTH. repeat (destruct m as [|[m|m|]|]; try lia).
Qed.

Lemma strptime_strftime d :
  valid_date d = true → 1000 <= year d →
  strptime_ymd (strftime_ymd d) = Some d.
Proof.
  intros Hv Hy. pose proof Hv as Hv'.
  apply valid_date_cases in Hv' as (Hyear & Hm & Hd).
  pose proof (days_in_month_le (year d) (month d)).
  unfold strptime_ymd, strftime_ymd.
  rewrite parse_Y_pad by lia.
  change (expect "-" ("-" ++ ?s)) with (Some s).
  cbn iota beta. rewrite parse_m_pad by lia.
  change (expect "-" ("-" ++ ?s)) with (Some s).
  cbn iota beta. rewrite parse_d_pad by lia.
  replace (mkdate (year d) (month d) (day d)) with d by (destruct d; done).
  rewrite Hv. done.
Qed.

(** X5 (_nightly_planning_job, generate_daily_plan): the date text the
    scheduler writes is the date the engine reads.  For a date of the
    calendar from the year 1000 on, [strftime("%Y-%m-%d")] gives a text in
    the strict form YYYY-MM-DD, and [strptime] with the same format reads
    that text back as the same date. *)
Theorem strftime_strptime_round_trip d :
  valid_date d = true → 1000 <= year d →
  strptime_ymd (strftime_ymd d) = Some d ∧
  strict_ymd_form (strftime_ymd d) = true ∧
  String.length (strftime_ymd d) = 10%nat.
Proof.
  intros Hv Hy. split; [apply strptime_strftime; done|].
  apply valid_date_cases in Hv as (Hyear & Hm & Hd).
  pose proof (days_in_month_le (year d) (month d)).
  unfold strftime_ymd.
  destruct (pad_year (year d)) as (a & b & c & e & -> & Hdigits & _); [lia|].
  destruct (pad_two (month d)) as (m1 & m2 & -> & Hm1 & Hm2); [lia|].
  destruct (pad_two (day d)) as (d1 & d2 & -> & Hd1 & Hd2); [lia|].
  change (String a (String b (String c (String e "")))
          ++ "-" ++ String m1 (String m2 "") ++ "-" ++ String d1 (String d2 ""))
    with (String a (String b (String c (String e (String "-"
           (String m1 (String m2 (String "-" (String d1 (String d2 "")))))))))).
  split; [|done]. cbn [strict_ymd_form].
  rewrite Hdigits, Hm1, Hm2, Hd1, Hd2. done.
Qed.

Lemma year_mono d d' :
  valid_date d = true → valid_date d' = true →
  toordinal d <= toordinal d' → year d <= year d'.
Proof.
  intros Hv Hv' Hle.
  destruct (toordinal_in_year d Hv) as [Hin _].
  destruct (toordinal_in_year d' Hv') as [Hin' _].
  destruct (Z.le_gt_cases (year d) (year d')) as [|Hgt]; [done|].
  pose proof (days_before_year_mono (year d' + 1) (year d)). lia.
Qed.

(** ** Further properties of the client *)

(** The run of [complete] for any client, also one that allows no attempt. *)
Lemma complete_run self system_prompt user_prompt options w :
  ∃ k t,
    extends w (snd (complete self system_prompt user_prompt options w)) t ∧
    store (snd (complete self system_prompt user_prompt options w)) = store w ∧
    (k <= LLMClient.max_retries self)%nat ∧
    completions t =
      repeat (completion_params self system_prompt user_prompt (default ∅ options)) k ∧
    statements t = [] ∧
    length (sleeps t) = (k - 1)%nat ∧
    match fst (complete self system_prompt user_prompt options w) with
    | inl e => ∃ last_error,
        e = LLMError (failed_after (LLMClient.max_retries self)) last_error 0
    | inr _ => (1 <= k)%nat
    end.
Proof.
  unfold complete.
  destruct (LLMClient.max_retries self) as [|n] eqn:Hmax.
  - exists 0%nat, []. cbn [complete_attempts raise fst snd].
    split; [apply extends_refl|]. repeat split; try done. rewrite Hmax. eauto.
  - destruct (complete_attempts_run self
                (completion_params self system_prompt user_prompt (default ∅ options))
                (S n) 0 None w) as (k & t & Hext & Hst & Hk & Hc & Hs & _ & Hsl & _ & Hend).
    { rewrite Hmax. lia. } { lia. }
    exists k, t. split; [done|]. split; [done|]. split; [lia|].
    split; [done|]. split; [done|]. split.
    { rewrite Hsl, length_map, length_seq. done. }
    destruct (failure_of _).
    + destruct Hend as [-> _]. rewrite Hmax. eauto.
    + destruct Hend as (c & _ & ->). lia.
Qed.

(** X6 (complete): whatever the client's settings and whatever the provider
    does, a run of [complete] places at most [max_retries] completion calls,
    all with the one request built from the options, sleeps only between two
    calls, sends no statement to the store and leaves the store as it was;
    when it fails, it fails with the [LLMError] that names the number of
    attempts. *)
Theorem complete_calls_bounded self system_prompt user_prompt options w :
  ∃ t,
    extends w (snd (complete self system_prompt user_prompt options w)) t ∧
    store (snd (complete self system_prompt user_prompt options w)) = store w ∧
    statements t = [] ∧
    (length (completions t) <= LLMClient.max_retries self)%nat ∧
    Forall (eq (completion_params self system_prompt user_prompt (default ∅ options)))
      (completions t) ∧
    length (sleeps t) = (length (completions t) - 1)%nat ∧
    match fst (complete self system_prompt user_prompt options w) with
    | inl e => ∃ last_error,
        e = LLMError (failed_after (LLMClient.max_retries self)) last_error 0
    | inr _ => (1 <= length (completions t))%nat
    end.
Proof.
  destruct (complete_run self system_prompt user_prompt options w)
    as (k & t & Hext & Hst & Hk & Hc & Hs & Hsl & Hend).
  exists t. rewrite Hc, repeat_length.
  split; [done|]. split; [done|]. split; [done|]. split; [done|].
  split; [|split; done].
  apply Forall_forall. intros p Hp. apply list_elem_of_In, repeat_spec in Hp. done.
Qed.

Lemma completion_params_json_mode self system_prompt user_prompt options :
  completion_params self system_prompt user_prompt
    (<["jsonMode" := JBool true]> options) !! "response_format" =
  Some (JDict [("type", JStr "json_object")]).
Proof.
  unfold completion_params. rewrite lookup_insert_eq. cbn [default truthy].
  apply lookup_insert_eq.
Qed.

Section ClientPlanning.

Variable json_loads : string → option json.
Variable system_prompt : string.
Variable build_prompt : Context.t → string.

Local Abbreviation generate_plan' := (generate_plan json_loads system_prompt build_prompt).
Local Abbreviation generation_attempts' :=
  (generation_attempts json_loads system_prompt build_prompt).
Local Abbreviation generate_daily_plan' :=
  (generate_daily_plan json_loads system_prompt build_prompt).
Local Abbreviation nightly_planning_job' :=
  (nightly_planning_job json_loads system_prompt build_prompt).

Lemma generate_plan_run self context options w :
  ∃ t,
    extends w (snd (generate_plan' self context options w)) t ∧
    store (snd (generate_plan' self context options w)) = store w ∧
    statements t = [] ∧
    (length (completions t) <= LLMClient.max_retries self)%nat ∧
    Forall (fun p => p !! "response_format" = Some (JDict [("type", JStr "json_object")]))
      (completions t) ∧
    match fst (generate_plan' self context options w) with
    | inl e =>
        (∃ last_error,
           e = LLMError "Plan generation failed"
                 (Some (LLMError (failed_after (LLMClient.max_retries self))
                          last_error 0)) 0) ∨
        (∃ response,
           json_loads response = None ∧
           e = LLMError "LLM returned invalid JSON" (Some (JSONDecodeError response)) 0)
    | inr value =>
        (1 <= length (completions t))%nat ∧
        ∃ response, json_loads response = Some value
    end.
Proof.
  unfold generate_plan, try_except, bind.
  destruct (complete_run self system_prompt (build_prompt context)
              (Some (<["jsonMode" := JBool true]> (default ∅ options))) w)
    as (k & t & Hext & Hst & Hk & Hc & Hs & _ & Hend).
  assert (Hjson : Forall (fun p : gmap string json =>
            p !! "response_format" = Some (JDict [("type", JStr "json_object")]))
            (completions t)).
  { rewrite Hc. apply Forall_forall. intros p Hp.
    apply list_elem_of_In, repeat_spec in Hp. subst p.
    apply completion_params_json_mode. }
  assert (Hlen : (length (completions t) <= LLMClient.max_retries self)%nat).
  { rewrite Hc, repeat_length. done. }
  destruct (complete self system_prompt (build_prompt context) _ w)
    as [[e|response] w1] eqn:Hrun.
  - cbn [fst snd] in *. destruct Hend as [last_error ->].
    exists t. cbn [raise fst snd]. split_and!; try done. left. eauto.
  - cbn [fst snd] in *. destruct (json_loads response) as [value|] eqn:Hloads.
    + exists t. cbn [ret fst snd]. split_and!; try done.
      * rewrite Hc, repeat_length. done.
      * eauto.
    + cbn [raise]. unfold logger, raise. cbn [fst snd].
      exists (t ++ [ELog (Invalid_JSON_returned response)])%list.
      split; [apply extends_record_after; done|].
      rewrite store_record_effect, statements_app, completions_app.
      cbn. rewrite !app_nil_r.
      split_and!; try done. right. eauto.
Qed.

(** X7 (generate_plan): every completion request that [generate_plan] places
    asks for a JSON object, whatever options the caller passes, also options
    that switch JSON mode off. *)
Theorem generate_plan_forces_json_mode self context options w :
  ∃ t,
    extends w (snd (generate_plan' self context options w)) t ∧
    Forall (fun p => p !! "response_format" = Some (JDict [("type", JStr "json_object")]))
      (completions t).
Proof.
  destruct (generate_plan_run self context options w)
    as (t & Hext & _ & _ & _ & Hjson & _).
  eauto.
Qed.


End ClientPlanning.

(** ** Further properties of the engine *)

Lemma read_statements_only t :
  Forall read_statement t →
  length (statements t) = length t ∧ completions t = [] ∧ sleeps t = [] ∧
  log_records t = [] ∧ writes t = [].
Proof.
  induction 1 as [|e t (q & -> & Hq) _ (IH1 & IH2 & IH3 & IH4 & IH5)]; [done|].
  unfold writes in *. cbn [statements completions sleeps log_records omap list_omap].
  fold (statements t) (completions t) (sleeps t) (log_records t).
  split_and!; try done.
  - cbn. lia.
  - rewrite filter_cons_False by (rewrite Hq; done). done.
Qed.

Lemma reads_ret {A} (a : A) : reads 0 (ret a).
Proof.
  intros w. exists []. cbn. split; [apply extends_refl|].
  split_and!; try done. lia.
Qed.

Lemma reads_query {A} sql (f : Store → A) :
  is_write sql = false → reads 1 (query sql (fun s => (f s, s))).
Proof.
  intros Hsql w. exists [EQuery sql]. unfold query.
  destruct (db_fails w (queries w)) eqn:Hdb; cbn [fst snd].
  - split; [apply extends_record|]. split; [done|].
    split; [repeat constructor; eexists; done|].
    split; [done|]. exists 0%nat. rewrite Nat.add_0_r.
    split_and!; try done; lia.
  - split; [apply extends_set_store, extends_record|]. split; [done|].
    split; [repeat constructor; eexists; done|].
    split; [done|]. intros i Hi. replace i with 0%nat by lia.
    rewrite Nat.add_0_r. done.
Qed.

Lemma reads_bind {A B} n k (m : M A) (f : A → M B) :
  reads n m → (∀ a, reads k (f a)) → reads (n + k) (bind m f).
Proof.
  intros Hm Hf w. unfold bind.
  destruct (Hm w) as (t1 & Hext1 & Hst1 & Hr1 & Hend1).
  destruct (m w) as [[e|a] w1]; cbn [fst snd] in *.
  - exists t1. split; [done|]. split; [done|]. split; [done|].
    destruct Hend1 as (-> & j & Hlen & Hj & Hfail & Hok).
    split; [done|]. exists j. split_and!; try done. lia.
  - destruct Hend1 as [Hlen1 Hok1].
    destruct (Hf a w1) as (t2 & Hext2 & Hst2 & Hr2 & Hend2).
    assert (Hq : queries w1 = (queries w + n)%nat).
    { destruct Hext1 as (_ & _ & _ & _ & _ & Hq & _).
      rewrite Hq. destruct (read_statements_only t1 Hr1) as [-> _]. lia. }
    assert (Hdb : db_fails w1 = db_fails w) by apply Hext1.
    exists (t1 ++ t2)%list.
    split; [eapply extends_trans; done|].
    split; [congruence|].
    split; [apply Forall_app; done|].
    rewrite Hdb, Hq in Hend2. rewrite length_app.
    destruct (fst (f a w1)).
    + destruct Hend2 as (-> & j & Hlen & Hj & Hfail & Hok).
      split; [done|]. exists (n + j)%nat.
      split; [lia|]. split; [lia|]. split; [rewrite Nat.add_assoc; done|].
      intros i Hi. destruct (decide (i < n)%nat) as [Hin|Hin]; [auto|].
      replace i with (n + (i - n))%nat by lia. rewrite Nat.add_assoc.
      apply Hok. lia.
    + destruct Hend2 as [Hlen2 Hok2]. split; [lia|].
      intros i Hi. destruct (decide (i < n)%nat) as [Hin|Hin]; [auto|].
      replace i with (n + (i - n))%nat by lia. rewrite Nat.add_assoc.
      apply Hok2. lia.
Qed.

Lemma reads_gather_planning_context self user_id target_date d tomorrow :
  strptime_ymd target_date = Some d →
  add_days d 1 = Some tomorrow →
  reads 5 (gather_planning_context self user_id target_date).
Proof.
  intros Hd Ht.
  unfold gather_planning_context, strptime, plus_days. rewrite Hd.
  change (bind (ret d) ?k) with (k d). cbn beta. rewrite Ht.
  change (bind (ret tomorrow) ?k) with (k tomorrow). cbn beta.
  apply (reads_bind 1 4); [apply reads_query; done|]. intros goals.
  apply (reads_bind 1 3); [apply reads_query; done|]. intros tasks.
  apply (reads_bind 1 2); [apply (reads_query _ (select_calendar_events user_id)); done|].
  intros events.
  apply (reads_bind 1 1); [apply reads_query; done|]. intros relationships.
  apply (reads_bind 1 0); [apply reads_query; done|]. intros performance.
  apply reads_ret.
Qed.

(** X9 (gather_planning_context): the five reads of the planning context
    are all or nothing.  Once the date parses and has a following day, the
    engine sends read statements only, leaves the store as it was, places no
    completion call and writes no log; it returns a context exactly when all
    five statements reach the store, and otherwise stops at the first
    unreachable one with the database error, the later statements unsent. *)
Theorem gather_planning_context_reads self user_id target_date d tomorrow w :
  strptime_ymd target_date = Some d →
  add_days d 1 = Some tomorrow →
  ∃ t,
    extends w (snd (gather_planning_context self user_id target_date w)) t ∧
    store (snd (gather_planning_context self user_id target_date w)) = store w ∧
    Forall read_statement t ∧ completions t = [] ∧ log_records t = [] ∧
    match fst (gather_planning_context self user_id target_date w) with
    | inr _ =>
        length t = 5%nat ∧ ∀ i, (i < 5)%nat → db_fails w (queries w + i)%nat = false
    | inl e =>
        e = DatabaseError "Database query error" ∧
        ∃ k, length t = S k ∧ (k < 5)%nat ∧
             db_fails w (queries w + k)%nat = true ∧
             ∀ i, (i < k)%nat → db_fails w (queries w + i)%nat = false
    end.
Proof.
  intros Hd Ht.
  destruct (reads_gather_planning_context self user_id target_date d tomorrow Hd Ht w)
    as (t & Hext & Hst & Hr & Hend).
  exists t. destruct (read_statements_only t Hr) as (_ & Hc & _ & Hl & _).
  split_and!; done.
Qed.

Lemma gather_planning_context_run self user_id target_date w :
  ∃ t,
    extends w (snd (gather_planning_context self user_id target_date w)) t ∧
    store (snd (gather_planning_context self user_id target_date w)) = store w ∧
    Forall read_statement t ∧ (length t <= 5)%nat ∧
    ∀ e, fst (gather_planning_context self user_id target_date w) = inl e →
         (e = ValueError "time data does not match format '%Y-%m-%d'" ∧
          strptime_ymd target_date = None ∧ t = []) ∨
         (e = OverflowError "date value out of range" ∧
          (∃ d, strptime_ymd target_date = Some d ∧ add_days d 1 = None) ∧ t = []) ∨
         e = DatabaseError "Database query error".
Proof.
  destruct (strptime_ymd target_date) as [d|] eqn:Hd.
  2:{ exists []. unfold gather_planning_context, bind, strptime. rewrite Hd.
      cbn. split; [apply extends_refl|]. split_and!; try done; [lia|].
      intros e [= <-]. left. done. }
  destruct (add_days d 1) as [tomorrow|] eqn:Ht.
  2:{ exists []. unfold gather_planning_context, bind, strptime, plus_days.
      rewrite Hd. cbn. rewrite Ht.
      cbn. split; [apply extends_refl|]. split_and!; try done; [lia|].
      intros e [= <-]. right. left. eauto. }
  destruct (reads_gather_planning_context self user_id target_date d tomorrow Hd Ht w)
    as (t & Hext & Hst & Hr & Hend).
  exists t. split_and!; try done.
  - destruct (fst _).
    + destruct Hend as (_ & k & Hk & ? & _). lia.
    + destruct Hend as [Hk _]. lia.
  - intros e He. rewrite He in Hend. destruct Hend as [-> _]. auto.
Qed.

Lemma save_plan_run self user_id plan_date plan w :
  ∃ t,
    extends w (snd (save_plan self user_id plan_date plan w)) t ∧
    (length (statements t) <= 1)%nat ∧ completions t = [] ∧
    match fst (save_plan self user_id plan_date plan w) with
    | inl e =>
        store (snd (save_plan self user_id plan_date plan w)) = store w ∧
        ((e = ValueError "time data does not match format '%Y-%m-%d'" ∧
          strptime_ymd plan_date = None ∧ t = []) ∨
         e = DatabaseError "Database query error")
    | inr _ =>
        ∃ d, strptime_ymd plan_date = Some d ∧
             t = [EQuery (UpsertDailyPlan user_id d plan (DailyPlan.reasoning plan))] ∧
             store (snd (save_plan self user_id plan_date plan w)) =
               with_daily_plans
                 (snd (upsert_daily_plan user_id d plan (DailyPlan.reasoning plan)
                         (now w) (daily_plans (store w))))
                 (store w)
    end.
Proof.
  destruct (strptime_ymd plan_date) as [d|] eqn:Hd.
  2:{ exists []. unfold save_plan, bind, strptime. rewrite Hd. cbn.
      split; [apply extends_refl|]. split_and!; try done; [lia|]. left. done. }
  destruct (db_fails w (queries w)) eqn:Hdb.
  - exists [EQuery (UpsertDailyPlan user_id d plan (DailyPlan.reasoning plan))].
    unfold save_plan, bind, strptime, datetime_now. rewrite Hd. cbn [ret].
    rewrite (query_store_down _ _ _ Hdb). cbn [fst snd].
    split; [apply extends_record|]. split_and!; try done. right. done.
  - destruct (save_plan_upserts self user_id plan_date d plan w Hd Hdb) as [row ->].
    exists [EQuery (UpsertDailyPlan user_id d plan (DailyPlan.reasoning plan))].
    cbn [fst snd].
    split; [apply extends_set_store, extends_record|]. split_and!; try done.
    eexists. split_and!; done.
Qed.

Lemma upsert_daily_plan_other_rows u d p reasoning ts rows u' d' :
  ¬ (u' = u ∧ d' = d) →
  rows_of_key u' d' (snd (upsert_daily_plan u d p reasoning ts rows)) =
  rows_of_key u' d' rows.
Proof.
  intros Hne. unfold rows_of_key.
  induction rows as [|r rows IH]; cbn [upsert_daily_plan].
  - cbn [snd]. rewrite filter_cons_False by (cbn; intros [? ?]; auto). done.
  - destruct (plan_key_is u d r) eqn:Hkey.
    + apply plan_key_is_true in Hkey as [Hu Hd]. cbn [snd].
      rewrite !filter_cons_False; [done| |].
      * rewrite Hu, Hd. intros [? ?]. auto.
      * cbn. rewrite Hu, Hd. intros [? ?]. auto.
    + destruct (upsert_daily_plan u d p reasoning ts rows) as [out rest'].
      cbn [snd] in *.
      destruct (decide (PlanRow.user_id r = u' ∧ PlanRow.plan_date r = d')) as [Hr|Hr].
      * rewrite !filter_cons_True by done. f_equal. done.
      * rewrite !filter_cons_False by done. done.
Qed.

Lemma upsert_daily_plan_is_override u d p reasoning ts rows :
  PlanRow.is_override (fst (upsert_daily_plan u d p reasoning ts rows)) =
  match rows_of_key u d rows with
  | old :: _ => PlanRow.is_override old
  | [] => false
  end.
Proof.
  unfold rows_of_key.
  induction rows as [|r rows IH]; cbn [upsert_daily_plan]; [done|].
  destruct (plan_key_is u d r) eqn:Hkey.
  - apply plan_key_is_true in Hkey. rewrite filter_cons_True by done. done.
  - assert (¬ (PlanRow.user_id r = u ∧ PlanRow.plan_date r = d)) as Hno.
    { intros H. apply plan_key_is_true in H. congruence. }
    rewrite filter_cons_False by done.
    destruct (upsert_daily_plan u d p reasoning ts rows) as [out rest']. done.
Qed.

Section EngineRuns.

Variable json_loads : string → option json.
Variable system_prompt : string.
Variable build_prompt : Context.t → string.

Local Abbreviation generate_plan' := (generate_plan json_loads system_prompt build_prompt).
Local Abbreviation generation_attempts' :=
  (generation_attempts json_loads system_prompt build_prompt).
Local Abbreviation generate_daily_plan' :=
  (generate_daily_plan json_loads system_prompt build_prompt).
Local Abbreviation nightly_planning_job' :=
  (nightly_planning_job json_loads system_prompt build_prompt).

Lemma generation_attempts_budget self context :
  ∀ remaining attempt last_error w,
    ∃ t,
      extends w (snd (generation_attempts' self context remaining attempt last_error w)) t ∧
      store (snd (generation_attempts' self context remaining attempt last_error w)) = store w ∧
      statements t = [] ∧
      (length (completions t)
       <= remaining * LLMClient.max_retries (PlanningEngine.llm_client self))%nat ∧
      Forall json_mode (completions t) ∧
      match fst (generation_attempts' self context remaining attempt last_error w) with
      | inr (Some plan, _) => DailyPlan_ok plan = true
      | inr (None, last_error') =>
          match remaining with
          | O => last_error' = last_error
          | S _ => ∃ e, last_error' = Some e ∧ generation_error e
          end
      | inl _ => False
      end.
Proof.
  induction remaining as [|r IH]; intros attempt last_error w.
  { exists []. cbn. split; [apply extends_refl|]. split_and!; try done. }
  rewrite generation_attempts_turn.
  destruct (generate_plan_run json_loads system_prompt build_prompt
              (PlanningEngine.llm_client self) context None w)
    as (t1 & Hext1 & Hst1 & Hs1 & Hlen1 & Hjson1 & Hend1).
  destruct (generate_plan' (PlanningEngine.llm_client self) context None w)
    as [[e|raw_plan] w1]; cbn [fst snd] in *.
  - assert (He : generation_error e).
    { left. destruct Hend1 as [[? ->]|(? & _ & ->)]; eauto. }
    set (w2 := record_effect (ELog (Plan_generation_attempt_failed (attempt + 1) e)) w1).
    destruct (IH (S attempt) (Some e) w2) as (t2 & Hext2 & Hst2 & Hs2 & Hlen2 & Hjson2 & Hend2).
    exists ((t1 ++ [ELog (Plan_generation_attempt_failed (attempt + 1) e)]) ++ t2)%list.
    split; [eapply extends_trans; [apply extends_record_after; done|done]|].
    split; [rewrite Hst2; subst w2; rewrite store_record_effect; done|].
    rewrite !statements_app, !completions_app, Hs1, Hs2. cbn [statements completions omap list_omap].
    rewrite !app_nil_r, length_app.
    split; [done|]. split; [lia|]. split; [apply Forall_app; done|].
    destruct (fst _) as [|[[plan|] le]]; [done|done|].
    destruct r; [subst le; eauto|done].
  - destruct (validate_plan raw_plan) as [e|plan] eqn:Hv.
    + assert (He : generation_error e).
      { right. unfold validate_plan in Hv.
        destruct raw_plan; try (injection Hv as <-; eauto).
        destruct (DailyPlan_validate fields); [injection Hv as <-; eauto|done]. }
      set (w2 := record_effect (ELog (Plan_generation_attempt_failed (attempt + 1) e)) w1).
      destruct (IH (S attempt) (Some e) w2) as (t2 & Hext2 & Hst2 & Hs2 & Hlen2 & Hjson2 & Hend2).
      exists ((t1 ++ [ELog (Plan_generation_attempt_failed (attempt + 1) e)]) ++ t2)%list.
      split; [eapply extends_trans; [apply extends_record_after; done|done]|].
      split; [rewrite Hst2; subst w2; rewrite store_record_effect; done|].
      rewrite !statements_app, !completions_app, Hs1, Hs2. cbn [statements completions omap list_omap].
      rewrite !app_nil_r, length_app.
      split; [done|]. split; [lia|]. split; [apply Forall_app; done|].
      destruct (fst _) as [|[[plan|] le]]; [done|done|].
      destruct r; [subst le; eauto|done].
    + exists t1. cbn [fst snd]. split_and!; try done; [lia|].
      eapply validate_plan_schema; done.
Qed.

Lemma generate_daily_plan_run self user_id target_date w :
  ∃ t,
    extends w (snd (generate_daily_plan' self user_id target_date w)) t ∧
    (length (statements t) <= 6)%nat ∧
    (length (completions t)
     <= PlanningEngine.max_retries self
        * LLMClient.max_retries (PlanningEngine.llm_client self))%nat ∧
    Forall json_mode (completions t) ∧
    match fst (generate_daily_plan' self user_id target_date w) with
    | inl e =>
        store (snd (generate_daily_plan' self user_id target_date w)) = store w ∧
        ((e = ValueError "time data does not match format '%Y-%m-%d'" ∧
          strptime_ymd target_date = None ∧ t = []) ∨
         (e = OverflowError "date value out of range" ∧
          (∃ d, strptime_ymd target_date = Some d ∧ add_days d 1 = None) ∧ t = []) ∨
         e = DatabaseError "Database query error" ∨
         ∃ last_error,
           e = GenerationFailed (PlanningEngine.max_retries self) last_error ∧
           match PlanningEngine.max_retries self with
           | O => last_error = None
           | S _ => ∃ e', last_error = Some e' ∧ generation_error e'
           end)
    | inr plan =>
        ∃ d, strptime_ymd target_date = Some d ∧
             DailyPlan_ok plan = true ∧
             writes t = [UpsertDailyPlan user_id d plan (DailyPlan.reasoning plan)] ∧
             store (snd (generate_daily_plan' self user_id target_date w)) =
               with_daily_plans
                 (snd (upsert_daily_plan user_id d plan (DailyPlan.reasoning plan)
                         (now w) (daily_plans (store w))))
                 (store w)
    end.
Proof.
  rewrite generate_daily_plan_steps.
  destruct (strptime_ymd target_date) as [d|] eqn:Hd.
  2:{ exists []. cbn. split; [apply extends_refl|]. split_and!; try done; try lia.
      left. done. }
  destruct (gather_planning_context_run self user_id target_date w)
    as (t1 & Hext1 & Hst1 & Hr1 & Hlen1 & Hend1).
  destruct (read_statements_only t1 Hr1) as (Hs1 & Hc1 & _ & _ & Hw1).
  destruct (gather_planning_context self user_id target_date w)
    as [[e|context] w1]; cbn [fst snd] in *.
  { exists t1. split; [done|]. rewrite Hs1, Hc1. cbn [length].
    split_and!; try done; try lia.
    destruct (Hend1 e eq_refl) as [(-> & ? & ?)|[(-> & (d0 & Hd0 & Hov) & ?)| -> ]].
    - congruence.
    - right. left. split_and!; try done. exists d0. split; congruence.
    - auto. }
  clear Hend1.
  destruct (generation_attempts_budget self context
              (PlanningEngine.max_retries self) 0 None w1)
    as (t2 & Hext2 & Hst2 & Hs2 & Hlen2 & Hjson2 & Hend2).
  destruct (generation_attempts' self context (PlanningEngine.max_retries self) 0 None w1)
    as [[e|[[plan|] last_error]] w2]; cbn [fst snd] in *; [done| |].
  2:{ exists (t1 ++ t2)%list. split; [eapply extends_trans; done|].
      rewrite statements_app, completions_app, Hc1, Hs2, app_nil_r, Hs1. cbn [app].
      split_and!; try done; try lia; [congruence|].
      right. right. right. exists last_error. split; [done|].
      destruct (PlanningEngine.max_retries self); done. }
  destruct (save_plan_run self user_id target_date plan w2)
    as (t3 & Hext3 & Hlen3 & Hc3 & Hend3).
  assert (Hnow : now w2 = now w).
  { destruct Hext1 as (_ & Hn1 & _). destruct Hext2 as (_ & Hn2 & _). congruence. }
  destruct (save_plan self user_id target_date plan w2) as [[e|row] w3];
    cbn [fst snd] in *.
  - exists ((t1 ++ t2) ++ t3)%list.
    split; [eapply extends_trans; [eapply extends_trans|]; done|].
    rewrite !statements_app, !completions_app, Hc1, Hs2, Hc3, !app_nil_r, !length_app, Hs1.
    cbn [app length].
    destruct Hend3 as [Hst3 Hcases].
    split_and!; try done; try lia; [congruence|].
    destruct Hcases as [(_ & ? & _)| -> ]; [congruence|auto].
  - destruct Hend3 as (d' & Hd' & -> & Hst3).
    assert (d' = d) as -> by congruence.
    exists ((t1 ++ t2) ++
            [EQuery (UpsertDailyPlan user_id d plan (DailyPlan.reasoning plan))])%list.
    split; [eapply extends_trans; [eapply extends_trans|]; done|].
    rewrite !statements_app, !completions_app, Hc1, Hs2, !app_nil_r, !length_app, Hs1.
    cbn [app length statements completions omap list_omap].
    split_and!; try done; try lia.
    exists d. split_and!; try done.
    + rewrite !writes_app, Hw1. unfold writes at 1. rewrite Hs2. done.
    + rewrite Hst3, Hnow, Hst2, Hst1. done.
Qed.

(** X10 (generate_daily_plan): in every world, a run that raises leaves the
    whole store as it was; a run that returns has changed the store in the
    table of daily plans only, and there only the rows of the user's plan
    for the parsed date: users, calendar events, the override log and the
    plans of other users or other dates are as before. *)
Theorem generate_daily_plan_changes_one_key self user_id target_date w :
  match fst (generate_daily_plan' self user_id target_date w) with
  | inl _ => store (snd (generate_daily_plan' self user_id target_date w)) = store w
  | inr plan =>
      ∃ d, strptime_ymd target_date = Some d ∧
        users (store (snd (generate_daily_plan' self user_id target_date w)))
          = users (store w) ∧
        calendar_events (store (snd (generate_daily_plan' self user_id target_date w)))
          = calendar_events (store w) ∧
        override_log (store (snd (generate_daily_plan' self user_id target_date w)))
          = override_log (store w) ∧
        (∀ u' d', ¬ (u' = user_id ∧ d' = d) →
           rows_of_key u' d'
             (daily_plans (store (snd (generate_daily_plan' self user_id target_date w))))
           = rows_of_key u' d' (daily_plans (store w))) ∧
        ∃ row,
          row ∈ daily_plans (store (snd (generate_daily_plan' self user_id target_date w))) ∧
          PlanRow.user_id row = user_id ∧ PlanRow.plan_date row = d ∧
          PlanRow.plan_json row = plan
  end.
Proof.
  destruct (generate_daily_plan_run self user_id target_date w)
    as (t & _ & _ & _ & _ & Hend).
  destruct (fst _) as [e|plan]; [apply Hend|].
  destruct Hend as (d & Hd & _ & _ & ->). exists d.
  split; [done|]. split; [done|]. split; [done|]. split; [done|].
  cbn [daily_plans with_daily_plans]. split.
  - intros u' d' Hne. apply upsert_daily_plan_other_rows. done.
  - destruct (upsert_daily_plan_row user_id d plan (DailyPlan.reasoning plan) (now w)
                (daily_plans (store w))) as (Hu & Hdt & Hp & _ & Hin).
    eauto 6.
Qed.

(** X11 (generate_daily_plan): the cost of one run is bounded in every world.
    It places at most [max_retries] of the engine times [max_retries] of the
    client completion calls, nine for an engine as its constructor builds
    it, every one of them in JSON mode, and sends at most six statements to
    the store. *)
Theorem generate_daily_plan_budget self user_id target_date w :
  ∃ t,
    extends w (snd (generate_daily_plan' self user_id target_date w)) t ∧
    (length (completions t)
     <= PlanningEngine.max_retries self
        * LLMClient.max_retries (PlanningEngine.llm_client self))%nat ∧
    (∀ settings, PlanningEngine_init settings = inr self →
                 (length (completions t) <= 9)%nat) ∧
    Forall json_mode (completions t) ∧
    (length (statements t) <= 6)%nat.
Proof.
  destruct (generate_daily_plan_run self user_id target_date w)
    as (t & Hext & Hs & Hc & Hjson & _).
  exists t. split_and!; try done.
  intros settings Hinit.
  pose proof (PlanningEngine_init_fields _ _ Hinit) as He.
  unfold PlanningEngine_init in Hinit.
  destruct (LLMClient_init settings) as [|client] eqn:Hclient; [done|].
  injection Hinit as <-. cbn in *.
  destruct (LLMClient_init_fields _ _ Hclient) as [Hm _]. rewrite Hm in Hc. lia.
Qed.


(** X13 (generate_daily_plan): a regenerated plan keeps the override mark of
    the row it replaces.  The row a successful run leaves for its key carries
    the override flag the key's row had before the run, and [false] when the
    key had no row. *)
Theorem generate_daily_plan_keeps_override_flag self user_id target_date w :
  match fst (generate_daily_plan' self user_id target_date w) with
  | inl _ => True
  | inr plan =>
      ∃ d row,
        strptime_ymd target_date = Some d ∧
        row ∈ daily_plans (store (snd (generate_daily_plan' self user_id target_date w))) ∧
        PlanRow.user_id row = user_id ∧ PlanRow.plan_date row = d ∧
        PlanRow.plan_json row = plan ∧
        PlanRow.is_override row =
          match rows_of_key user_id d (daily_plans (store w)) with
          | old :: _ => PlanRow.is_override old
          | [] => false
          end ∧
        (unique_plan_keys (daily_plans (store w)) →
         rows_of_key user_id d
           (daily_plans (store (snd (generate_daily_plan' self user_id target_date w))))
         = [row])
  end.
Proof.
  destruct (generate_daily_plan_run self user_id target_date w)
    as (t & _ & _ & _ & _ & Hend).
  destruct (fst _) as [e|plan]; [done|].
  destruct Hend as (d & Hd & _ & _ & ->).
  cbn [daily_plans with_daily_plans].
  destruct (upsert_daily_plan_row user_id d plan (DailyPlan.reasoning plan) (now w)
              (daily_plans (store w))) as (Hu & Hdt & Hp & _ & Hin).
  exists d, (fst (upsert_daily_plan user_id d plan (DailyPlan.reasoning plan) (now w)
                    (daily_plans (store w)))).
  split_and!; try done.
  - apply upsert_daily_plan_is_override.
  - intros Huniq. apply rows_of_key_unique; try done.
    apply upsert_daily_plan_unique. done.
Qed.

(** X14 (generate_daily_plan): the one date the engine cannot plan for.  Of
    the dates that parse, 9999-12-31 alone has no following day: for it the
    engine raises the [OverflowError] of the date arithmetic at once, with
    no statement and no completion call, and for every other date it never
    raises that error. *)
Theorem generate_daily_plan_no_following_day self user_id target_date d w :
  strptime_ymd target_date = Some d →
  if decide (d = mkdate 9999 12 31)
  then generate_daily_plan' self user_id target_date w =
         (inl (OverflowError "date value out of range"), w)
  else (∃ tomorrow, add_days d 1 = Some tomorrow ∧
                    toordinal tomorrow = toordinal d + 1) ∧
       fst (generate_daily_plan' self user_id target_date w) ≠
         inl (OverflowError "date value out of range").
Proof.
  intros Hd. pose proof (add_days_one d (strptime_ymd_valid _ _ Hd)) as Hone.
  destruct (decide (d = mkdate 9999 12 31)) as [E|E].
  - rewrite generate_daily_plan_steps, Hd.
    unfold gather_planning_context, bind, strptime, plus_days.
    rewrite Hd. cbn [ret]. rewrite Hone. done.
  - destruct Hone as (tomorrow & Ht & Hord & _). split; [eauto|].
    destruct (generate_daily_plan_run self user_id target_date w)
      as (t & _ & _ & _ & _ & Hend).
    destruct (fst _) as [e|plan]; [|done].
    destruct Hend as [_ [(-> & _)|[(_ & (d0 & Hd0 & Hov) & _)|[ -> |(le & -> & _)]]]];
      try done.
    congruence.
Qed.

(** X15 (save_plan): plans are keyed by the parsed date, not by the text of
    the date.  Two successful runs for the same user whose date texts parse
    to the same day leave one row for that day, carrying the second plan,
    and the second run adds no row. *)
Theorem generate_daily_plan_same_day_one_row self user_id date1 date2 d w
    plan1 w1 plan2 w2 :
  unique_plan_keys (daily_plans (store w)) →
  strptime_ymd date1 = Some d →
  strptime_ymd date2 = Some d →
  generate_daily_plan' self user_id date1 w = (inr plan1, w1) →
  generate_daily_plan' self user_id date2 w1 = (inr plan2, w2) →
  ∃ row,
    rows_of_key user_id d (daily_plans (store w2)) = [row] ∧
    PlanRow.plan_json row = plan2 ∧
    length (daily_plans (store w2)) = length (daily_plans (store w1)).
Proof.
  intros Huniq Hd1 Hd2 Hrun1 Hrun2.
  destruct (generate_daily_plan_returns _ _ _ _ _ _ _ _ _ Hrun1)
    as (d1 & Hd1' & _ & _ & Hrows1).
  destruct (generate_daily_plan_returns _ _ _ _ _ _ _ _ _ Hrun2)
    as (d2 & Hd2' & _ & _ & Hrows2).
  assert (d1 = d) as -> by congruence. assert (d2 = d) as -> by congruence.
  assert (Huniq1 : unique_plan_keys (daily_plans (store w1))).
  { rewrite Hrows1. apply upsert_daily_plan_unique. done. }
  assert (Hin1 : (user_id, d) ∈ plan_keys (daily_plans (store w1))).
  { rewrite Hrows1.
    destruct (upsert_daily_plan_row user_id d plan1 (DailyPlan.reasoning plan1) (now w)
                (daily_plans (store w))) as (Hu & Hdt & _ & _ & Hin).
    unfold plan_keys. apply list_elem_of_fmap. eexists. split; [|exact Hin].
    rewrite Hu, Hdt. done. }
  destruct (upsert_daily_plan_row user_id d plan2 (DailyPlan.reasoning plan2) (now w1)
              (daily_plans (store w1))) as (Hu & Hdt & Hp & _ & Hin).
  eexists. rewrite Hrows2. split_and!.
  - apply rows_of_key_unique; [apply upsert_daily_plan_unique; done|exact Hin|done|done].
  - done.
  - rewrite upsert_daily_plan_length, decide_True by done. done.
Qed.

End EngineRuns.

(** ** The override endpoints *)

Lemma check_weekly_overrides_reaches self user_id w week :
  get_week_number (now w) = Some week →
  db_fails w (queries w) = false →
  check_weekly_overrides self user_id w =
  (inr (OverrideStatus.mk
          (count_overrides user_id week (override_log (store w)))
          (Z.max 0 (default 5 (environ w)
                    - count_overrides user_id week (override_log (store w))))
          (default 5 (environ w))
          (count_overrides user_id week (override_log (store w))
           <? default 5 (environ w))),
   set_store (store w) (record_effect (EQuery (CountOverrides user_id week)) w)).
Proof.
  intros Hweek Hdb.
  unfold check_weekly_overrides, bind, datetime_now, week_number_of, ret.
  rewrite Hweek. cbn beta iota.
  rewrite (query_reaches_store _ _ _ Hdb). done.
Qed.

Lemma log_override_reaches self user_id plan_id override_type reason w week :
  get_week_number (now w) = Some week →
  db_fails w (queries w) = false →
  log_override self user_id plan_id override_type reason w =
  (inr tt,
   set_store
     (with_override_log
        (override_log (store w) ++
         [OverrideRow.mk user_id plan_id override_type reason week])%list (store w))
     (record_effect
        (EQuery (InsertOverride user_id plan_id override_type reason week)) w)).
Proof.
  intros Hweek Hdb.
  unfold log_override, bind, datetime_now, week_number_of, ret.
  rewrite Hweek. cbn beta iota.
  rewrite (query_reaches_store _ _ _ Hdb). done.
Qed.



(** X17 (get_overrides, override_plan): the handlers of the override
    endpoints build a planning engine, and with it a completion client, on
    every request.  Without an API key in the settings both handlers fail
    with the [LLMError] of the client's constructor before they send any
    statement to the store, although neither places a completion call. *)
Theorem override_endpoints_need_api_key settings plan_id request_data user w :
  llm_api_key settings = None ∨ llm_api_key settings = Some "" →
  get_overrides settings user w =
    (inl (LLMError "LLM_API_KEY not configured" None 0), w) ∧
  override_plan settings plan_id request_data user w =
    (inl (LLMError "LLM_API_KEY not configured" None 0), w).
Proof.
  intros Hkey.
  assert (Hinit : PlanningEngine_init settings =
                  inl (LLMError "LLM_API_KEY not configured" None 0)).
  { unfold PlanningEngine_init, LLMClient_init. destruct Hkey as [-> | ->]; done. }
  unfold get_overrides, override_plan, lift, bind. rewrite Hinit. done.
Qed.

Lemma check_weekly_overrides_run self user_id w :
  check_weekly_overrides self user_id w =
  match get_week_number (now w) with
  | None => (inl (OverflowError "date value out of range"), w)
  | Some week =>
      if db_fails w (queries w)
      then (inl (DatabaseError "Database query error"),
            record_effect (EQuery (CountOverrides user_id week)) w)
      else
        (inr (OverrideStatus.mk
                (count_overrides user_id week (override_log (store w)))
                (Z.max 0 (default 5 (environ w)
                          - count_overrides user_id week (override_log (store w))))
                (default 5 (environ w))
                (count_overrides user_id week (override_log (store w))
                 <? default 5 (environ w))),
         set_store (store w) (record_effect (EQuery (CountOverrides user_id week)) w))
  end.
Proof.
  destruct (get_week_number (now w)) as [week|] eqn:Hweek.
  - destruct (db_fails w (queries w)) eqn:Hdb.
    + unfold check_weekly_overrides, bind, datetime_now, week_number_of, ret.
      rewrite Hweek. cbn beta iota.
      rewrite (query_store_down _ _ _ Hdb). done.
    + apply check_weekly_overrides_reaches; done.
  - unfold check_weekly_overrides, bind, datetime_now, week_number_of, ret.
    rewrite Hweek. done.
Qed.

Lemma log_override_run self user_id plan_id override_type reason w :
  log_override self user_id plan_id override_type reason w =
  match get_week_number (now w) with
  | None => (inl (OverflowError "date value out of range"), w)
  | Some week =>
      if db_fails w (queries w)
      then (inl (DatabaseError "Database query error"),
            record_effect
              (EQuery (InsertOverride user_id plan_id override_type reason week)) w)
      else
        (inr tt,
         set_store
           (with_override_log
              (override_log (store w) ++
               [OverrideRow.mk user_id plan_id override_type reason week])%list
              (store w))
           (record_effect
              (EQuery (InsertOverride user_id plan_id override_type reason week)) w))
  end.
Proof.
  destruct (get_week_number (now w)) as [week|] eqn:Hweek.
  - destruct (db_fails w (queries w)) eqn:Hdb.
    + unfold log_override, bind, datetime_now, week_number_of, ret.
      rewrite Hweek. cbn beta iota.
      rewrite (query_store_down _ _ _ Hdb). done.
    + apply log_override_reaches; done.
  - unfold log_override, bind, datetime_now, week_number_of, ret.
    rewrite Hweek. done.
Qed.

(** X18 (override_plan): in every world, also with an unreachable store or
    a failing request, the endpoint changes the store by at most one row
    appended to the override log, and it appends that row only when the
    week's count it read was below the limit.  It places no completion call
    and leaves the plans, the users and the calendar as they were. *)
Theorem override_plan_appends_within_quota settings plan_id request_data user w :
  ∃ l,
    override_log (store (snd (override_plan settings plan_id request_data user w))) =
      (override_log (store w) ++ l)%list ∧
    daily_plans (store (snd (override_plan settings plan_id request_data user w))) =
      daily_plans (store w) ∧
    users (store (snd (override_plan settings plan_id request_data user w))) =
      users (store w) ∧
    calendar_events (store (snd (override_plan settings plan_id request_data user w))) =
      calendar_events (store w) ∧
    calls (snd (override_plan settings plan_id request_data user w)) = calls w ∧
    (l = [] ∨
     ∃ week,
       get_week_number (now w) = Some week ∧
       l = [OverrideRow.mk (UserRow.id user) plan_id
              (default "manual" (request_data !! "override_type"))
              (default "" (request_data !! "reason")) week] ∧
       count_overrides (UserRow.id user) week (override_log (store w))
       < default 5 (environ w)).
Proof.
  remember (override_plan settings plan_id request_data user w) as run eqn:Hrun.
  unfold override_plan, lift in Hrun. unfold bind at 1 in Hrun.
  destruct (PlanningEngine_init settings) as [e|planner].
  { subst run. exists []. rewrite app_nil_r. cbn. auto 10. }
  unfold bind at 1 in Hrun. rewrite check_weekly_overrides_run in Hrun.
  destruct (get_week_number (now w)) as [week|] eqn:Hweek.
  2:{ subst run. exists []. rewrite app_nil_r. cbn. auto 10. }
  destruct (db_fails w (queries w)) eqn:Hdb0.
  { subst run. exists []. rewrite app_nil_r. cbn. auto 10. }
  cbn [OverrideStatus.canOverride OverrideStatus.limit] in Hrun.
  destruct (_ <? _) eqn:Hlt in Hrun; cbn [negb] in Hrun.
  2:{ subst run. exists []. rewrite app_nil_r. cbn. auto 10. }
  apply Z.ltb_lt in Hlt.
  set (w1 := set_store (store w) _) in Hrun.
  unfold bind at 1 in Hrun. rewrite log_override_run in Hrun.
  change (now w1) with (now w) in Hrun. rewrite Hweek in Hrun.
  destruct (db_fails w1 (queries w1)) eqn:Hdb1.
  { subst run. exists []. rewrite app_nil_r. cbn. auto 10. }
  set (w2 := set_store _ _) in Hrun.
  unfold bind at 1 in Hrun. rewrite check_weekly_overrides_run in Hrun.
  change (now w2) with (now w) in Hrun. rewrite Hweek in Hrun.
  eexists. split_and!.
  6:{ right. exists week. split; [done|]. split; [reflexivity|]. done. }
  all: subst run; destruct (db_fails w2 (queries w2)); reflexivity.
Qed.


(** ** Further properties of the plan schema *)

Lemma dict_get_skips d1 k v d2 name :
  k ≠ name →
  dict_get (d1 ++ (k, v) :: d2) name = dict_get (d1 ++ d2) name.
Proof.
  intros Hne. induction d1 as [|[k' v'] d1 IH]; cbn.
  - destruct (String.eqb_spec k name); [done|done].
  - rewrite IH. done.
Qed.

Lemma required_skips {A} d1 k v d2 name (f : json → vres A) :
  k ≠ name →
  required (d1 ++ (k, v) :: d2) name f = required (d1 ++ d2) name f.
Proof. intros Hne. unfold required. rewrite dict_get_skips by done. done. Qed.

(** X20 (validate_plan): keys the schema does not declare are ignored.  A
    candidate with one more key that is none of the seven fields, wherever
    the key stands, is validated exactly as the candidate without it: the
    same plan or the same errors. *)
Theorem validate_plan_ignores_unknown_key d1 k v d2 :
  k ∉ plan_fields →
  validate_plan (JDict (d1 ++ (k, v) :: d2)) = validate_plan (JDict (d1 ++ d2)).
Proof.
  intros Hk. unfold validate_plan, DailyPlan_validate.
  rewrite !required_skips; [done|..];
    intros ->; apply Hk; unfold plan_fields; set_solver.
Qed.

Lemma list_items_map {A} (v : json → vres A) (f : A → json) l :
  Forall (fun x => v (f x) = inr x) l →
  ∀ i, list_items v i (map f l) = inr l.
Proof.
  induction 1 as [|x l Hx _ IH]; intros i; cbn [map list_items]; [done|].
  rewrite Hx, IH. done.
Qed.

Lemma TimeBlock_validate_dict b :
  TimeBlock_ok b = true →
  model_field TimeBlock_validate (TimeBlock_dict b) = inr b.
Proof.
  unfold TimeBlock_ok. rewrite !andb_true_iff.
  intros [[[[[[H1 H2] H3] H4] H5] H6] H7].
  destruct b as [st et tid act pr re];
    cbn [TimeBlock.start_time TimeBlock.end_time TimeBlock.task_id TimeBlock.activity
         TimeBlock.priority TimeBlock.reasoning] in *.
  unfold model_field, TimeBlock_dict, TimeBlock_validate, required, defaulted.
  cbn [TimeBlock.start_time TimeBlock.end_time TimeBlock.task_id TimeBlock.activity
       TimeBlock.priority TimeBlock.reasoning].
  cbn [dict_get String.eqb Ascii.eqb Bool.eqb].
  unfold str_field, int_field, lax_int.
  rewrite H1, H2, H4, H5, H6, H7. cbn [Nat.leb andb no_pattern under ap].
  destruct tid as [s|]; cbn [optional_field str_field Nat.leb andb under ap];
    [rewrite H3|]; done.
Qed.

Lemma SocialTime_validate_dict s :
  SocialTime_ok s = true →
  model_field SocialTime_validate (SocialTime_dict s) = inr s.
Proof.
  unfold SocialTime_ok. rewrite !andb_true_iff. intros [H1 H2].
  destruct s as [tm re]; cbn [SocialTime.total_minutes SocialTime.reasoning] in *.
  unfold model_field, SocialTime_dict, SocialTime_validate, required.
  cbn [SocialTime.total_minutes SocialTime.reasoning].
  cbn [dict_get String.eqb Ascii.eqb Bool.eqb].
  unfold str_field, int_field, lax_int.
  rewrite H1, H2. done.
Qed.

Lemma GoalProgress_validate_dict g :
  GoalProgress_ok g = true →
  model_field GoalProgress_validate (GoalProgress_dict g) = inr g.
Proof.
  unfold GoalProgress_ok. rewrite !andb_true_iff. intros [H1 H2].
  destruct g as [gid st an];
    cbn [GoalProgress.goal_id GoalProgress.status GoalProgress.action_needed] in *.
  unfold model_field, GoalProgress_dict, GoalProgress_validate, required.
  cbn [GoalProgress.goal_id GoalProgress.status GoalProgress.action_needed].
  cbn [dict_get String.eqb Ascii.eqb Bool.eqb].
  unfold str_field, literal_field.
  rewrite H1, H2. done.
Qed.

(** X21 (validate_plan, generate_daily_plan): the dictionary of a plan reads
    back as the same plan.  [plan.dict()], which the engine stores and
    returns, passes [validate_plan] and gives the plan again, exactly when
    the plan satisfies the constraints of the schema; so what the engine
    returns for a validated candidate validates again, to itself. *)
Theorem validate_plan_dict_round_trip plan :
  validate_plan (DailyPlan_dict plan) = inr plan ↔ DailyPlan_ok plan = true.
Proof.
  split; [apply validate_plan_schema|].
  unfold DailyPlan_ok. rewrite !andb_true_iff.
  intros [[[[[H1 H2] H3] H4] H5] H6].
  destruct plan as [dt re pa tbs sta gpa ws];
    cbn [DailyPlan.date DailyPlan.reasoning DailyPlan.priority_analysis
         DailyPlan.time_blocks DailyPlan.social_time_allocation
         DailyPlan.goal_progress_assessment DailyPlan.warnings] in *.
  unfold validate_plan, DailyPlan_validate, DailyPlan_dict.
  cbn [DailyPlan.date DailyPlan.reasoning DailyPlan.priority_analysis
       DailyPlan.time_blocks DailyPlan.social_time_allocation
       DailyPlan.goal_progress_assessment DailyPlan.warnings].
  unfold required. cbn [dict_get String.eqb Ascii.eqb Bool.eqb].
  unfold list_field.
  rewrite (list_items_map (model_field TimeBlock_validate) TimeBlock_dict tbs).
  2:{ apply Forall_forall. intros b Hb. apply TimeBlock_validate_dict.
      rewrite forallb_forall in H4. apply H4, list_elem_of_In. done. }
  rewrite (list_items_map (model_field GoalProgress_validate) GoalProgress_dict gpa).
  2:{ apply Forall_forall. intros g Hg. apply GoalProgress_validate_dict.
      rewrite forallb_forall in H6. apply H6, list_elem_of_In. done. }
  rewrite (list_items_map (str_field 0 no_pattern) JStr ws).
  2:{ apply Forall_forall. intros s _. done. }
  rewrite SocialTime_validate_dict by done.
  unfold str_field.
  rewrite H1, H2, H3. done.
Qed.

Lemma reports_ap_l {A B} l (f : vres (A → B)) (x : vres A) :
  reports l f → reports l (f <@> x).
Proof.
  intros (ef & -> & Hin). destruct x as [ex|a]; cbn.
  - exists (ef ++ ex)%list. split; [done|]. apply elem_of_app. auto.
  - exists ef. done.
Qed.

Lemma reports_ap_r {A B} l (f : vres (A → B)) (x : vres A) :
  reports l x → reports l (f <@> x).
Proof.
  intros (ex & -> & Hin). destruct f as [ef|g]; cbn.
  - exists (ef ++ ex)%list. split; [done|]. apply elem_of_app. auto.
  - exists ex. done.
Qed.

Lemma reports_missing {A} d name (v : json → vres A) :
  dict_get d name = None → reports [Key name] (required d name v).
Proof.
  intros H. unfold required. rewrite H. eexists. split; [done|]. set_solver.
Qed.

(** X22 (validate_plan): every missing field is reported, whatever else is
    wrong with the candidate.  For each of the seven fields of the schema,
    a candidate object without that key is rejected, and the error names
    the field among its locations: one failing field never hides
    another. *)
Theorem validate_plan_reports_missing_field d name :
  name ∈ plan_fields →
  dict_get d name = None →
  ∃ errors,
    validate_plan (JDict d) = inl (InvalidPlanStructure errors) ∧
    [Key name] ∈ errors.
Proof.
  intros Hname Hnone.
  assert (H : reports [Key name] (DailyPlan_validate d)).
  { unfold DailyPlan_validate, plan_fields in *.
    repeat (apply elem_of_cons in Hname as [-> | Hname];
            [eauto 10 using @reports_ap_l, @reports_ap_r, @reports_missing|]).
    set_solver. }
  destruct H as (errors & H & Hin).
  exists errors. unfold validate_plan. rewrite H. done.
Qed.

(** ** [serialize_for_json] *)

(** Induction on objects through their lists and dictionaries. *)
Lemma pyobj_nested_ind (P : pyobj → Prop) :
  P PNone → (∀ b, P (PBool b)) → (∀ z, P (PInt z)) → (∀ q, P (PFloat q)) →
  (∀ s, P (PStr s)) → (∀ s, P (PUUID s)) → (∀ s, P (PTemporal s)) →
  (∀ s, P (POther s)) →
  (∀ items, Forall P items → P (PList items)) →
  (∀ fields, Forall (fun kv => P (snd kv)) fields → P (PDict fields)) →
  ∀ obj, P obj.
Proof.
  intros HNone HBool HInt HFloat HStr HUUID HTemp HOther HList HDict.
  fix IH 1. intros [|b|z|q|s|s|s|s|items|fields].
  - exact HNone.
  - exact (HBool b).
  - exact (HInt z).
  - exact (HFloat q).
  - exact (HStr s).
  - exact (HUUID s).
  - exact (HTemp s).
  - exact (HOther s).
  - apply HList. induction items as [|x items IHitems].
    + constructor.
    + constructor; [exact (IH x)|exact IHitems].
  - apply HDict. induction fields as [|[k v] fields IHfields].
    + constructor.
    + constructor; [exact (IH v)|exact IHfields].
Qed.

Lemma serialize_for_json_spec obj :
  json_ready (serialize_for_json obj) ∧
  shape_of (serialize_for_json obj) = shape_of obj.
Proof.
  induction obj as [| | | | | | | |items IH|fields IH] using pyobj_nested_ind;
    try done.
  - cbn [serialize_for_json json_ready shape_of]. split.
    + induction IH as [|x items [Hx _] _ IHitems]; cbn; [done|]. split; done.
    + f_equal. induction IH as [|x items [_ Hx] _ IHitems]; cbn; [done|].
      rewrite Hx. f_equal. done.
  - cbn [serialize_for_json json_ready shape_of]. split.
    + induction IH as [|[k v] fields [Hv _] _ IHfields]; cbn; [done|]. split; done.
    + f_equal. induction IH as [|[k v] fields [_ Hv] _ IHfields]; cbn; [done|].
      cbn in Hv. rewrite Hv. f_equal. done.
Qed.

(** X23 (serialize_for_json): what comes out holds no UUID and no date or
    datetime, at any depth of lists and dictionaries, and it has the shape
    of what went in: the same list lengths and the same dictionary keys in
    the same order. *)
Theorem serialize_for_json_ready obj :
  json_ready (serialize_for_json obj) ∧
  shape_of (serialize_for_json obj) = shape_of obj.
Proof. apply serialize_for_json_spec. Qed.

(** X24 (serialize_for_json): an object without UUIDs and dates is handed
    back unchanged, so serialising twice is serialising once. *)
Theorem serialize_for_json_idempotent obj :
  (json_ready obj → serialize_for_json obj = obj) ∧
  serialize_for_json (serialize_for_json obj) = serialize_for_json obj.
Proof.
  assert (Hfix : ∀ o, json_ready o → serialize_for_json o = o).
  { induction o as [| | | | | | | |items IH|fields IH] using pyobj_nested_ind;
      try done.
    - cbn [serialize_for_json json_ready]. intros Hready. f_equal.
      induction IH as [|x items Hx _ IHitems]; cbn in *; [done|].
      destruct Hready as [H1 H2]. rewrite Hx by done. f_equal. auto.
    - cbn [serialize_for_json json_ready]. intros Hready. f_equal.
      induction IH as [|[k v] fields Hv _ IHfields]; cbn in *; [done|].
      destruct Hready as [H1 H2]. rewrite Hv by done. f_equal. auto. }
  split; [apply Hfix|]. apply Hfix, serialize_for_json_spec.
Qed.

(** ** The client's constructor and the nightly job *)

Lemma prefix_app sub s : String.prefix sub (sub ++ s) = true.
Proof.
  induction sub as [|a sub IH].
  - change (String.prefix "" s = true). destruct s; reflexivity.
  - change (String.prefix (String a sub) (String a (sub ++ s)) = true).
    cbn [String.prefix]. destruct (ascii_dec a a); [exact IH|congruence].
Qed.

Lemma contains_infix sub p s : contains sub (p ++ sub ++ s) = true.
Proof.
  induction p as [|c p IH].
  - change (contains sub (sub ++ s) = true).
    destruct (sub ++ s) eqn:E; cbn [contains]; rewrite <- E, prefix_app; done.
  - change (contains sub (String c (p ++ sub ++ s)) = true).
    cbn [contains]. rewrite IH. apply orb_true_r.
Qed.

(** X25 (LLMClient.__init__, complete): the identity of every request.  For
    a client as its constructor builds it, each completion request carries
    the configured API key, which is not empty, a model name in the form
    provider/model, and the two messages, the system prompt before the user
    prompt.  Besides these the request holds the temperature, the token
    limit and at most the response format: the configured base URL is
    never passed on. *)
Theorem complete_request_identity settings self system_prompt user_prompt options w :
  LLMClient_init settings = inr self →
  ∃ t key model,
    extends w (snd (complete self system_prompt user_prompt options w)) t ∧
    llm_api_key settings = Some key ∧ key ≠ "" ∧
    contains "/" model = true ∧
    (contains "/" (llm_model settings) = true → model = llm_model settings) ∧
    Forall (fun request : gmap string json =>
              request !! "api_key" = Some (JStr key) ∧
              request !! "model" = Some (JStr model) ∧
              request !! "messages" =
                Some (JList [JDict [("role", JStr "system");
                                    ("content", JStr system_prompt)];
                             JDict [("role", JStr "user");
                                    ("content", JStr user_prompt)]]) ∧
              ∀ name, request !! name ≠ None →
                      name ∈ ["model"; "messages"; "api_key"; "temperature";
                              "max_tokens"; "response_format"])
      (completions t).
Proof.
  intros Hinit.
  destruct (complete_run self system_prompt user_prompt options w)
    as (k & t & Hext & _ & _ & Hc & _).
  unfold LLMClient_init in Hinit.
  destruct (llm_api_key settings) as [key|] eqn:Hkey; [|done].
  destruct (String.eqb_spec key ""); [done|].
  injection Hinit as <-.
  eexists t, key, _. split; [done|]. split; [done|]. split; [done|].
  split; [|split].
  3:{ rewrite Hc. apply Forall_forall. intros p Hp.
      apply list_elem_of_In, repeat_spec in Hp. subst p.
      unfold completion_params. cbn [LLMClient.model LLMClient.api_key].
      destruct (truthy _).
      - split_and!;
          repeat first [ rewrite lookup_insert_eq | rewrite lookup_insert_ne by done ];
          try reflexivity.
        intros name Hname.
        repeat match type of Hname with
               | context [<[?k := _]> _ !! name] =>
                   destruct (decide (name = k)) as [->|];
                   [set_solver|rewrite lookup_insert_ne in Hname by done]
               end.
        rewrite lookup_empty in Hname. done.
      - split_and!;
          repeat first [ rewrite lookup_insert_eq | rewrite lookup_insert_ne by done ];
          try reflexivity.
        intros name Hname.
        repeat match type of Hname with
               | context [<[?k := _]> _ !! name] =>
                   destruct (decide (name = k)) as [->|];
                   [set_solver|rewrite lookup_insert_ne in Hname by done]
               end.
        rewrite lookup_empty in Hname. done. }
  - destruct (contains "/" (llm_model settings)) eqn:E; [done|].
    apply (contains_infix "/").
  - intros E. rewrite E. done.
Qed.

Section Nightly.

Variable json_loads : string → option json.
Variable system_prompt : string.
Variable build_prompt : Context.t → string.

Local Abbreviation generate_daily_plan' :=
  (generate_daily_plan json_loads system_prompt build_prompt).
Local Abbreviation nightly_planning_job' :=
  (nightly_planning_job json_loads system_prompt build_prompt).

(** X26 (_nightly_planning_job): what one run of the nightly job can do, in
    every world.  It sends at most seven statements and places at most
    [max_retries] of the engine times [max_retries] of the client completion
    calls; it leaves users, calendar and override log as they were, and the
    plans of everyone but the first user of the store.  Without a user, or
    with the store unreachable at its first statement, it places no call and
    changes nothing. *)
Theorem nightly_planning_job_footprint self w :
  ∃ t,
    extends w (snd (nightly_planning_job' self w)) t ∧
    (length (statements t) <= 7)%nat ∧
    (length (completions t)
     <= PlanningEngine.max_retries (PlanningScheduler.planning_engine self)
        * LLMClient.max_retries
            (PlanningEngine.llm_client (PlanningScheduler.planning_engine self)))%nat ∧
    users (store (snd (nightly_planning_job' self w))) = users (store w) ∧
    calendar_events (store (snd (nightly_planning_job' self w)))
      = calendar_events (store w) ∧
    override_log (store (snd (nightly_planning_job' self w)))
      = override_log (store w) ∧
    (∀ u' d',
       (∀ user, head (users (store w)) = Some user → UserRow.id user ≠ u') →
       rows_of_key u' d' (daily_plans (store (snd (nightly_planning_job' self w))))
       = rows_of_key u' d' (daily_plans (store w))) ∧
    (users (store w) = [] ∨ db_fails w (queries w) = true →
     completions t = [] ∧ statements t = [SelectUser] ∧
     store (snd (nightly_planning_job' self w)) = store w).
Proof.
  rewrite nightly_planning_job_steps.
  set (w0 := record_effect (ELog (Running_nightly_planning (now w))) w).
  unfold get_user.
  destruct (db_fails w (queries w)) eqn:Hdb.
  { rewrite (query_store_down _ _ w0) by done. cbn [fst snd].
    eexists (([_] ++ [_]) ++ [_])%list. split.
    { apply extends_record_after, extends_record_after, extends_record. }
    cbn. split_and!; try done; lia. }
  rewrite (query_reaches_store _ _ w0) by done. cbn [fst snd].
  change (store w0) with (store w).
  set (w1 := set_store (store w) (record_effect (EQuery SelectUser) w0)).
  assert (Hext1 : extends w w1 ([ELog (Running_nightly_planning (now w))]
                                ++ [EQuery SelectUser])).
  { apply extends_set_store, extends_record_after, extends_record. }
  destruct (users (store w)) as [|user rest] eqn:Husers.
  { eexists (_ ++ [_])%list. split; [apply extends_record_after; exact Hext1|].
    cbn. split_and!; try done; lia. }
  change (now w1) with (now w).
  destruct (add_days (now w) 1) as [tomorrow|].
  2:{ eexists (_ ++ [_])%list. split; [apply extends_record_after; exact Hext1|].
      cbn. split_and!; try done; try lia. }
  destruct (generate_daily_plan_run json_loads system_prompt build_prompt
              (PlanningScheduler.planning_engine self) (UserRow.id user)
              (strftime_ymd tomorrow) w1)
    as (t2 & Hext2 & Hs2 & Hc2 & _ & Hend).
  assert (Hstore : users (store (snd (generate_daily_plan' (PlanningScheduler.planning_engine self)
                     (UserRow.id user) (strftime_ymd tomorrow) w1))) = users (store w) ∧
                   calendar_events (store (snd (generate_daily_plan' (PlanningScheduler.planning_engine self)
                     (UserRow.id user) (strftime_ymd tomorrow) w1))) = calendar_events (store w) ∧
                   override_log (store (snd (generate_daily_plan' (PlanningScheduler.planning_engine self)
                     (UserRow.id user) (strftime_ymd tomorrow) w1))) = override_log (store w) ∧
                   ∀ u' d', UserRow.id user ≠ u' →
                     rows_of_key u' d' (daily_plans (store (snd (generate_daily_plan' (PlanningScheduler.planning_engine self)
                     (UserRow.id user) (strftime_ymd tomorrow) w1)))) =
                     rows_of_key u' d' (daily_plans (store w))).
  { destruct (fst _).
    - destruct Hend as [-> _]. done.
    - destruct Hend as (d & _ & _ & _ & ->). split_and!; try done.
      intros u' d' Hne. cbn [daily_plans with_daily_plans].
      rewrite upsert_daily_plan_other_rows; [done|]. intros [? _]. done. }
  destruct (generate_daily_plan' _ _ _ w1) as [[e|plan] w2]; cbn [fst snd] in *.
  - eexists ((_ ++ t2) ++ [_])%list.
    split; [apply extends_record_after; eapply extends_trans; done|].
    rewrite !statements_app, !completions_app, !length_app. cbn.
    destruct Hstore as (? & ? & ? & Hrows).
    split_and!; try done; try lia.
    + congruence.
    + intros u' d' Hu. apply Hrows. apply Hu. done.
    + intros [?|?]; done.
  - eexists ((_ ++ t2) ++ [_])%list.
    split; [apply extends_record_after; eapply extends_trans; done|].
    rewrite !statements_app, !completions_app, !length_app. cbn.
    destruct Hstore as (? & ? & ? & Hrows).
    split_and!; try done; try lia.
    + congruence.
    + intros u' d' Hu. apply Hrows. apply Hu. done.
    + intros [?|?]; done.
Qed.

(** X27 (_nightly_planning_job): the nightly job plans the day after the
    clock.  With a user in the store, the store reachable and the clock on a
    date from the year 1000 on that is not the last day of the calendar, the
    date text the job passes on parses as tomorrow, and the run either
    leaves the store as it was or upserts one validated plan for the first
    user under tomorrow's date. *)
Theorem nightly_planning_job_plans_tomorrow self w user rest :
  users (store w) = user :: rest →
  db_fails w (queries w) = false →
  valid_date (now w) = true →
  1000 <= year (now w) →
  now w ≠ mkdate 9999 12 31 →
  ∃ tomorrow,
    add_days (now w) 1 = Some tomorrow ∧
    toordinal tomorrow = toordinal (now w) + 1 ∧
    strptime_ymd (strftime_ymd tomorrow) = Some tomorrow ∧
    (store (snd (nightly_planning_job' self w)) = store w ∨
     ∃ plan,
       DailyPlan_ok plan = true ∧
       store (snd (nightly_planning_job' self w)) =
         with_daily_plans
           (snd (upsert_daily_plan (UserRow.id user) tomorrow plan
                   (DailyPlan.reasoning plan) (now w) (daily_plans (store w))))
           (store w)).
Proof.
  intros Husers Hdb Hv Hy Hlast.
  pose proof (add_days_one (now w) Hv) as Hone.
  destruct (decide (now w = mkdate 9999 12 31)) as [|_]; [done|].
  destruct Hone as (tomorrow & Ht & Hord & Hv').
  assert (Hparse : strptime_ymd (strftime_ymd tomorrow) = Some tomorrow).
  { apply strptime_strftime; [done|].
    pose proof (year_mono (now w) tomorrow Hv Hv'). lia. }
  exists tomorrow. split; [done|]. split; [done|]. split; [done|].
  rewrite nightly_planning_job_steps.
  set (w0 := record_effect (ELog (Running_nightly_planning (now w))) w).
  unfold get_user. rewrite (query_reaches_store _ _ w0) by done. cbn [fst snd].
  change (store w0) with (store w). rewrite Husers.
  set (w1 := set_store (store w) (record_effect (EQuery SelectUser) w0)).
  change (now w1) with (now w). rewrite Ht.
  destruct (generate_daily_plan_run json_loads system_prompt build_prompt
              (PlanningScheduler.planning_engine self) (UserRow.id user)
              (strftime_ymd tomorrow) w1)
    as (t2 & _ & _ & _ & _ & Hend).
  destruct (generate_daily_plan' _ _ _ w1) as [[e|plan] w2]; cbn [fst snd] in *.
  - left. rewrite store_record_effect. destruct Hend as [-> _]. done.
  - right. rewrite store_record_effect. destruct Hend as (d & Hd & Hok & _ & ->).
    assert (d = tomorrow) as -> by congruence.
    exists plan. done.
Qed.

End Nightly.

(** X28 (complete): an answer without content.  When the provider answers
    with no message content, taking its length raises a [TypeError], which
    is outside the retryable vocabulary: the run ends after that one call,
    without a sleep, in the [LLMError] that wraps the [TypeError]. *)
Theorem complete_missing_content self system_prompt user_prompt options w :
  (0 < LLMClient.max_retries self)%nat →
  provider w (calls w) = Content None →
  fst (complete self system_prompt user_prompt options w) =
    inl (LLMError (failed_after (LLMClient.max_retries self))
           (Some (TypeError "object of type 'NoneType' has no len()")) 0) ∧
  trace (snd (complete self system_prompt user_prompt options w)) =
    (trace w ++
     [ELog (LLM_call_attempt 1 (LLMClient.max_retries self) (LLMClient.model self));
      ECompletion (completion_params self system_prompt user_prompt (default ∅ options));
      ELog (LLM_error_on_attempt 1 (LLMClient.max_retries self)
              "object of type 'NoneType' has no len()")])%list.
Proof.
  intros Hmax Hnone. unfold complete.
  destruct (LLMClient.max_retries self) as [|n] eqn:E; [lia|].
  rewrite (complete_attempts_failure self _ n 0 None w
             (TypeError "object of type 'NoneType' has no len()"))
    by (rewrite Hnone; done).
  cbv zeta.
  change (retryable (TypeError "object of type 'NoneType' has no len()")) with false.
  cbn [negb orb fst snd]. rewrite E. split; [done|].
  cbn [trace record_effect str_of_exn]. rewrite <- !app_assoc. done.
Qed.


(** ** The further properties at concrete inputs *)

Lemma gather_planning_context_reads_witness :
  strptime_ymd "2025-03-10" = Some (mkdate 2025 3 10) ∧
  add_days (mkdate 2025 3 10) 1 = Some (mkdate 2025 3 11) ∧
  ∃ t,
    extends (sample_world (answers []))
      (snd (gather_planning_context sample_engine "u1" "2025-03-10"
              (sample_world (answers [])))) t ∧
    Forall read_statement t ∧ completions t = [].
Proof.
  split; [reflexivity|]. split; [reflexivity|].
  destruct (gather_planning_context_reads sample_engine "u1" "2025-03-10"
              (mkdate 2025 3 10) (mkdate 2025 3 11) (sample_world (answers []))
              eq_refl eq_refl) as (t & Hext & _ & Hr & Hc & _).
  exists t. split; [exact Hext|]. split; [exact Hr|exact Hc].
Defined.

Lemma generate_daily_plan_no_following_day_witness :
  strptime_ymd "9999-12-31" = Some (mkdate 9999 12 31) ∧
  generate_daily_plan sample_json_loads "system" sample_prompt sample_engine "u1"
    "9999-12-31" (sample_world (answers [])) =
  (inl (OverflowError "date value out of range"), sample_world (answers [])).
Proof.
  split; [reflexivity|].
  exact (generate_daily_plan_no_following_day sample_json_loads "system" sample_prompt
           sample_engine "u1" "9999-12-31" (mkdate 9999 12 31)
           (sample_world (answers [])) eq_refl).
Defined.

Lemma generate_daily_plan_same_day_one_row_witness :
  strptime_ymd "2025-03-10" = Some (mkdate 2025 3 10) ∧
  strptime_ymd "2025-3-10" = Some (mkdate 2025 3 10) ∧
  ∃ plan2 row,
    fst (sample_generate "2025-3-10" (snd sample_first_run)) = inr plan2 ∧
    rows_of_key "u1" (mkdate 2025 3 10)
      (daily_plans (store (snd (sample_generate "2025-3-10" (snd sample_first_run)))))
    = [row] ∧
    PlanRow.plan_json row = plan2.
Proof.
  split; [reflexivity|]. split; [reflexivity|].
  assert (H1 : ∃ plan1, fst sample_first_run = inr plan1)
    by (vm_compute; eexists; reflexivity).
  assert (H2 : ∃ plan2, fst (sample_generate "2025-3-10" (snd sample_first_run)) = inr plan2)
    by (vm_compute; eexists; reflexivity).
  destruct H1 as [plan1 H1], H2 as [plan2 H2].
  pose proof (surjective_pairing sample_first_run) as E1.
  pose proof (surjective_pairing (sample_generate "2025-3-10" (snd sample_first_run))) as E2.
  rewrite H1 in E1. rewrite H2 in E2.
  assert (U : unique_plan_keys (daily_plans (store
             (sample_world (answers [Content (Some "PLAN"); Content (Some "PLAN2")])))))
    by apply NoDup_nil_2.
  destruct (generate_daily_plan_same_day_one_row sample_json_loads "system" sample_prompt
              sample_engine "u1" "2025-03-10" "2025-3-10" (mkdate 2025 3 10)
              (sample_world (answers [Content (Some "PLAN"); Content (Some "PLAN2")]))
              plan1 (snd sample_first_run) plan2
              (snd (sample_generate "2025-3-10" (snd sample_first_run)))
              U eq_refl eq_refl E1 E2)
    as (row & Hrows & Hp & _).
  exists plan2, row. split; [exact H2|]. split; [exact Hrows|exact Hp].
Defined.


Lemma override_endpoints_need_api_key_witness :
  get_overrides (mkSettings "groq" None "llama" "") (UserRow.mk "u1" "alice")
    (sample_world (answers [])) =
    (inl (LLMError "LLM_API_KEY not configured" None 0), sample_world (answers [])) ∧
  override_plan (mkSettings "groq" None "llama" "") "plan-1" ∅ (UserRow.mk "u1" "alice")
    (sample_world (answers [])) =
    (inl (LLMError "LLM_API_KEY not configured" None 0), sample_world (answers [])).
Proof.
  exact (override_endpoints_need_api_key (mkSettings "groq" None "llama" "") "plan-1" ∅
           (UserRow.mk "u1" "alice") (sample_world (answers [])) (or_introl eq_refl)).
Defined.


Lemma validate_plan_ignores_unknown_key_witness :
  validate_plan (JDict ([("date", JStr "2025-03-10")] ++ ("notes", JNull) :: [])) =
  validate_plan (JDict ([("date", JStr "2025-03-10")] ++ [])).
Proof.
  apply validate_plan_ignores_unknown_key.
  unfold plan_fields. intros H.
  repeat (apply elem_of_cons in H as [H|H]; [discriminate H|]).
  apply elem_of_nil in H. exact H.
Defined.

Lemma validate_plan_reports_missing_field_witness :
  ∃ errors,
    validate_plan (JDict [("date", JStr "2025-03-10")]) =
      inl (InvalidPlanStructure errors) ∧
    [Key "warnings"] ∈ errors.
Proof.
  apply (validate_plan_reports_missing_field [("date", JStr "2025-03-10")] "warnings").
  - unfold plan_fields. do 6 apply list_elem_of_further. apply list_elem_of_here.
  - reflexivity.
Defined.

Lemma complete_request_identity_witness :
  LLMClient_init sample_settings = inr sample_client ∧
  ∃ key model,
    llm_api_key sample_settings = Some key ∧ key ≠ "" ∧ contains "/" model = true.
Proof.
  split; [reflexivity|].
  destruct (complete_request_identity sample_settings sample_client "system" "user" None
              (sample_world (answers [])) eq_refl)
    as (t & key & model & _ & Hkey & Hne & Hmodel & _).
  exists key, model. split; [exact Hkey|]. split; [exact Hne|exact Hmodel].
Defined.

Lemma get_week_number_in_range_witness :
  valid_date (mkdate 2024 1 21) = true ∧
  ∃ n, get_week_number (mkdate 2024 1 21) = Some n ∧ 1 <= n <= 53.
Proof.
  split; [reflexivity|].
  exact (get_week_number_in_range (mkdate 2024 1 21) eq_refl).
Defined.

Lemma get_week_number_sunday_to_saturday_witness :
  weekday (mkdate 2024 1 21) = 6 ∧
  add_days (mkdate 2024 1 21) 6 = Some (mkdate 2024 1 27) ∧
  get_week_number (mkdate 2024 1 27) = get_week_number (mkdate 2024 1 21).
Proof.
  split; [reflexivity|]. split; [reflexivity|].
  apply (get_week_number_sunday_to_saturday (mkdate 2024 1 21) 6 (mkdate 2024 1 27));
    [reflexivity|reflexivity|lia|reflexivity].
Defined.

Lemma get_week_number_changes_weekly_witness :
  add_days (mkdate 2024 1 21) 7 = Some (mkdate 2024 1 28) ∧
  get_week_number (mkdate 2024 1 21) ≠ get_week_number (mkdate 2024 1 28).
Proof.
  split; [reflexivity|].
  exact (get_week_number_changes_weekly (mkdate 2024 1 21) (mkdate 2024 1 28)
           eq_refl eq_refl).
Defined.

Lemma get_week_number_recurs_witness :
  get_week_number (mkdate 2024 1 15) = Some 3 ∧
  add_days (mkdate 2024 1 15) 364 = Some (mkdate 2025 1 13) ∧
  add_days (mkdate 2024 1 15) 371 = Some (mkdate 2025 1 20) ∧
  (get_week_number (mkdate 2025 1 13) = Some 3 ∨
   get_week_number (mkdate 2025 1 20) = Some 3).
Proof.
  split; [reflexivity|]. split; [reflexivity|]. split; [reflexivity|].
  apply (get_week_number_recurs (mkdate 2024 1 15) 3 (mkdate 2025 1 13)
           (mkdate 2025 1 20)); [reflexivity|reflexivity|lia|reflexivity|reflexivity].
Defined.

Lemma strftime_strptime_round_trip_witness :
  valid_date (mkdate 2025 3 10) = true ∧
  strptime_ymd (strftime_ymd (mkdate 2025 3 10)) = Some (mkdate 2025 3 10) ∧
  strict_ymd_form (strftime_ymd (mkdate 2025 3 10)) = true ∧
  String.length (strftime_ymd (mkdate 2025 3 10)) = 10%nat.
Proof.
  split; [reflexivity|].
  apply (strftime_strptime_round_trip (mkdate 2025 3 10)); [reflexivity|].
  cbn [year]. lia.
Defined.

Lemma nightly_planning_job_plans_tomorrow_witness :
  users (store (sample_world (answers [Content (Some "PLAN")]))) =
    [UserRow.mk "u1" "alice"] ∧
  ∃ tomorrow,
    add_days (mkdate 2025 3 9) 1 = Some tomorrow ∧
    strptime_ymd (strftime_ymd tomorrow) = Some tomorrow.
Proof.
  split; [reflexivity|].
  destruct (nightly_planning_job_plans_tomorrow sample_json_loads "system" sample_prompt
              sample_scheduler (sample_world (answers [Content (Some "PLAN")]))
              (UserRow.mk "u1" "alice") [] eq_refl eq_refl eq_refl
              ltac:(cbn; lia) ltac:(discriminate))
    as (tomorrow & Ht & _ & Hparse & _).
  exists tomorrow. split; [exact Ht|exact Hparse].
Defined.

Lemma complete_missing_content_witness :
  fst (sample_complete [Content None; Content (Some "late")]) =
    inl (LLMError "LLM API call failed after 3 attempts"
           (Some (TypeError "object of type 'NoneType' has no len()")) 0).
Proof.
  exact (proj1 (complete_missing_content sample_client "system" "user" None
                  (sample_world (answers [Content None; Content (Some "late")]))
                  (le_S _ _ (le_S _ _ (le_n 1))) eq_refl)).
Defined.

